(** * Real-time train map viewer: a shallow embedding of [app.py]

    The program polls a GraphQL endpoint for vehicle positions, reshapes the
    JSON answer into plot-ready arrays and redraws a map figure and an HTML
    info panel from Dash callbacks.  This file embeds the data-shaping code:

    - the JSON documents the callbacks receive, as Python values ([pyval]);
    - the Python operations the code applies to them ([.get], subscripts,
      [in], truthiness, [==], [<], [str], [int], [min], [max]) with the
      exceptions they raise, in an error monad ([res]);
    - [get_train_info], [get_marker_colors], [add_heading_arrows],
      [get_selected_vehicle_id], [get_bounds], [update_map],
      [seconds_to_hhmm] and [get_seconds_since_midnight].

    What the interpreter, the C library and the network decide (the text of
    [repr] for floats and strings, the parser behind [int(str)], [cos] and
    [sin], the outcome of the geometry request, the wall clock) is taken as a
    parameter: [PyRuntime] and [world].  Plotly's and Dash's own validation of
    figure and component properties is outside the model; a figure is the
    data handed to the constructors.  [print] calls are not modelled. *)

From Stdlib Require Import ZArith List String Ascii Bool Lia.
From Stdlib Require Import Floats.PrimFloat Floats.SpecFloat Floats.FloatOps.
From Stdlib Require Import Floats.FloatAxioms.
From Stdlib Require Import Numbers.DecimalString.
Import ListNotations.

Set Warnings "-inexact-float,-register-all".
Set Implicit Arguments.

(* ================================================================= *)
(** ** Python values and exceptions *)

(** A value as [json.load] and [response.json()] produce it.  A [dict] keeps
    its insertion order and has string keys; it is an association list, read
    by its first binding of a key.  A [str] is the UTF-8 encoding of its
    code points. *)
Inductive pyval : Type :=
| PNone
| PBool (b : bool)
| PInt (z : Z)
| PFloat (f : float)
| PStr (s : string)
| PList (l : list pyval)
| PDict (d : list (string * pyval)).

Inductive exn : Type :=
| AttributeError
| TypeError
| KeyError
| IndexError
| ValueError
| OverflowError
| ZeroDivisionError.

Inductive res (A : Type) : Type :=
| Ok (a : A)
| Raise (e : exn).

Arguments Ok {A} a.
Arguments Raise {A} e.

Definition bind {A B : Type} (m : res A) (k : A -> res B) : res B :=
  match m with
  | Ok a => k a
  | Raise e => Raise e
  end.

Declare Scope py_scope.
Delimit Scope py_scope with py.
Notation "x <- m ;; k" := (bind m (fun x => k))
  (at level 61, m at next level, right associativity) : py_scope.
Notation "' p <- m ;; k" := (bind m (fun x => match x with p => k end))
  (at level 61, p pattern, m at next level, right associativity) : py_scope.
Open Scope py_scope.
Open Scope string_scope.

(** [try: m except Exception: h] *)
Definition try_except {A : Type} (m : res A) (h : exn -> res A) : res A :=
  match m with
  | Ok a => Ok a
  | Raise e => h e
  end.

(** A comprehension [[f(x) for x in xs]] and a filtered one
    [[f(x) for x in xs if c(x)]]: left to right, stopping at the first
    exception. *)
Fixpoint mapM {A B : Type} (f : A -> res B) (xs : list A) : res (list B) :=
  match xs with
  | [] => Ok []
  | x :: xs' => y <- f x ;; ys <- mapM f xs' ;; Ok (y :: ys)
  end.

Fixpoint filter_mapM {A B : Type} (c : A -> res bool) (f : A -> res B)
    (xs : list A) : res (list B) :=
  match xs with
  | [] => Ok []
  | x :: xs' =>
      b <- c x ;;
      if b then y <- f x ;; ys <- filter_mapM c f xs' ;; Ok (y :: ys)
      else filter_mapM c f xs'
  end.

(* ----------------------------------------------------------------- *)
(** *** Dictionaries, subscripts and membership *)

Fixpoint dict_get (d : list (string * pyval)) (k : string) : option pyval :=
  match d with
  | [] => None
  | (k', v) :: d' => if String.eqb k' k then Some v else dict_get d' k
  end.

Definition dict_has (d : list (string * pyval)) (k : string) : bool :=
  match dict_get d k with Some _ => true | None => false end.

Definition lookup_or (d : list (string * pyval)) (k : string) (dflt : pyval) : pyval :=
  match dict_get d k with Some x => x | None => dflt end.

(** [v.get(k, dflt)]: only a dict has the method. *)
Definition py_get_or (v : pyval) (k : string) (dflt : pyval) : res pyval :=
  match v with
  | PDict d => Ok (lookup_or d k dflt)
  | _ => Raise AttributeError
  end.

(** [v.get(k)] *)
Definition py_get (v : pyval) (k : string) : res pyval := py_get_or v k PNone.

(** [v[k]] with a string key. *)
Definition py_item (v : pyval) (k : string) : res pyval :=
  match v with
  | PDict d => match dict_get d k with Some x => Ok x | None => Raise KeyError end
  | _ => Raise TypeError
  end.

(** The code points of a string: a byte [10xxxxxx] continues the character
    before it. *)
Definition is_continuation (c : ascii) : bool :=
  let n := nat_of_ascii c in (128 <=? n)%nat && (n <? 192)%nat.

Fixpoint split_chars (s : string) : string * list string :=
  match s with
  | EmptyString => (EmptyString, [])
  | String c r =>
      let (pend, cs) := split_chars r in
      if is_continuation c then (String c pend, cs)
      else (EmptyString, String c pend :: cs)
  end.

Definition str_chars (s : string) : list string :=
  let (pend, cs) := split_chars s in
  match pend with EmptyString => cs | _ => pend :: cs end.

(** [l[i]] on a sequence of length [n]: a negative index counts from the
    end. *)
Definition seq_index {A : Type} (l : list A) (i : Z) : res A :=
  let n := Z.of_nat (List.length l) in
  let j := if (i <? 0)%Z then (i + n)%Z else i in
  if ((j <? 0) || (n <=? j))%Z then Raise IndexError
  else match nth_error l (Z.to_nat j) with
       | Some x => Ok x
       | None => Raise IndexError
       end.

(** [v[i]] with an integer index. *)
Definition py_at (v : pyval) (i : Z) : res pyval :=
  match v with
  | PList l => seq_index l i
  | PStr s => c <- seq_index (str_chars s) i ;; Ok (PStr c)
  | PDict _ => Raise KeyError
  | _ => Raise TypeError
  end.

(** [for x in v] *)
Definition py_iter (v : pyval) : res (list pyval) :=
  match v with
  | PList l => Ok l
  | PStr s => Ok (map PStr (str_chars s))
  | PDict d => Ok (map (fun kv => PStr (fst kv)) d)
  | _ => Raise TypeError
  end.

(** [isinstance(v, dict)] *)
Definition is_dict (v : pyval) : bool :=
  match v with PDict _ => true | _ => false end.

(* ----------------------------------------------------------------- *)
(** *** Numbers *)

Definition Z_of_bool (b : bool) : Z := if b then 1%Z else 0%Z.

(** [float ? z], exactly, as CPython compares a float with an int; [None]
    for a NaN. *)
Definition float_cmp_Z (f : float) (z : Z) : option comparison :=
  match Prim2SF f with
  | S754_nan => None
  | S754_infinity s => Some (if s then Lt else Gt)
  | S754_zero _ => Some (0 ?= z)%Z
  | S754_finite s m e =>
      let fm := if s then Z.neg m else Z.pos m in
      Some (if (0 <=? e)%Z then (fm * 2 ^ e ?= z)%Z
            else (fm ?= z * 2 ^ (- e))%Z)
  end.

(** The numeric view of a value: [bool] is a subclass of [int]. *)
Inductive num : Type :=
| NInt (z : Z)
| NFloat (f : float).

Definition as_num (v : pyval) : option num :=
  match v with
  | PBool b => Some (NInt (Z_of_bool b))
  | PInt z => Some (NInt z)
  | PFloat f => Some (NFloat f)
  | _ => None
  end.

Definition num_eq (a b : num) : bool :=
  match a, b with
  | NInt x, NInt y => (x =? y)%Z
  | NFloat x, NFloat y => PrimFloat.eqb x y
  | NFloat x, NInt y | NInt y, NFloat x =>
      match float_cmp_Z x y with Some Eq => true | _ => false end
  end.

Definition num_lt (a b : num) : bool :=
  match a, b with
  | NInt x, NInt y => (x <? y)%Z
  | NFloat x, NFloat y => PrimFloat.ltb x y
  | NFloat x, NInt y =>
      match float_cmp_Z x y with Some Lt => true | _ => false end
  | NInt x, NFloat y =>
      match float_cmp_Z y x with Some Gt => true | _ => false end
  end.

Definition num_le (a b : num) : bool :=
  match a, b with
  | NInt x, NInt y => (x <=? y)%Z
  | NFloat x, NFloat y => PrimFloat.leb x y
  | NFloat x, NInt y =>
      match float_cmp_Z x y with Some Lt | Some Eq => true | _ => false end
  | NInt x, NFloat y =>
      match float_cmp_Z y x with Some Gt | Some Eq => true | _ => false end
  end.

(** [float(z)] for an int: round to nearest even; too large an int raises. *)
Definition float_of_Z (z : Z) : res float :=
  let sf := match z with
            | Z0 => S754_zero false
            | Zpos _ => binary_normalize prec emax z 0 false
            | Zneg _ => binary_normalize prec emax z 0 true
            end in
  match sf with
  | S754_infinity _ => Raise OverflowError
  | _ => Ok (SF2Prim sf)
  end.

(** The C double of an argument of a [math] function or of a float
    operand. *)
Definition py_to_float (v : pyval) : res float :=
  match as_num v with
  | Some (NFloat f) => Ok f
  | Some (NInt z) => float_of_Z z
  | None => Raise TypeError
  end.

(** [int(f)] for a float: truncation toward zero. *)
Definition Z_of_float (f : float) : res Z :=
  match Prim2SF f with
  | S754_nan => Raise ValueError
  | S754_infinity _ => Raise OverflowError
  | S754_zero _ => Ok 0%Z
  | S754_finite s m e =>
      let a := if (0 <=? e)%Z then (Z.pos m * 2 ^ e)%Z
               else (Z.pos m / 2 ^ (- e))%Z in
      Ok (if s then (- a)%Z else a)
  end.

(* ----------------------------------------------------------------- *)
(** *** Truthiness, equality and order *)

(** [bool(v)] *)
Definition truthy (v : pyval) : bool :=
  match v with
  | PNone => false
  | PBool b => b
  | PInt z => negb (z =? 0)%Z
  | PFloat f => negb (PrimFloat.eqb f 0%float)
  | PStr s => negb (String.eqb s "")
  | PList l => match l with [] => false | _ => true end
  | PDict d => match d with [] => false | _ => true end
  end.

(** [a == b].  Lists are compared element by element and dicts binding by
    binding; CPython's identity shortcut inside containers (it only shows
    for a container holding a NaN) is not modelled. *)
Fixpoint py_eq (a b : pyval) {struct a} : bool :=
  match a, b with
  | PNone, PNone => true
  | PStr x, PStr y => String.eqb x y
  | PList la, PList lb =>
      (fix eq_list (la lb : list pyval) {struct la} : bool :=
         match la, lb with
         | [], [] => true
         | x :: la', y :: lb' => py_eq x y && eq_list la' lb'
         | _, _ => false
         end) la lb
  | PDict da, PDict db =>
      (List.length da =? List.length db)%nat &&
      (fix eq_dict (da : list (string * pyval)) {struct da} : bool :=
         match da with
         | [] => true
         | (k, x) :: da' =>
             match dict_get db k with
             | Some y => py_eq x y && eq_dict da'
             | None => false
             end
         end) da
  | _, _ =>
      match as_num a, as_num b with
      | Some x, Some y => num_eq x y
      | _, _ => false
      end
  end.

Inductive cmpop : Type := OpLt | OpLe | OpGt | OpGe.

Definition cmp_nat (op : cmpop) (n m : nat) : bool :=
  match op with
  | OpLt => (n <? m)%nat
  | OpLe => (n <=? m)%nat
  | OpGt => (m <? n)%nat
  | OpGe => (m <=? n)%nat
  end.

Definition cmp_num (op : cmpop) (x y : num) : bool :=
  match op with
  | OpLt => num_lt x y
  | OpLe => num_le x y
  | OpGt => num_lt y x
  | OpGe => num_le y x
  end.

Definition cmp_str (op : cmpop) (x y : string) : bool :=
  match op with
  | OpLt => String.ltb x y
  | OpLe => String.leb x y
  | OpGt => String.ltb y x
  | OpGe => String.leb y x
  end.

(** [a < b], [a <= b], [a > b], [a >= b]: numbers with numbers, strings
    with strings (byte order of UTF-8 is code point order), lists with lists
    (the first pair of unequal elements decides, else the lengths);
    anything else is a [TypeError]. *)
Fixpoint py_cmp (op : cmpop) (a b : pyval) {struct a} : res bool :=
  match a, b with
  | PStr x, PStr y => Ok (cmp_str op x y)
  | PList la, PList lb =>
      (fix cmp_list (la lb : list pyval) {struct la} : res bool :=
         match la, lb with
         | x :: la', y :: lb' =>
             if py_eq x y then cmp_list la' lb' else py_cmp op x y
         | _, _ => Ok (cmp_nat op (List.length la) (List.length lb))
         end) la lb
  | _, _ =>
      match as_num a, as_num b with
      | Some x, Some y => Ok (cmp_num op x y)
      | _, _ => Raise TypeError
      end
  end.

Definition py_lt := py_cmp OpLt.
Definition py_le := py_cmp OpLe.

(** [k in v] for a string [k]. *)
Definition py_in (k : string) (v : pyval) : res bool :=
  match v with
  | PDict d => Ok (dict_has d k)
  | PList l => Ok (existsb (fun x => py_eq (PStr k) x) l)
  | PStr s => Ok (match String.index 0 k s with Some _ => true | None => false end)
  | _ => Raise TypeError
  end.

(** [min(l)] and [max(l)]: the first element is kept until a later one is
    strictly smaller (larger); an empty argument is a [ValueError]. *)
Fixpoint extremum (op : cmpop) (cur : pyval) (l : list pyval) : res pyval :=
  match l with
  | [] => Ok cur
  | x :: l' => b <- py_cmp op x cur ;; extremum op (if b then x else cur) l'
  end.

Definition py_min (l : list pyval) : res pyval :=
  match l with [] => Raise ValueError | x :: l' => extremum OpLt x l' end.

Definition py_max (l : list pyval) : res pyval :=
  match l with [] => Raise ValueError | x :: l' => extremum OpGt x l' end.

(* ----------------------------------------------------------------- *)
(** *** Text: [str], [int] and format specifications *)

(** The decimal digits of a natural number. *)
Definition digits (z : Z) : string :=
  NilZero.string_of_uint (N.to_uint (Z.to_N z)).

(** [str(z)] for an int. *)
Definition int_str (z : Z) : string :=
  if (z <? 0)%Z then String "-" (digits (- z)) else digits z.

Fixpoint zeros (n : nat) : string :=
  match n with
  | O => EmptyString
  | S n' => String "0" (zeros n')
  end.

(** [f"{z:0w}"]: sign first, then zeros up to the width [w], then digits. *)
Definition format_zero_pad (w : nat) (z : Z) : string :=
  let sign := if (z <? 0)%Z then "-" else "" in
  let ds := digits (Z.abs z) in
  sign ++ zeros (w - String.length sign - String.length ds) ++ ds.

(** [f"{z:+}"]: the sign is always written. *)
Definition format_signed (z : Z) : string :=
  (if (z <? 0)%Z then "-" else "+") ++ digits (Z.abs z).

(** What the interpreter and the C library decide. *)
Class PyRuntime : Type := {
  (** [repr(f)] of a float: the shortest decimal that reads back as [f] *)
  float_repr : float -> string;
  float_repr_nonempty : forall f, float_repr f <> EmptyString;
  (** [repr(s)] of a str: quoted and escaped *)
  str_repr : string -> string;
  (** [int(s)] of a str; [None] where it raises [ValueError] *)
  int_of_str : string -> option Z;
  (** [cos] and [sin] of the C library *)
  libm_cos : float -> float;
  libm_sin : float -> float
}.

Section Runtime.

Context {RT : PyRuntime}.

(** [repr(v)] *)
Fixpoint py_repr (v : pyval) : string :=
  match v with
  | PNone => "None"
  | PBool b => if b then "True" else "False"
  | PInt z => int_str z
  | PFloat f => float_repr f
  | PStr s => str_repr s
  | PList l => "[" ++ String.concat ", " (map py_repr l) ++ "]"
  | PDict d =>
      "{" ++ String.concat ", "
               (map (fun kv => str_repr (fst kv) ++ ": " ++ py_repr (snd kv)) d)
          ++ "}"
  end.

(** [str(v)], also what [f"{v}"] writes. *)
Definition py_str (v : pyval) : string :=
  match v with
  | PStr s => s
  | _ => py_repr v
  end.

(** [int(v)] *)
Definition py_int (v : pyval) : res Z :=
  match v with
  | PBool b => Ok (Z_of_bool b)
  | PInt z => Ok z
  | PFloat f => Z_of_float f
  | PStr s => match int_of_str s with Some z => Ok z | None => Raise ValueError end
  | _ => Raise TypeError
  end.

(** [math.radians(v)]: the argument as a double, times pi/180. *)
Definition deg_to_rad : float := (3.141592653589793 / 180)%float.

Definition math_radians (v : pyval) : res float :=
  x <- py_to_float v ;; Ok (x * deg_to_rad)%float.

(** [math.cos(x)], [math.sin(x)] on a double: CPython raises [ValueError]
    when the C function answers a NaN for an argument that is not one, or an
    infinity for a finite argument. *)
Definition math_fun (g : float -> float) (x : float) : res float :=
  let r := g x in
  if PrimFloat.is_nan r && negb (PrimFloat.is_nan x) then Raise ValueError
  else if PrimFloat.is_infinity r && PrimFloat.is_finite x then Raise ValueError
  else Ok r.

Definition math_cos : float -> res float := math_fun libm_cos.
Definition math_sin : float -> res float := math_fun libm_sin.

(** [x / y] on floats *)
Definition float_div (x y : float) : res float :=
  if PrimFloat.eqb y 0%float then Raise ZeroDivisionError else Ok (x / y)%float.

(** [v + f] with a float right operand *)
Definition py_add_float (v : pyval) (f : float) : res float :=
  x <- py_to_float v ;; Ok (x + f)%float.

(** [v + s] and [s + v] with a str operand: only a str can join it. *)
Definition py_add_str (v : pyval) (s : string) : res string :=
  match v with
  | PStr a => Ok (a ++ s)
  | _ => Raise TypeError
  end.

Definition str_add_py (s : string) (v : pyval) : res string :=
  match v with
  | PStr a => Ok (s ++ a)
  | _ => Raise TypeError
  end.

End Runtime.

(* ================================================================= *)
(** ** The data model *)

(** The derived view of one vehicle: the dict [get_train_info] returns, with
    its nine fixed keys. *)
Record train : Type := {
  name : pyval;
  lat : pyval;
  lon : pyval;
  speed : pyval;
  delay : pyval;
  stoptimes : pyval;
  gtfsId : pyval;
  route : pyval;
  vehicleId : pyval
}.

(** The viewport rectangle [get_bounds] derives from a pan or zoom event. *)
Record bounds : Type := {
  lat_min : pyval;
  lat_max : pyval;
  lon_min : pyval;
  lon_max : pyval
}.

(** A [go.Scattermapbox] trace: the keyword arguments of the constructor. *)
Inductive colors : Type :=
| Color (c : string)
| ColorList (cs : list string).

Record marker : Type := {
  size : Z;
  color : colors;
  symbol : option string;
  allowoverlap : option bool
}.

Record line : Type := {
  width : Z;
  line_color : string
}.

Record trace : Type := {
  tr_lat : list pyval;
  tr_lon : list pyval;
  tr_mode : string;
  tr_marker : option marker;
  tr_line : option line;
  tr_text : option (list pyval);
  tr_customdata : option (list pyval);
  tr_name : string;
  tr_hoverinfo : option string;
  tr_showlegend : option bool;
  tr_textposition : option string
}.

(** The argument of [fig.update_layout]. *)
Record layout : Type := {
  mapbox_style : string;
  center : float * float;
  zoom : pyval;
  margin : list (string * Z);
  showlegend : bool;
  height : Z;
  uirevision : bool
}.

(** A [go.Figure]: its traces in the order they were added and its layout
    once [update_layout] has been called. *)
Record figure : Type := {
  fig_data : list trace;
  fig_layout : option layout
}.

Definition empty_figure : figure := {| fig_data := []; fig_layout := None |}.

Definition add_trace (fig : figure) (t : trace) : figure :=
  {| fig_data := fig_data fig ++ [t]; fig_layout := fig_layout fig |}.

Definition update_layout (fig : figure) (l : layout) : figure :=
  {| fig_data := fig_data fig; fig_layout := Some l |}.

(** A Dash component tree: a JSON value (a str, or [None] for no child), a
    list of children, or an element with its children, [title] and
    [style]. *)
Inductive html : Type :=
| Val (v : pyval)
| Children (l : list html)
| El (tag : string) (children : html) (title : option pyval)
     (style : list (string * string)).

Definition Txt (s : string) : html := Val (PStr s).
Definition NoChild : html := Val PNone.

(** The wall clock and the network, as [update_map] consults them.
    [route_geometry g] is the outcome of the request for the geometry of trip
    [g] (the whole [try] block, which swallows every exception): the
    decoded latitudes and longitudes when a route line is drawn, [None] when
    nothing is. *)
Record clock : Type := {
  hour : nat;
  minute : nat;
  second : nat
}.

Record world : Type := {
  now : clock;
  route_geometry : pyval -> option (list pyval * list pyval)
}.

(* ================================================================= *)
(** ** The functions of [app.py] *)

Definition get_seconds_since_midnight (c : clock) : Z :=
  (Z.of_nat (hour c) * 3600 + Z.of_nat (minute c) * 60 + Z.of_nat (second c))%Z.

Section Program.

Context {RT : PyRuntime}.

(** [a or b], with [b] evaluated only when [a] is falsy. *)
Definition py_or (a : pyval) (b : res pyval) : res pyval :=
  if truthy a then Ok a else b.

Definition get_train_info (vehicle : pyval) : res train :=
  trip <- py_get_or vehicle "trip" (PDict []) ;;
  short <- py_get trip "tripShortName" ;;
  name <- py_or short (py_get_or vehicle "vehicleId" (PStr "Unknown")) ;;
  speed <- py_get_or vehicle "speed" (PStr "N/A") ;;
  stop <- py_get_or vehicle "prevOrCurrentStop" (PDict []) ;;
  delay <- py_get_or stop "arrivalDelay" (PStr "N/A") ;;
  lat <- py_get vehicle "lat" ;;
  lon <- py_get vehicle "lon" ;;
  gtfsId <- py_get trip "gtfsId" ;;
  route <- py_get_or trip "route" (PDict []) ;;
  vehicleId <- py_get vehicle "vehicleId" ;;
  stoptimes <- py_get_or trip "stoptimes" (PList []) ;;
  Ok {| name := name; lat := lat; lon := lon; speed := speed; delay := delay;
        stoptimes := stoptimes; gtfsId := gtfsId; route := route;
        vehicleId := vehicleId |}.

(** The filter [v.get('lat') and v.get('lon')] of the comprehensions that
    build [trains] and the [customdata] of the marker layer. *)
Definition has_coords (v : pyval) : res bool :=
  la <- py_get v "lat" ;;
  if truthy la then lo <- py_get v "lon" ;; Ok (truthy lo) else Ok false.

(** [[get_train_info(v) for v in vehicle_positions
      if v.get('lat') and v.get('lon')]] *)
Definition trains_of (vehicle_positions : list pyval) : res (list train) :=
  filter_mapM has_coords get_train_info vehicle_positions.

(** [str(v.get('vehicleId') or v.get('trip', {}).get('tripShortName')
        or 'unknown')] *)
Definition vehicle_ident (v : pyval) : res string :=
  vid <- py_get v "vehicleId" ;;
  x <- py_or vid (trip <- py_get_or v "trip" (PDict []) ;;
                  short <- py_get trip "tripShortName" ;;
                  py_or short (Ok (PStr "unknown"))) ;;
  Ok (py_str x).

(** [selected_vehicle_id and vid == selected_vehicle_id], where the
    selection is a str or [None]. *)
Definition is_selected (selected_vehicle_id : option string) (vid : string) : bool :=
  match selected_vehicle_id with
  | Some s => negb (String.eqb s "") && String.eqb vid s
  | None => false
  end.

(** [get_marker_colors(vehicle_positions, selected_vehicle_id)], on the
    arguments its one call passes: a list, and the str or [None] that
    [get_selected_vehicle_id] returned. *)
Definition get_marker_colors (vehicle_positions : list pyval)
    (selected_vehicle_id : option string) : res (list string) :=
  mapM (fun v =>
          vid <- vehicle_ident v ;;
          Ok (if is_selected selected_vehicle_id vid then "#e67e22" else "blue"))
       vehicle_positions.

(** One heading arrow: the segment from the train to the tip, the index of
    the train and the label of the arrow head. *)
Record arrow : Type := {
  a_lat1 : pyval;
  a_lon1 : pyval;
  a_lat2 : float;
  a_lon2 : float;
  a_index : nat;
  a_text : string
}.

(** [bounds['lat_min'] <= lat1 <= bounds['lat_max'] and
     bounds['lon_min'] <= lon1 <= bounds['lon_max']] *)
Definition in_bounds (b : bounds) (lat1 lon1 : pyval) : res bool :=
  c1 <- py_le (lat_min b) lat1 ;;
  if negb c1 then Ok false else
  c2 <- py_le lat1 (lat_max b) ;;
  if negb c2 then Ok false else
  c3 <- py_le (lon_min b) lon1 ;;
  if negb c3 then Ok false else
  py_le lon1 (lon_max b).

(** The search for the heading of a train among the raw records: the first
    one with the same coordinates gives it. *)
Fixpoint find_heading (vs : list pyval) (lat1 lon1 : pyval) : res pyval :=
  match vs with
  | [] => Ok PNone
  | v :: vs' =>
      la <- py_get v "lat" ;;
      if py_eq la lat1 then
        lo <- py_get v "lon" ;;
        if py_eq lo lon1 then py_get v "heading" else find_heading vs' lat1 lon1
      else find_heading vs' lat1 lon1
  end.

(** The heading of a train: the view has no ['heading'] key, so
    [t.get('heading')] is [None] and the raw records are searched. *)
Definition heading_of (data : pyval) (lat1 lon1 : pyval) : res pyval :=
  d <- py_item data "data" ;;
  has <- py_in "vehiclePositions" d ;;
  if has then
    d' <- py_item data "data" ;;
    vps <- py_item d' "vehiclePositions" ;;
    vs <- py_iter vps ;;
    find_heading vs lat1 lon1
  else Ok PNone.

(** The tip of the arrow of a train at [(lat1, lon1)] with a heading. *)
Definition arrow_of (i : nat) (t : train) (heading : pyval) : res arrow :=
  let lat1 := lat t in
  let lon1 := lon t in
  let length := 0.003%float in
  angle_rad <- math_radians heading ;;
  c <- math_cos angle_rad ;;
  let dlat := (length * c)%float in
  s <- math_sin angle_rad ;;
  r <- math_radians lat1 ;;
  cl <- math_cos r ;;
  dlon <- float_div (length * s)%float cl ;;
  lat2 <- py_add_float lat1 dlat ;;
  lon2 <- py_add_float lon1 dlon ;;
  Ok {| a_lat1 := lat1; a_lon1 := lon1; a_lat2 := lat2; a_lon2 := lon2;
        a_index := i;
        a_text := py_str (name t) ++ " heading: " ++ py_str heading |}.

(** The loop of [add_heading_arrows] over [enumerate(trains)], from index
    [i]. *)
Fixpoint collect_arrows (data : pyval) (b : option bounds) (i : nat)
    (trains : list train) : res (list arrow) :=
  match trains with
  | [] => Ok []
  | t :: trains' =>
      inside <- match b with
                | Some b' => in_bounds b' (lat t) (lon t)
                | None => Ok true
                end ;;
      if negb inside then collect_arrows data b (S i) trains' else
      heading <- heading_of data (lat t) (lon t) ;;
      match heading with
      | PNone => collect_arrows data b (S i) trains'
      | _ =>
          a <- arrow_of i t heading ;;
          rest <- collect_arrows data b (S i) trains' ;;
          Ok (a :: rest)
      end
  end.

Definition heading_line (a : arrow) : trace :=
  {| tr_lat := [a_lat1 a; PFloat (a_lat2 a)];
     tr_lon := [a_lon1 a; PFloat (a_lon2 a)];
     tr_mode := "lines";
     tr_marker := None;
     tr_line := Some {| width := 2; line_color := "black" |};
     tr_text := None;
     tr_customdata := None;
     tr_name := "HeadingLine";
     tr_hoverinfo := Some "skip";
     tr_showlegend := Some false;
     tr_textposition := None |}.

Definition heading_heads (arrows : list arrow) : trace :=
  {| tr_lat := map (fun a => PFloat (a_lat2 a)) arrows;
     tr_lon := map (fun a => PFloat (a_lon2 a)) arrows;
     tr_mode := "markers";
     tr_marker := Some {| size := 16; color := Color "black";
                          symbol := Some "triangle";
                          allowoverlap := Some true |};
     tr_line := None;
     tr_text := Some (map (fun a => PStr (a_text a)) arrows);
     tr_customdata := Some (map (fun a => PInt (Z.of_nat (a_index a))) arrows);
     tr_name := "HeadingArrow";
     tr_hoverinfo := Some "skip";
     tr_showlegend := Some false;
     tr_textposition := None |}.

(** [add_heading_arrows(fig, trains, data, bounds, zoom)]; the figure it
    leaves behind. *)
Definition add_heading_arrows (fig : figure) (trains : list train)
    (data : pyval) (b : option bounds) (zoom : pyval) : res figure :=
  small <- py_lt zoom (PInt 12) ;;
  if small then Ok fig else
  arrows <- collect_arrows data b 0 trains ;;
  let fig1 := fold_left (fun f a => add_trace f (heading_line a)) arrows fig in
  Ok (match arrows with
      | [] => fig1
      | _ => add_trace fig1 (heading_heads arrows)
      end).

Definition get_selected_vehicle_id (clickData : pyval) : res (option string) :=
  has <- (if truthy clickData then py_in "points" clickData else Ok false) ;;
  if has then
    pts <- py_item clickData "points" ;;
    p <- py_at pts 0 ;;
    c <- py_item p "customdata" ;;
    Ok (Some (py_str c))
  else Ok None.

Definition get_bounds (relayoutData : pyval) : res (pyval * option bounds) :=
  let zoom := PInt 7 in
  let b := None in
  if truthy relayoutData then
    hz <- py_in "mapbox.zoom" relayoutData ;;
    zoom <- (if hz then py_item relayoutData "mapbox.zoom" else Ok zoom) ;;
    hd <- py_in "mapbox._derived" relayoutData ;;
    if hd then
      derived <- py_item relayoutData "mapbox._derived" ;;
      hc <- py_in "coordinates" derived ;;
      if hc then
        coords <- py_item derived "coordinates" ;;
        cs <- py_iter coords ;;
        lats <- mapM (fun c => py_at c 1) cs ;;
        lons <- mapM (fun c => py_at c 0) cs ;;
        la_min <- py_min lats ;;
        la_max <- py_max lats ;;
        lo_min <- py_min lons ;;
        lo_max <- py_max lons ;;
        Ok (zoom, Some {| lat_min := la_min; lat_max := la_max;
                          lon_min := lo_min; lon_max := lo_max |})
      else Ok (zoom, b)
    else Ok (zoom, b)
  else Ok (zoom, b).

Definition seconds_to_hhmm (seconds : pyval) : res string :=
  if match seconds with PNone => true | _ => false end
     || py_eq seconds (PStr "")
  then Ok ""
  else
    try_except
      (seconds <- py_int seconds ;;
       let hours := (seconds / 3600)%Z in
       let minutes := ((seconds mod 3600) / 60)%Z in
       Ok (format_zero_pad 2 hours ++ ":" ++ format_zero_pad 2 minutes))
      (fun _ => Ok "").

(* ----------------------------------------------------------------- *)
(** *** [update_map]: the marker layer *)

Definition default_layout (zoom : pyval) : layout :=
  {| mapbox_style := "open-street-map";
     center := (47.1625%float, 19.5033%float);
     zoom := zoom;
     margin := [("r", 0%Z); ("t", 0%Z); ("l", 0%Z); ("b", 0%Z)];
     showlegend := false;
     height := 900;
     uirevision := true |}.

(** The hover text of a train marker. *)
Definition train_text (t : train) : string :=
  py_str (name t) ++ "<br>Speed: " ++ py_str (speed t) ++ " km/h<br>Delay: "
    ++ py_str (delay t) ++ " sec".

(** The trace named ['Trains']. *)
Definition trains_trace (trains : list train) (marker_colors : list string)
    (vehicle_positions : list pyval) : res trace :=
  customdata <- filter_mapM has_coords vehicle_ident vehicle_positions ;;
  Ok {| tr_lat := map lat trains;
        tr_lon := map lon trains;
        tr_mode := "markers";
        tr_marker := Some {| size := 20; color := ColorList marker_colors;
                             symbol := None; allowoverlap := None |};
        tr_line := None;
        tr_text := Some (map (fun t => PStr (train_text t)) trains);
        tr_customdata := Some (map PStr customdata);
        tr_name := "Trains";
        tr_hoverinfo := None;
        tr_showlegend := None;
        tr_textposition := None |}.

(** [next((t for t in trains if str(t.get(key)) == vehicle_id), None)] *)
Definition find_train (key : train -> pyval) (vehicle_id : string)
    (trains : list train) : option train :=
  find (fun t => String.eqb (py_str (key t)) vehicle_id) trains.

(** The clicked train: by vehicle id, else by display name. *)
Definition resolve_train (vehicle_id : string) (trains : list train) : option train :=
  match find_train vehicleId vehicle_id trains with
  | Some t => Some t
  | None => find_train name vehicle_id trains
  end.

(* ----------------------------------------------------------------- *)
(** *** [update_map]: the route detail of the clicked train *)

(** [[s['stop'][k] for s in stops if s.get('stop')]] *)
Definition stop_field (k : string) (stops : list pyval) : res (list pyval) :=
  filter_mapM (fun s => st <- py_get s "stop" ;; Ok (truthy st))
              (fun s => st <- py_item s "stop" ;; py_item st k)
              stops.

Definition stops_trace (stop_lats stop_lons stop_names : list pyval) : trace :=
  {| tr_lat := stop_lats;
     tr_lon := stop_lons;
     tr_mode := "markers+text";
     tr_marker := Some {| size := 15; color := Color "red";
                          symbol := None; allowoverlap := None |};
     tr_line := None;
     tr_text := Some stop_names;
     tr_customdata := None;
     tr_name := "Stops";
     tr_hoverinfo := None;
     tr_showlegend := None;
     tr_textposition := Some "top right" |}.

Definition route_trace (route_lats route_lons : list pyval) : trace :=
  {| tr_lat := route_lats;
     tr_lon := route_lons;
     tr_mode := "lines";
     tr_marker := None;
     tr_line := Some {| width := 3; line_color := "orange" |};
     tr_text := None;
     tr_customdata := None;
     tr_name := "Route";
     tr_hoverinfo := None;
     tr_showlegend := None;
     tr_textposition := None |}.

(** [int(x) if x else None] *)
Definition int_or_none (x : pyval) : res (option Z) :=
  if truthy x then z <- py_int x ;; Ok (Some z) else Ok None.

(** [x and x > now_sec] for an int or [None]. *)
Definition after (x : option Z) (now_sec : Z) : bool :=
  match x with
  | Some z => negb (z =? 0)%Z && (now_sec <? z)%Z
  | None => false
  end.

(** The loop that finds [next_stop_idx], from index [idx]. *)
Fixpoint find_next_stop (now_sec : Z) (idx : nat) (stops : list pyval)
    : res (option nat) :=
  match stops with
  | [] => Ok None
  | s :: stops' =>
      arr <- py_get s "realtimeArrival" ;;
      dep <- py_get s "realtimeDeparture" ;;
      arr <- int_or_none arr ;;
      dep <- int_or_none dep ;;
      if after arr now_sec || after dep now_sec then Ok (Some idx)
      else find_next_stop now_sec (S idx) stops'
  end.

(** The delay the panel shows: that of the next stop, or of the last stop
    at the end of the route. *)
Definition delay_of (stops : pyval) (next_stop_idx : option nat) : res pyval :=
  match next_stop_idx with
  | Some i => s <- py_at stops (Z.of_nat i) ;; py_get s "arrivalDelay"
  | None => s <- py_at stops (-1) ;; py_get s "arrivalDelay"
  end.

Definition delay_min_of (delay_val : pyval) : res string :=
  match delay_val with
  | PNone => Ok ""
  | _ => d <- py_int delay_val ;; Ok (format_signed (d / 60) ++ " min")
  end.

Definition delay_color_of (delay_val : pyval) : res string :=
  late <- (if truthy delay_val then d <- py_int delay_val ;; Ok (0 <? d)%Z
           else Ok false) ;;
  Ok (if late then "#e67e22" else "#2ecc40").

(** [s.get(rt) and s.get(sc) and rel(int(s.get(rt)), int(s.get(sc)))] *)
Definition both_and (rel : Z -> Z -> bool) (rt sc : string) (s : pyval) : res bool :=
  r <- py_get s rt ;;
  if negb (truthy r) then Ok false else
  c <- py_get s sc ;;
  if negb (truthy c) then Ok false else
  r' <- py_get s rt ;;
  a <- py_int r' ;;
  c' <- py_get s sc ;;
  b <- py_int c' ;;
  Ok (rel a b).

Definition struck_style : list (string * string) :=
  [("textDecoration", "line-through"); ("color", "#888");
   ("marginRight", "4px"); ("whiteSpace", "nowrap"); ("overflow", "hidden");
   ("textOverflow", "ellipsis"); ("minWidth", "44px"); ("maxWidth", "56px")].

Definition time_style (c : string) : list (string * string) :=
  [("color", c); ("fontWeight", "bold"); ("whiteSpace", "nowrap");
   ("overflow", "hidden"); ("textOverflow", "ellipsis");
   ("minWidth", "44px"); ("maxWidth", "56px")].

Definition cell_style : list (string * string) :=
  [("display", "inline-block"); ("width", "104px"); ("whiteSpace", "nowrap");
   ("overflow", "hidden"); ("textOverflow", "ellipsis")].

(** One time cell of a stop row: the scheduled time struck through when
    the real-time one differs, then the real-time time (or, without one, the
    scheduled time).  [sc] and [rt] are the keys of the two times. *)
Definition time_cell (sc rt : string) (s : pyval) : res html :=
  differ <- both_and (fun a b => negb (a =? b)%Z) rt sc s ;;
  first <- (if differ then
              c <- py_get s sc ;;
              t <- seconds_to_hhmm c ;;
              Ok (El "Span" (Txt t) None struck_style)
            else Ok NoChild) ;;
  r <- py_get s rt ;;
  second <- (if truthy r then
               r' <- py_get s rt ;;
               t <- seconds_to_hhmm r' ;;
               later <- both_and (fun a b => (b <? a)%Z) rt sc s ;;
               Ok (El "Span" (Txt t) None
                      (time_style (if later then "#e74c3c" else "#2ecc40")))
             else
               c <- py_get s sc ;;
               t <- seconds_to_hhmm c ;;
               Ok (El "Span" (Txt t) None (time_style "#2ecc40"))) ;;
  Ok (El "Span" (Children [first; second]) None cell_style).

Definition arrival_cell : pyval -> res html :=
  time_cell "scheduledArrival" "realtimeArrival".

Definition departure_cell : pyval -> res html :=
  time_cell "scheduledDeparture" "realtimeDeparture".

Definition name_style : list (string * string) :=
  [("display", "inline-block"); ("marginLeft", "8px"); ("minWidth", "90px");
   ("maxWidth", "180px"); ("whiteSpace", "nowrap"); ("overflow", "hidden");
   ("textOverflow", "ellipsis"); ("verticalAlign", "middle")].

Definition row_style (background : string) : list (string * string) :=
  [("marginBottom", "1px"); ("background", background); ("borderRadius", "4px");
   ("whiteSpace", "nowrap"); ("overflow", "hidden");
   ("textOverflow", "ellipsis"); ("display", "flex");
   ("alignItems", "center"); ("minHeight", "22px")].

Definition is_next (i : nat) (next_stop_idx : option nat) : bool :=
  match next_stop_idx with Some n => (i =? n)%nat | None => false end.

(** The row of stop [s] at index [i]. *)
Definition stop_row (next_stop_idx : option nat) (i : nat) (s : pyval) : res html :=
  arrival <- arrival_cell s ;;
  departure <- departure_cell s ;;
  st <- py_item s "stop" ;;
  nm <- py_item st "name" ;;
  st' <- py_item s "stop" ;;
  nm' <- py_item st' "name" ;;
  Ok (El "Div"
         (Children [arrival; departure; El "Div" (Val nm) (Some nm') name_style])
         None
         (row_style (if is_next i next_stop_idx then "#d6eaf8" else "none"))).

Definition divider : html :=
  El "Div" NoChild None
     [("height", "2px"); ("background", "#2980b9"); ("margin", "2px 0 2px 0");
      ("borderRadius", "2px")].

(** The loop that builds [stop_rows], from index [i]: a stop without a
    ['stop'] is skipped; a divider follows the row just before the next
    stop. *)
Fixpoint stop_rows (next_stop_idx : option nat) (i : nat) (stops : list pyval)
    : res (list html) :=
  match stops with
  | [] => Ok []
  | s :: stops' =>
      st <- py_get s "stop" ;;
      if negb (truthy st) then stop_rows next_stop_idx (S i) stops' else
      row <- stop_row next_stop_idx i s ;;
      rest <- stop_rows next_stop_idx (S i) stops' ;;
      Ok (if is_next (S i) next_stop_idx then row :: divider :: rest
          else row :: rest)
  end.

(** The panel of a train with stops: title line, next stop and delay,
    column heads and the stop rows. *)
Definition info_panel (t : train) (stops : pyval) (stop_names : list pyval)
    (next_stop_idx : option nat) (delay_min delay_color : string)
    (rows : list html) : res html :=
  r <- py_item (route t) "longName" ;;
  r1 <- py_add_str r " - " ;;
  title <- str_add_py r1 (name t) ;;
  first <- seq_index stop_names 0 ;;
  last <- seq_index stop_names (-1) ;;
  let ends := "(" ++ py_str first ++ " â†’ " ++ py_str last ++ ")" in
  next <- match next_stop_idx with
          | Some i =>
              s <- py_at stops (Z.of_nat i) ;;
              st <- py_item s "stop" ;;
              nm <- py_item st "name" ;;
              Ok ("Next stop: " ++ py_str nm)
          | None => Ok "End of route"
          end ;;
  Ok (El "Div"
        (Children
           [El "Div"
               (Children
                  [El "Span" (Txt title) None
                      [("fontWeight", "bold"); ("fontSize", "1.2em");
                       ("marginRight", "8px")];
                   El "Span" (Txt ends) None
                      [("color", "#555"); ("fontSize", "1em")]])
               None [("marginBottom", "10px")];
            El "Div"
               (Children
                  [El "B" (Txt next) None
                      [("color", "#2980b9"); ("fontSize", "1em")];
                   if negb (String.eqb delay_min "") then
                     El "Span" (Txt delay_min) None
                        [("color", delay_color); ("fontWeight", "bold");
                         ("marginLeft", "8px")]
                   else NoChild])
               None
               [("marginBottom", "8px"); ("display", "flex");
                ("alignItems", "center")];
            El "Div"
               (Children
                  [El "Div" (Txt "Arrivals") None
                      [("display", "inline-block"); ("width", "90px");
                       ("color", "#888"); ("fontSize", "0.9em")];
                   El "Div" (Txt "Departures") None
                      [("display", "inline-block"); ("width", "100px");
                       ("color", "#888"); ("fontSize", "0.9em")];
                   El "Div" (Txt "Stop") None
                      [("display", "inline-block"); ("marginLeft", "10px");
                       ("color", "#888"); ("fontSize", "0.9em")]])
               None [("marginBottom", "4px")];
            El "Div" (Children rows) None
               [("maxHeight", "350px"); ("overflowY", "auto");
                ("overflowX", "auto"); ("whiteSpace", "nowrap")]])
        None
        [("fontFamily", "Roboto, Arial"); ("fontSize", "1em")]).

(** The part of [update_map] that runs once the clicked train is known:
    the stop markers, the route line, the next stop and the panel.  The
    sequence [stops] is iterated several times; as iterating it has no
    effect, its elements are taken once. *)
Definition route_detail (w : world) (fig : figure) (t : train) : res (figure * html) :=
  let stops := stoptimes t in
  let gtfsId := gtfsId t in
  if truthy stops then
    ss <- py_iter stops ;;
    stop_lats <- stop_field "lat" ss ;;
    stop_lons <- stop_field "lon" ss ;;
    stop_names <- stop_field "name" ss ;;
    let fig := add_trace fig (stops_trace stop_lats stop_lons stop_names) in
    let fig :=
      if truthy gtfsId then
        match route_geometry w gtfsId with
        | Some (route_lats, route_lons) =>
            add_trace fig (route_trace route_lats route_lons)
        | None => fig
        end
      else fig in
    let now_sec := get_seconds_since_midnight (now w) in
    next_stop_idx <- find_next_stop now_sec 0 ss ;;
    delay_val <- delay_of stops next_stop_idx ;;
    delay_min <- delay_min_of delay_val ;;
    delay_color <- delay_color_of delay_val ;;
    rows <- stop_rows next_stop_idx 0 ss ;;
    stops_info <- info_panel t stops stop_names next_stop_idx delay_min
                             delay_color rows ;;
    Ok (fig, stops_info)
  else Ok (fig, Txt "").

(** [clickData and 'points' in clickData] *)
Definition has_points (clickData : pyval) : res bool :=
  if truthy clickData then py_in "points" clickData else Ok false.

(** The guard of [update_map]: the store holds no vehicle document. *)
Definition no_document (vehicle_data : pyval) : res bool :=
  if negb (is_dict vehicle_data) then Ok true else
  has_data <- py_in "data" vehicle_data ;;
  if negb has_data then Ok true else
  d <- py_item vehicle_data "data" ;;
  has_vps <- py_in "vehiclePositions" d ;;
  Ok (negb has_vps).

(** The first half of [update_map], run on every callback once the
    document is there: the trains, the viewport, the marker layer and the
    heading arrows.  It hands on the figure, the trains and the zoom. *)
Definition map_layers (clickData relayoutData data : pyval)
    : res (figure * list train * pyval) :=
  d <- py_item data "data" ;;
  vps <- py_get d "vehiclePositions" ;;
  (* if not isinstance(vehicle_positions, list): vehicle_positions = [] *)
  let vehicle_positions := match vps with PList l => l | _ => [] end in
  trains <- trains_of vehicle_positions ;;
  '(zoom, b) <- get_bounds relayoutData ;;
  let fig := empty_figure in
  selected_vehicle_id <- get_selected_vehicle_id clickData ;;
  marker_colors <- get_marker_colors vehicle_positions selected_vehicle_id ;;
  tr <- trains_trace trains marker_colors vehicle_positions ;;
  let fig := add_trace fig tr in
  fig <- add_heading_arrows fig trains data b zoom ;;
  Ok (fig, trains, zoom).

(** [str(clickData['points'][0]['customdata'])] *)
Definition clicked_id (clickData : pyval) : res string :=
  pts <- py_item clickData "points" ;;
  p <- py_at pts 0 ;;
  c <- py_item p "customdata" ;;
  Ok (py_str c).

Definition update_map (w : world) (clickData relayoutData prev_fig vehicle_data : pyval)
    : res (figure * html) :=
  missing <- no_document vehicle_data ;;
  if missing then
    Ok (update_layout empty_figure (default_layout (PInt 7)), Txt "")
  else
  '(fig, trains, zoom) <- map_layers clickData relayoutData vehicle_data ;;
  let stops_info := Txt "" in
  clicked <- has_points clickData ;;
  if clicked then
    vehicle_id <- clicked_id clickData ;;
    match resolve_train vehicle_id trains with
    | None => Ok (update_layout fig (default_layout zoom), stops_info)
    | Some t =>
        '(fig, stops_info) <- route_detail w fig t ;;
        Ok (update_layout fig (default_layout zoom), stops_info)
    end
  else Ok (update_layout fig (default_layout zoom), stops_info).

End Program.

(* ================================================================= *)
(** ** Fetching and start-up

    The POST to the GraphQL endpoint and the snapshot file are the
    program's two contacts with the outside.  A request either raises or
    answers with a status code and a body that [response.json()] parses or
    rejects; the file, when it exists, holds a JSON document or something
    [json.load] rejects.  What [json.dump] writes, [json.load] reads back
    unchanged. *)

Inductive post_outcome : Type :=
| PostRaises
| PostAnswers (status_code : Z) (json : option pyval).

(** [get_latest_vehicle_data()]: the parsed body of a 200 answer, [None]
    for any other status and for any exception. *)
Definition get_latest_vehicle_data (o : post_outcome) : pyval :=
  match o with
  | PostRaises => PNone
  | PostAnswers status_code json =>
      if (status_code =? 200)%Z then
        match json with
        | Some data => data
        | None => PNone
        end
      else PNone
  end.

(** [fetch_vehicle_data(n_intervals)]: the document for the store, or
    [None] for [dash.no_update]. *)
Definition fetch_vehicle_data (n_intervals : pyval) (o : post_outcome) : option pyval :=
  let data := get_latest_vehicle_data o in
  match data with
  | PNone => None
  | _ => Some data
  end.

Inductive snapshot : Type :=
| Garbled
| Document (data : pyval).

(** The structure written when the first fetch fails:
    [{"data": {"vehiclePositions": []}}]. *)
Definition empty_structure : pyval :=
  PDict [("data", PDict [("vehiclePositions", PList [])])].

(** The start-up block that creates [vehicle_positions.json] when it is
    missing ([file] is [None]); the file it leaves. *)
Definition create_snapshot (file : option snapshot) (o : post_outcome) : snapshot :=
  match file with
  | None =>
      match get_latest_vehicle_data o with
      | PNone => Document empty_structure
      | data => Document data
      end
  | Some f => f
  end.

Section Startup.

Context {RT : PyRuntime}.

(** The module-level load: [data = json.load(f)],
    [vehicle_positions = data['data']['vehiclePositions']] and the [trains]
    comprehension. *)
Definition load_snapshot (file : snapshot) : res (pyval * list train) :=
  match file with
  | Garbled => Raise ValueError
  | Document data =>
      d <- py_item data "data" ;;
      vehicle_positions <- py_item d "vehiclePositions" ;;
      vs <- py_iter vehicle_positions ;;
      trains <- trains_of vs ;;
      Ok (vehicle_positions, trains)
  end.

(** Importing the module: create the snapshot if need be, then load it. *)
Definition startup (file : option snapshot) (o : post_outcome)
    : snapshot * res (pyval * list train) :=
  let file' := create_snapshot file o in
  (file', load_snapshot file').

End Startup.

(* ================================================================= *)
(** ** A reference runtime

    One runtime to evaluate the program on concrete documents: strings are
    quoted without escapes, [int] reads a signed decimal numeral, a float is
    written in fixed notation with six decimals, and [cos] and [sin] are
    their Taylor polynomials of degree 40 (close for arguments of a few
    radians). *)

Fixpoint taylor (n : nat) (k term acc x2 : float) : float :=
  match n with
  | O => acc
  | S n' =>
      let term' := (- term * x2 / ((k + 1) * (k + 2)))%float in
      taylor n' (k + 2)%float term' (acc + term')%float x2
  end.

Definition ref_cos (x : float) : float := taylor 20 0 1 1 (x * x).
Definition ref_sin (x : float) : float := taylor 20 1 x x (x * x).

Definition ref_float_repr (f : float) : string :=
  match Z_of_float (f * 1000000)%float with
  | Ok z =>
      (if (z <? 0)%Z then "-" else "")
        ++ digits (Z.abs z / 1000000) ++ "."
        ++ format_zero_pad 6 (Z.abs z mod 1000000)
  | Raise _ => if PrimFloat.is_nan f then "nan"
               else if PrimFloat.ltb f 0 then "-inf" else "inf"
  end.

Definition ref_int_of_str (s : string) : option Z :=
  option_map Z.of_int (NilZero.int_of_string s).

Definition ref_runtime : PyRuntime.
Proof.
  refine {| float_repr := ref_float_repr;
            str_repr := fun s => "'" ++ s ++ "'";
            int_of_str := ref_int_of_str;
            libm_cos := ref_cos;
            libm_sin := ref_sin |}.
  intros f. unfold ref_float_repr.
  destruct (Z_of_float (f * 1000000)) as [z|e].
  - destruct (z <? 0)%Z; [discriminate|].
    cbn [append]. destruct (digits (Z.abs z / 1000000)); discriminate.
  - destruct (PrimFloat.is_nan f); [discriminate|].
    destruct (PrimFloat.ltb f 0); discriminate.
Defined.

(* ================================================================= *)
(** ** Sample documents *)

(** One vehicle heading east near Budapest, the document that holds it, its
    derived view and a viewport around it. *)
Definition sample_vehicle : pyval :=
  PDict [("vehicleId", PStr "V1"); ("lat", PFloat 47.5); ("lon", PFloat 19);
         ("heading", PInt 90)].

Definition sample_doc : pyval :=
  PDict [("data", PDict [("vehiclePositions", PList [sample_vehicle])])].

Definition sample_train : train :=
  {| name := PStr "V1"; lat := PFloat 47.5; lon := PFloat 19;
     speed := PStr "N/A"; delay := PStr "N/A"; stoptimes := PList [];
     gtfsId := PNone; route := PDict []; vehicleId := PStr "V1" |}.

Definition sample_bounds : bounds :=
  {| lat_min := PFloat 47; lat_max := PFloat 48;
     lon_min := PFloat 18.5; lon_max := PFloat 19.5 |}.

(** Three stops of a trip, by their real-time arrival and departure. *)
Definition sample_stops : list pyval :=
  [PDict [("realtimeArrival", PInt 100); ("realtimeDeparture", PInt 110)];
   PDict [("realtimeArrival", PInt 200); ("realtimeDeparture", PInt 210)];
   PDict [("realtimeArrival", PInt 300)]].

(** Noon, with no route geometry to be had. *)
Definition sample_world : world :=
  {| now := {| hour := 12; minute := 0; second := 0 |};
     route_geometry := fun _ => None |}.

(** A document without vehicles, and a click on a marker nobody owns. *)
Definition empty_doc : list (string * pyval) :=
  [("data", PDict [("vehiclePositions", PList [])])].

Definition stray_click : pyval :=
  PDict [("points", PList [PDict [("customdata", PStr "nobody")]])].

(* ================================================================= *)
(** ** The vocabulary of the specification *)

(** The value of field [k] of a record, [None] when the key is absent (or
    the record is no object). *)
Definition field (v : pyval) (k : string) : pyval :=
  match v with
  | PDict d => lookup_or d k PNone
  | _ => PNone
  end.

(** A nested field is absent or an object. *)
Definition object_or_absent (d : list (string * pyval)) (k : string) : Prop :=
  dict_get d k = None \/ exists d', dict_get d k = Some (PDict d').

(** The bindings of the nested object under [k]; none when the key is
    absent. *)
Definition nested (d : list (string * pyval)) (k : string) : list (string * pyval) :=
  match dict_get d k with Some (PDict d') => d' | _ => [] end.

(** A vehicle record as the API sends it: an object whose [trip] and
    [prevOrCurrentStop] are objects when they are there. *)
Definition vehicle_record (v : pyval) : Prop :=
  exists d, v = PDict d /\ object_or_absent d "trip"
            /\ object_or_absent d "prevOrCurrentStop".

(** A record whose identifier can be derived: an object whose [trip], when
    the vehicle id is falsy and the trip is looked at, is absent or an
    object. *)
Definition identifiable (v : pyval) : Prop :=
  exists d, v = PDict d /\
            (truthy (lookup_or d "vehicleId" PNone) = true
             \/ object_or_absent d "trip").

(** A coordinate is present and non-falsy. *)
Definition has_coordinate (v : pyval) (k : string) : Prop :=
  exists d x, v = PDict d /\ dict_get d k = Some x /\ truthy x = true.

(** Both coordinates are present and non-falsy. *)
Definition plotted (v : pyval) : bool :=
  truthy (field v "lat") && truthy (field v "lon").

(** A record the train set can be built over: an object whose [trip] and
    [prevOrCurrentStop], when the record has both coordinates and so is
    projected, are each absent or an object. *)
Definition projectable (v : pyval) : Prop :=
  exists d, v = PDict d /\
            (plotted v = true ->
             object_or_absent d "trip" /\ object_or_absent d "prevOrCurrentStop").

(** The first of [a], [b], [c] that is non-falsy, else [c]. *)
Definition first_truthy (a b c : pyval) : pyval :=
  if truthy a then a else if truthy b then b else c.

Section Vocabulary.

Context {RT : PyRuntime}.

(** The derived identifier of a vehicle, in the words of the
    specification: the vehicle id, falling back to the trip's short name,
    falling back to ['unknown']. *)
Definition derived_id (v : pyval) : string :=
  py_str (first_truthy (field v "vehicleId")
                       (field (field v "trip") "tripShortName")
                       (PStr "unknown")).

(** The marker of [v] is the selected one. *)
Definition selects (selected : option string) (v : pyval) : bool :=
  match selected with
  | Some s => String.eqb (derived_id v) s
  | None => false
  end.

End Vocabulary.

(** A timestamp of a stop-time: absent, null, or seconds since midnight. *)
Definition timestamp (o : option pyval) : Prop :=
  o = None \/ o = Some PNone \/ exists z, o = Some (PInt z).

(** An entry of a stop-time sequence. *)
Definition stop_time (s : pyval) : Prop :=
  exists d, s = PDict d /\ timestamp (dict_get d "realtimeArrival")
            /\ timestamp (dict_get d "realtimeDeparture").

(** The real-time arrival or the real-time departure of [s] strictly
    exceeds [now_sec]. *)
Definition later_than (now_sec : Z) (s : pyval) : Prop :=
  exists z, (field s "realtimeArrival" = PInt z
             \/ field s "realtimeDeparture" = PInt z) /\ (now_sec < z)%Z.

(** The same, decided: [v] is an integer time after [now_sec]. *)
Definition exceeds (now_sec : Z) (v : pyval) : bool :=
  match v with PInt z => (now_sec <? z)%Z | _ => false end.

Definition laterb (now_sec : Z) (s : pyval) : bool :=
  exceeds now_sec (field s "realtimeArrival")
  || exceeds now_sec (field s "realtimeDeparture").

(** The viewport test as the code makes it: the train lies within the
    bounds when there are bounds; without bounds nothing is tested. *)
Definition visible (b : option bounds) (t : train) : Prop :=
  match b with
  | Some b' => in_bounds b' (lat t) (lon t) = Ok true
  | None => True
  end.

(** The heads drawn for a list of arrows: one trace, none for no arrow. *)
Definition heads_of (arrows : list arrow) : list trace :=
  match arrows with
  | [] => []
  | _ => [heading_heads arrows]
  end.

(* ----------------------------------------------------------------- *)
(** *** More samples and vocabulary *)

(** The key of a float in the order of floats: class and sign, then
    exponent, then mantissa; a NaN has none. *)
Definition fkey (x : spec_float) : option (Z * Z * Z) :=
  match x with
  | S754_nan => None
  | S754_infinity s => Some (if s then (-2, 0, 0)%Z else (2, 0, 0)%Z)
  | S754_zero _ => Some (0, 0, 0)%Z
  | S754_finite s m e =>
      Some (if s then (-1, - e, Z.neg m)%Z else (1, e, Z.pos m)%Z)
  end.

(** Keys compared, and the two orders on keys. *)
Definition key_cmp (k k' : Z * Z * Z) : comparison :=
  let '(a, b, c) := k in
  let '(a', b', c') := k' in
  match (a ?= a')%Z with
  | Eq => match (b ?= b')%Z with
          | Eq => (c ?= c')%Z
          | r => r
          end
  | r => r
  end.

Definition key_le (k k' : Z * Z * Z) : Prop :=
  let '(a, b, c) := k in
  let '(a', b', c') := k' in
  (a < a' \/ (a = a' /\ (b < b' \/ (b = b' /\ c <= c'))))%Z.

Definition key_lt (k k' : Z * Z * Z) : Prop :=
  let '(a, b, c) := k in
  let '(a', b', c') := k' in
  (a < a' \/ (a = a' /\ (b < b' \/ (b = b' /\ c < c'))))%Z.

(** A float that is no NaN. *)
Definition ordered (f : float) : Prop := PrimFloat.eqb f f = true.

(** One corner of the viewport as a pan or zoom event lists it: longitude,
    then latitude. *)
Definition corner (p : float * float) : pyval :=
  PList [PFloat (fst p); PFloat (snd p)].

(** The smallest and the largest of a float and a list of floats, as [min]
    and [max] find them. *)
Fixpoint fextremum (better : float -> float -> bool) (cur : float)
    (l : list float) : float :=
  match l with
  | [] => cur
  | x :: l' => fextremum better (if better x cur then x else cur) l'
  end.

Definition fmin : float -> list float -> float := fextremum PrimFloat.ltb.
Definition fmax : float -> list float -> float :=
  fextremum (fun x cur => PrimFloat.ltb cur x).

(** A zoom-in event over Budapest: the zoom and the four corners of the
    viewport, each as longitude and latitude. *)
Definition sample_corners : list (float * float) :=
  [(18.5, 48); (19.5, 48); (19.5, 47); (18.5, 47)]%float.

Definition sample_derived : list (string * pyval) :=
  [("coordinates", PList (map corner sample_corners))].

Definition sample_event : list (string * pyval) :=
  [("mapbox.zoom", PFloat 12.5); ("mapbox._derived", PDict sample_derived)].

(** A train with a two-stop trip, the document that holds it and a click on
    its marker. *)
Definition trip_stop_list : list pyval :=
    [PDict [("stop", PDict [("name", PStr "Cegled"); ("lat", PFloat 47.17);
                            ("lon", PFloat 19.8)]);
            ("scheduledArrival", PInt 36000); ("realtimeArrival", PInt 36060);
            ("scheduledDeparture", PInt 36100); ("realtimeDeparture", PInt 36100);
            ("arrivalDelay", PInt 60)];
     PDict [("stop", PDict [("name", PStr "Szolnok"); ("lat", PFloat 47.18);
                            ("lon", PFloat 20.18)]);
            ("scheduledArrival", PInt 46000); ("realtimeArrival", PInt 46300);
            ("scheduledDeparture", PInt 46100); ("realtimeDeparture", PInt 46400);
            ("arrivalDelay", PInt 300)]].

Definition trip_stops : pyval := PList trip_stop_list.

Definition trip_vehicle : pyval :=
  PDict [("vehicleId", PStr "V9"); ("lat", PFloat 47.5); ("lon", PFloat 19);
         ("trip", PDict [("tripShortName", PStr "IC 700");
                         ("gtfsId", PStr "1:700");
                         ("route", PDict [("longName", PStr "Budapest - Szolnok")]);
                         ("stoptimes", trip_stops)])].

Definition trip_doc : pyval :=
  PDict [("data", PDict [("vehiclePositions", PList [trip_vehicle])])].

Definition trip_click : pyval :=
  PDict [("points", PList [PDict [("customdata", PStr "V9")]])].

(** A vehicle without identity: its vehicle id and its trip short name are
    each absent or null. *)
Definition anonymous (v : pyval) : Prop :=
  exists d, v = PDict d /\
    (dict_get d "vehicleId" = None \/ dict_get d "vehicleId" = Some PNone) /\
    (dict_get d "trip" = None \/
     exists d', dict_get d "trip" = Some (PDict d') /\
       (dict_get d' "tripShortName" = None
        \/ dict_get d' "tripShortName" = Some PNone)) /\
    object_or_absent d "prevOrCurrentStop".

(** A stop-time is shown in the listing and on the map: its ['stop'] is
    non-falsy. *)
Definition shown (s : pyval) : bool := truthy (field s "stop").

(** The rows the divider adds after the stop at index [m]: one when that
    stop is shown, none otherwise. *)
Definition divider_after (stops : list pyval) (m : nat) : nat :=
  match nth_error stops m with
  | Some s => if shown s then 1 else 0
  | None => 0
  end.

(** The traces a geometry answer adds: the route line when the trip has a
    non-falsy identifier and the request gave a line, nothing otherwise. *)
Definition route_line (w : world) (t : train) : list trace :=
  if truthy (gtfsId t) then
    match route_geometry w (gtfsId t) with
    | Some (route_lats, route_lons) => [route_trace route_lats route_lons]
    | None => []
    end
  else [].

(** The derived view of the train with the two-stop trip. *)
Definition trip_train : train :=
  {| name := PStr "IC 700"; lat := PFloat 47.5; lon := PFloat 19;
     speed := PStr "N/A"; delay := PStr "N/A"; stoptimes := trip_stops;
     gtfsId := PStr "1:700";
     route := PDict [("longName", PStr "Budapest - Szolnok")];
     vehicleId := PStr "V9" |}.

(** A number, as [<], [<=], [min] and [max] take it: an int, a float or a
    bool. *)
Definition number (v : pyval) : Prop := exists n, as_num v = Some n.

(** A coordinate the arithmetic can start from: a float, or an int that
    fits one. *)
Definition coordinate (x : pyval) : Prop := exists f, py_to_float x = Ok f.

(** One corner in the list of a pan or zoom event: a list that starts with
    a longitude and a latitude, both numbers. *)
Definition corner_pair (c : pyval) : Prop :=
  exists lo la rest, c = PList (lo :: la :: rest) /\ number lo /\ number la.

(** A pan or zoom event as the map component sends it: nothing, or an
    object whose zoom, when it names one, is a number, and whose derived
    viewport, when it has one, is an object whose corner list, when it has
    one, holds at least one corner. *)
Definition viewport_event (relayoutData : pyval) : Prop :=
  truthy relayoutData = false \/
  exists r, relayoutData = PDict r /\
    (forall z, dict_get r "mapbox.zoom" = Some z -> number z) /\
    (forall dv, dict_get r "mapbox._derived" = Some dv ->
       exists dd, dv = PDict dd /\
         forall cs, dict_get dd "coordinates" = Some cs ->
           exists c cs', cs = PList (c :: cs') /\ Forall corner_pair (c :: cs')).

(** The zoom of a pan or zoom event: its own when it names one, else 7. *)
Definition zoom_of (relayoutData : pyval) : pyval :=
  match relayoutData with
  | PDict r => lookup_or r "mapbox.zoom" (PInt 7)
  | _ => PInt 7
  end.

(** The map is zoomed in far enough for heading arrows: [zoom < 12] is
    false. *)
Definition zoomed_in (relayoutData : pyval) : Prop :=
  py_lt (zoom_of relayoutData) (PInt 12) = Ok false.

(** A click event on a marker that carries [cd]: an object whose ['points']
    is a list that starts with an object holding [cd] as ['customdata']. *)
Definition click_on (clickData cd : pyval) : Prop :=
  exists c p ps, clickData = PDict c /\
    dict_get c "points" = Some (PList (PDict p :: ps)) /\
    dict_get p "customdata" = Some cd.

(** A layer of heading arrows. *)
Definition arrow_layer (tr : trace) : Prop :=
  tr_name tr = "HeadingLine" \/ tr_name tr = "HeadingArrow".

Section ArrowVocabulary.

Context {RT : PyRuntime}.

(** A heading an arrow can be drawn along: an angle in degrees that
    [math.cos] and [math.sin] are defined at. *)
Definition angle (h : pyval) : Prop :=
  exists a c s, math_radians h = Ok a /\ math_cos a = Ok c /\ math_sin a = Ok s.

(** A latitude off the poles: [math.cos] is defined at it and is not zero
    there (the eastward step of an arrow is divided by it). *)
Definition off_pole (la : pyval) : Prop :=
  exists r c, math_radians la = Ok r /\ math_cos r = Ok c
              /\ PrimFloat.eqb c 0 = false.

(** A record the heading arrows can be computed over: its heading is
    absent, null or an angle, and when it is plotted its latitude is off the
    poles and its longitude is a coordinate. *)
Definition drawable (v : pyval) : Prop :=
  (field v "heading" = PNone \/ angle (field v "heading")) /\
  (plotted v = true ->
   off_pole (field v "lat") /\ coordinate (field v "lon")).

End ArrowVocabulary.

(** The zoom-in event as the callback receives it. *)
Definition sample_relayout : pyval := PDict sample_event.

(* ================================================================= *)
(** ** Properties *)

(** *** The error monad *)

Lemma bind_inv {A B : Type} (m : res A) (k : A -> res B) (b : B) :
  bind m k = Ok b -> exists a, m = Ok a /\ k a = Ok b.
Proof. destruct m as [a|e]; simpl; [eauto | discriminate]. Qed.

(** Break the first [bind] of a hypothesis [H : _ = Ok _]. *)
Ltac invert_bind H :=
  let x := fresh "x" in
  let E := fresh "E" in
  apply bind_inv in H; destruct H as (x & E & H).

Tactic Notation "split_bind" hyp(H) "as" ident(x) ident(E) :=
  apply bind_inv in H; destruct H as (x & E & H).

Lemma mapM_pure {A B : Type} (f : A -> res B) (g : A -> B) (xs : list A) :
  Forall (fun x => f x = Ok (g x)) xs -> mapM f xs = Ok (map g xs).
Proof.
  induction 1 as [|x xs Hx _ IH]; simpl; [reflexivity|].
  rewrite Hx, IH. reflexivity.
Qed.

Lemma filter_mapM_pure {A B : Type} (c : A -> res bool) (f : A -> res B)
    (p : A -> bool) (g : A -> B) (xs : list A) :
  Forall (fun x => c x = Ok (p x)) xs ->
  Forall (fun x => p x = true -> f x = Ok (g x)) xs ->
  filter_mapM c f xs = Ok (map g (filter p xs)).
Proof.
  induction 1 as [|x xs Hx _ IH]; intros Hf; simpl; [reflexivity|].
  inversion Hf as [|? ? Hg Hf']; subst.
  rewrite Hx. simpl. destruct (p x) eqn:Ep.
  - rewrite Hg by reflexivity. simpl. rewrite IH by assumption. reflexivity.
  - apply IH; assumption.
Qed.

(** *** Records *)

Lemma lookup_nested (d : list (string * pyval)) (k : string) :
  object_or_absent d k -> lookup_or d k (PDict []) = PDict (nested d k).
Proof.
  unfold object_or_absent, lookup_or, nested.
  intros [-> | [d' ->]]; reflexivity.
Qed.

Lemma object_or_absent_get (d : list (string * pyval)) (k : string) :
  object_or_absent d k ->
  py_get_or (PDict d) k (PDict []) = Ok (PDict (nested d k)).
Proof. intros H. cbn [py_get_or]. rewrite (lookup_nested H). reflexivity. Qed.

Lemma get_train_info_record (d : list (string * pyval)) :
  object_or_absent d "trip" -> object_or_absent d "prevOrCurrentStop" ->
  get_train_info (PDict d) =
  Ok {| name := (let short := lookup_or (nested d "trip") "tripShortName" PNone in
                 if truthy short then short
                 else lookup_or d "vehicleId" (PStr "Unknown"));
        lat := lookup_or d "lat" PNone;
        lon := lookup_or d "lon" PNone;
        speed := lookup_or d "speed" (PStr "N/A");
        delay := lookup_or (nested d "prevOrCurrentStop") "arrivalDelay" (PStr "N/A");
        stoptimes := lookup_or (nested d "trip") "stoptimes" (PList []);
        gtfsId := lookup_or (nested d "trip") "gtfsId" PNone;
        route := lookup_or (nested d "trip") "route" (PDict []);
        vehicleId := lookup_or d "vehicleId" PNone |}.
Proof.
  intros Ht Hs. unfold get_train_info.
  rewrite (object_or_absent_get Ht), (object_or_absent_get Hs).
  cbn [bind py_get py_get_or]. unfold py_or.
  destruct (truthy (lookup_or (nested d "trip") "tripShortName" PNone));
    reflexivity.
Qed.

(** C6, as the code has it: a vehicle record whose [trip] and
    [prevOrCurrentStop] are each absent or an object is projected without
    failing.  The name is the trip's short name when that is non-falsy, else
    the vehicle identifier when the record has one, else ['Unknown']; an
    absent speed is ['N/A'], and so is the delay when [prevOrCurrentStop] or
    its [arrivalDelay] is absent. *)
Theorem get_train_info_total (d : list (string * pyval)) :
  object_or_absent d "trip" -> object_or_absent d "prevOrCurrentStop" ->
  exists t, get_train_info (PDict d) = Ok t /\
    (truthy (lookup_or (nested d "trip") "tripShortName" PNone) = false ->
     (forall v, dict_get d "vehicleId" = Some v -> name t = v) /\
     (dict_get d "vehicleId" = None -> name t = PStr "Unknown")) /\
    (dict_get d "speed" = None -> speed t = PStr "N/A") /\
    (dict_get (nested d "prevOrCurrentStop") "arrivalDelay" = None ->
     delay t = PStr "N/A").
Proof.
  intros Ht Hs. eexists. split; [apply get_train_info_record; assumption|].
  cbn [name speed delay]. unfold lookup_or.
  split; [intros Hshort; rewrite Hshort; split | split].
  - intros v ->. reflexivity.
  - intros ->. reflexivity.
  - intros ->. reflexivity.
  - intros ->. reflexivity.
Qed.

Lemma get_train_info_total_witness :
  exists t,
    get_train_info (PDict [("vehicleId", PStr "V1"); ("lat", PFloat 47.5);
                           ("lon", PFloat 19)]) = Ok t /\
    name t = PStr "V1" /\ speed t = PStr "N/A" /\ delay t = PStr "N/A".
Proof.
  destruct (@get_train_info_total
              [("vehicleId", PStr "V1"); ("lat", PFloat 47.5); ("lon", PFloat 19)])
    as (t & Ht & Hname & Hspeed & Hdelay).
  - left; reflexivity.
  - left; reflexivity.
  - exists t. split; [exact Ht|]. split; [|split].
    + apply Hname; reflexivity.
    + apply Hspeed; reflexivity.
    + apply Hdelay; reflexivity.
Defined.

(** C6, as stated, fails on a record with a null nested field:
    [.get('trip', {})] answers the null that is there, and [None] has no
    [.get]. *)
Lemma get_train_info_null_trip :
  get_train_info (PDict [("vehicleId", PStr "V1"); ("lat", PFloat 47.5);
                         ("lon", PFloat 19); ("trip", PNone)])
  = Raise AttributeError.
Proof. reflexivity. Qed.

(** *** The plotted train set *)

Lemma truthy_field_iff (v : pyval) (k : string) :
  truthy (field v k) = true <-> has_coordinate v k.
Proof.
  unfold has_coordinate, field, lookup_or. split.
  - destruct v as [| | | | |l|d]; try discriminate.
    destruct (dict_get d k) as [x|] eqn:E; [|discriminate].
    intros H. exists d, x. auto.
  - intros (d & x & -> & E & H). rewrite E. exact H.
Qed.

Lemma plotted_iff (v : pyval) :
  plotted v = true <-> has_coordinate v "lat" /\ has_coordinate v "lon".
Proof.
  unfold plotted. rewrite andb_true_iff, !truthy_field_iff. reflexivity.
Qed.

Lemma has_coords_object (d : list (string * pyval)) :
  has_coords (PDict d) = Ok (plotted (PDict d)).
Proof.
  unfold has_coords, plotted, field. cbn [py_get py_get_or bind].
  destruct (truthy (lookup_or d "lat" PNone)); reflexivity.
Qed.

Lemma has_coords_record (v : pyval) :
  vehicle_record v -> has_coords v = Ok (plotted v).
Proof. intros (d & -> & _). apply has_coords_object. Qed.

Lemma vehicle_record_projectable (v : pyval) :
  vehicle_record v -> projectable v.
Proof. intros (d & -> & Ht & Hs). exists d. split; [reflexivity | intros _; split; assumption]. Qed.

Lemma filter_mapM_Forall2 {A B : Type} (c : A -> res bool) (f : A -> res B)
    (p : A -> bool) (xs : list A) :
  Forall (fun x => c x = Ok (p x)) xs ->
  Forall (fun x => p x = true -> exists y, f x = Ok y) xs ->
  exists ys, filter_mapM c f xs = Ok ys /\
             Forall2 (fun x y => f x = Ok y) (filter p xs) ys.
Proof.
  induction 1 as [|x xs Hx _ IH]; intros Hf.
  - exists []. split; [reflexivity | constructor].
  - inversion Hf as [|? ? Hy Hf']; subst.
    destruct (IH Hf') as (ys & E & F2).
    cbn [filter_mapM filter]. rewrite Hx. cbn [bind].
    destruct (p x) eqn:Ep.
    + destruct (Hy eq_refl) as (y & Ey). rewrite Ey, E. cbn [bind].
      exists (y :: ys). split; [reflexivity | constructor; assumption].
    + exists ys. split; assumption.
Qed.

Lemma trains_of_projectable (vps : list pyval) :
  Forall projectable vps ->
  exists ts, trains_of vps = Ok ts /\
             Forall2 (fun v t => get_train_info v = Ok t) (filter plotted vps) ts.
Proof.
  intros H. apply filter_mapM_Forall2.
  - eapply Forall_impl; [|exact H]. intros v (d & -> & _).
    apply has_coords_object.
  - eapply Forall_impl; [|exact H]. intros v (d & -> & Hp) Hv.
    destruct (Hp Hv) as [Ht Hs].
    eexists. apply get_train_info_record; assumption.
Qed.

Lemma trains_of_record (vps : list pyval) :
  Forall vehicle_record vps ->
  exists ts, trains_of vps = Ok ts /\
             Forall2 (fun v t => get_train_info v = Ok t) (filter plotted vps) ts.
Proof.
  intros H. apply trains_of_projectable.
  eapply Forall_impl; [apply vehicle_record_projectable | exact H].
Qed.

(** C3: over the vehicle records of a document, the train set is the
    projection, in order, of exactly the records whose latitude and longitude
    are both present and non-falsy; a record missing either one is left
    out. *)
Theorem trains_of_plotted (vps : list pyval) :
  Forall projectable vps ->
  exists ts, trains_of vps = Ok ts /\
    Forall2 (fun v t => get_train_info v = Ok t) (filter plotted vps) ts /\
    forall v, In v vps ->
      (In v (filter plotted vps) <->
       has_coordinate v "lat" /\ has_coordinate v "lon").
Proof.
  intros H. destruct (trains_of_projectable H) as (ts & E & F2).
  exists ts. split; [exact E|]. split; [exact F2|].
  intros v Hv. rewrite filter_In, plotted_iff. tauto.
Qed.

Lemma trains_of_plotted_witness :
  exists ts,
    trains_of [PDict [("vehicleId", PStr "V1"); ("lat", PFloat 47.5);
                      ("lon", PFloat 19)];
               PDict [("vehicleId", PStr "V2"); ("lat", PFloat 47.5);
                      ("trip", PNone)];
               PDict [("vehicleId", PStr "V3"); ("lat", PInt 0);
                      ("lon", PFloat 19)]] = Ok ts /\
    List.length ts = 1%nat.
Proof.
  destruct (@trains_of_plotted
              [PDict [("vehicleId", PStr "V1"); ("lat", PFloat 47.5);
                      ("lon", PFloat 19)];
               PDict [("vehicleId", PStr "V2"); ("lat", PFloat 47.5);
                      ("trip", PNone)];
               PDict [("vehicleId", PStr "V3"); ("lat", PInt 0);
                      ("lon", PFloat 19)]])
    as (ts & E & F2 & _).
  - repeat constructor.
    + eexists. split; [reflexivity|]. intros _. split; left; reflexivity.
    + eexists. split; [reflexivity|]. intros Hp. discriminate Hp.
    + eexists. split; [reflexivity|]. intros Hp. discriminate Hp.
  - exists ts. split; [exact E|].
    apply Forall2_length in F2. symmetry. exact F2.
Defined.

(** *** Marker colors *)

Section Markers.

Context {RT : PyRuntime}.

Lemma digits_nonempty (z : Z) : digits z <> "".
Proof.
  unfold digits, NilZero.string_of_uint.
  destruct (N.to_uint (Z.to_N z)); cbn; discriminate.
Qed.

Lemma int_str_nonempty (z : Z) : int_str z <> "".
Proof.
  unfold int_str. destruct (z <? 0)%Z; [discriminate | apply digits_nonempty].
Qed.

Lemma py_str_truthy_nonempty (v : pyval) : truthy v = true -> py_str v <> "".
Proof.
  destruct v as [|b|z|f|s|l|d]; cbn [truthy py_str py_repr]; intros H.
  - discriminate.
  - destruct b; discriminate.
  - apply int_str_nonempty.
  - apply float_repr_nonempty.
  - intros ->. discriminate.
  - discriminate.
  - discriminate.
Qed.

Lemma derived_id_nonempty (v : pyval) : derived_id v <> "".
Proof.
  unfold derived_id, first_truthy.
  destruct (truthy (field v "vehicleId")) eqn:E1.
  - apply py_str_truthy_nonempty; exact E1.
  - destruct (truthy (field (field v "trip") "tripShortName")) eqn:E2.
    + apply py_str_truthy_nonempty; exact E2.
    + discriminate.
Qed.

Lemma vehicle_record_identifiable (v : pyval) :
  vehicle_record v -> identifiable v.
Proof. intros (d & -> & Ht & _). exists d. split; [reflexivity | right; exact Ht]. Qed.

Lemma vehicle_ident_identifiable (v : pyval) :
  identifiable v -> vehicle_ident v = Ok (derived_id v).
Proof.
  intros (d & -> & H). unfold vehicle_ident, derived_id, first_truthy, py_or.
  cbn [py_get py_get_or bind field].
  destruct (truthy (lookup_or d "vehicleId" PNone)) eqn:Ev; [reflexivity|].
  destruct H as [H | Ht]; [discriminate|].
  assert (E : field (lookup_or d "trip" PNone) "tripShortName"
              = lookup_or (nested d "trip") "tripShortName" PNone).
  { unfold nested, lookup_or. destruct Ht as [-> | [d' ->]]; reflexivity. }
  rewrite E, (lookup_nested Ht). cbn [bind py_get py_get_or].
  destruct (truthy (lookup_or (nested d "trip") "tripShortName" PNone));
    reflexivity.
Qed.

Lemma is_selected_selects (selected : option string) (v : pyval) :
  is_selected selected (derived_id v) = selects selected v.
Proof.
  destruct selected as [s|]; [|reflexivity].
  unfold is_selected, selects.
  destruct (String.eqb s "") eqn:E; [|reflexivity].
  apply String.eqb_eq in E. subst s. cbn [negb andb].
  symmetry. apply String.eqb_neq. apply derived_id_nonempty.
Qed.

Lemma get_marker_colors_record (vps : list pyval) (selected : option string) :
  Forall identifiable vps ->
  get_marker_colors vps selected =
  Ok (map (fun v => if selects selected v then "#e67e22" else "blue") vps).
Proof.
  intros H. unfold get_marker_colors. apply mapM_pure.
  eapply Forall_impl; [|exact H]. intros v Hv. cbv beta.
  rewrite (vehicle_ident_identifiable Hv). cbn [bind].
  rewrite is_selected_selects. reflexivity.
Qed.

(** C4: [get_marker_colors] gives the selection color to exactly the
    vehicles whose derived identifier is the selected one and ['blue'] to
    every other; with no selection every marker is ['blue']. *)
Theorem get_marker_colors_selected (vps : list pyval) (selected : option string) :
  Forall identifiable vps ->
  exists cs, get_marker_colors vps selected = Ok cs /\
    List.length cs = List.length vps /\
    (forall i v, nth_error vps i = Some v ->
       (selected = Some (derived_id v) -> nth_error cs i = Some "#e67e22") /\
       (selected <> Some (derived_id v) -> nth_error cs i = Some "blue")) /\
    (selected = None -> Forall (fun c => c = "blue") cs).
Proof.
  intros H. eexists. split; [apply get_marker_colors_record; exact H|].
  split; [apply length_map|]. split.
  - intros i v Hv. rewrite nth_error_map, Hv. cbn [option_map].
    unfold selects. split.
    + intros ->. rewrite String.eqb_refl. reflexivity.
    + intros Hn. destruct selected as [s|]; [|reflexivity].
      destruct (String.eqb (derived_id v) s) eqn:E; [|reflexivity].
      apply String.eqb_eq in E. congruence.
  - intros ->. apply Forall_map. apply Forall_forall. reflexivity.
Qed.

End Markers.

Lemma get_marker_colors_selected_witness :
  exists cs,
    get_marker_colors (RT := ref_runtime)
      [PDict [("vehicleId", PStr "V1"); ("lat", PFloat 47.5); ("lon", PFloat 19)];
       PDict [("trip", PDict [("tripShortName", PStr "S2")])];
       PDict [("lat", PFloat 47.5)]]
      (Some "S2") = Ok cs /\
    nth_error cs 0 = Some "blue" /\ nth_error cs 1 = Some "#e67e22".
Proof.
  destruct (@get_marker_colors_selected ref_runtime
    [PDict [("vehicleId", PStr "V1"); ("lat", PFloat 47.5); ("lon", PFloat 19)];
     PDict [("trip", PDict [("tripShortName", PStr "S2")])];
     PDict [("lat", PFloat 47.5)]]
    (Some "S2")) as (cs & E & _ & Hc & _).
  - repeat constructor.
    + eexists; split; [reflexivity | left; reflexivity].
    + eexists; split; [reflexivity | right; right; eexists; reflexivity].
    + eexists; split; [reflexivity | right; left; reflexivity].
  - exists cs. split; [exact E|]. split.
    + apply (Hc 0%nat _ eq_refl). discriminate.
    + apply (Hc 1%nat _ eq_refl). reflexivity.
Defined.

(** *** The marker layer: colors against positions *)

Lemma filter_all_length {A : Type} (p : A -> bool) (l : list A) :
  List.length (filter p l) = List.length l <-> Forall (fun x => p x = true) l.
Proof.
  induction l as [|x l IH]; cbn [filter].
  - split; [constructor | reflexivity].
  - pose proof (filter_length_le p l) as Hle.
    destruct (p x) eqn:E; cbn [List.length]; split.
    + intros H. constructor; [exact E | apply IH; lia].
    + intros H. inversion H; subst. f_equal. apply IH. assumption.
    + intros H. lia.
    + intros H. inversion H; subst. congruence.
Qed.

Section MarkerLayer.

Context {RT : PyRuntime}.

Lemma trains_trace_record (ts : list train) (cs : list string) (vps : list pyval) :
  Forall vehicle_record vps ->
  trains_trace ts cs vps =
  Ok {| tr_lat := map lat ts;
        tr_lon := map lon ts;
        tr_mode := "markers";
        tr_marker := Some {| size := 20; color := ColorList cs;
                             symbol := None; allowoverlap := None |};
        tr_line := None;
        tr_text := Some (map (fun t => PStr (train_text t)) ts);
        tr_customdata := Some (map PStr (map derived_id (filter plotted vps)));
        tr_name := "Trains";
        tr_hoverinfo := None;
        tr_showlegend := None;
        tr_textposition := None |}.
Proof.
  intros H. unfold trains_trace.
  rewrite (@filter_mapM_pure _ _ has_coords vehicle_ident plotted derived_id).
  - reflexivity.
  - eapply Forall_impl; [|exact H]. apply has_coords_record.
  - eapply Forall_impl; [|exact H]. intros v Hv _.
    apply vehicle_ident_identifiable, vehicle_record_identifiable; exact Hv.
Qed.

(** C9: the marker colors are one per record of the raw vehicle list,
    records without coordinates included, while the marker positions are one
    per plotted train; the two lists have the same length exactly when every
    vehicle has non-falsy coordinates. *)
Theorem marker_colors_cover_raw_list (vps : list pyval) (selected : option string) :
  Forall vehicle_record vps ->
  exists cs ts tr,
    get_marker_colors vps selected = Ok cs /\
    trains_of vps = Ok ts /\
    trains_trace ts cs vps = Ok tr /\
    option_map color (tr_marker tr) = Some (ColorList cs) /\
    List.length cs = List.length vps /\
    List.length (tr_lat tr) = List.length (filter plotted vps) /\
    List.length (tr_lon tr) = List.length (filter plotted vps) /\
    (List.length cs = List.length (tr_lat tr) <->
     Forall (fun v => plotted v = true) vps).
Proof.
  intros H.
  destruct (trains_of_record H) as (ts & Ets & F2).
  apply Forall2_length in F2.
  eexists. exists ts. eexists.
  split; [apply get_marker_colors_record;
          eapply Forall_impl; [apply vehicle_record_identifiable | exact H]|].
  split; [exact Ets|].
  split; [apply trains_trace_record; exact H|].
  cbn [tr_marker tr_lat tr_lon option_map color].
  rewrite !length_map, <- F2.
  repeat split; try reflexivity.
  - intros E. apply filter_all_length. symmetry. exact E.
  - intros E. symmetry. apply filter_all_length. exact E.
Qed.

End MarkerLayer.

Lemma marker_colors_cover_raw_list_witness :
  exists cs tr,
    get_marker_colors (RT := ref_runtime)
      [PDict [("vehicleId", PStr "V1"); ("lat", PFloat 47.5); ("lon", PFloat 19)];
       PDict [("vehicleId", PStr "V2")]] None = Ok cs /\
    List.length cs = 2%nat /\ List.length (tr_lat tr) = 1%nat.
Proof.
  destruct (@marker_colors_cover_raw_list ref_runtime
    [PDict [("vehicleId", PStr "V1"); ("lat", PFloat 47.5); ("lon", PFloat 19)];
     PDict [("vehicleId", PStr "V2")]] None)
    as (cs & ts & tr & Ecs & _ & _ & _ & Hcs & Hlat & _).
  - repeat constructor;
      (eexists; split; [reflexivity | split; left; reflexivity]).
  - exists cs, tr. split; [exact Ecs|]. split; [exact Hcs | exact Hlat].
Defined.

(** *** [seconds_to_hhmm] *)

Section Clock.

Context {RT : PyRuntime}.

Lemma py_eq_empty_str (v : pyval) : py_eq v (PStr "") = true <-> v = PStr "".
Proof.
  destruct v as [|b|z|f|s|l|d]; cbn; try (split; [discriminate | discriminate]).
  rewrite String.eqb_eq. split; [intros ->; reflexivity | congruence].
Qed.

(** C10: [seconds_to_hhmm] always returns.  It answers the empty string
    for [None] and for the empty string; for any other input that [int]
    accepts, the hours [seconds // 3600] (not wrapped at 24) and the minutes
    [(seconds % 3600) // 60], each written with [:02], around a colon; and
    the empty string for an input that [int] rejects. *)
Theorem seconds_to_hhmm_total (seconds : pyval) :
  exists s, seconds_to_hhmm seconds = Ok s /\
    (seconds = PNone \/ seconds = PStr "" -> s = "") /\
    (forall z, seconds <> PNone -> seconds <> PStr "" ->
       py_int seconds = Ok z ->
       s = format_zero_pad 2 (z / 3600) ++ ":"
             ++ format_zero_pad 2 ((z mod 3600) / 60)) /\
    (forall e, py_int seconds = Raise e -> s = "").
Proof.
  unfold seconds_to_hhmm.
  destruct (match seconds with PNone => true | _ => false end
            || py_eq seconds (PStr "")) eqn:G.
  - exists "". split; [reflexivity|]. split; [reflexivity|]. split.
    + intros z Hn He _. apply orb_true_iff in G. destruct G as [G|G].
      * destruct seconds; try discriminate. congruence.
      * apply py_eq_empty_str in G. congruence.
    + reflexivity.
  - apply orb_false_iff in G. destruct G as [G1 G2].
    assert (Hn : seconds <> PNone) by (intros ->; discriminate).
    assert (He : seconds <> PStr "").
    { intros E. apply py_eq_empty_str in E. congruence. }
    destruct (py_int seconds) as [z|e] eqn:Ei; cbn [bind try_except].
    + eexists. split; [reflexivity|]. split; [|split].
      * intros [E|E]; congruence.
      * intros z' _ _ E. injection E as <-. reflexivity.
      * discriminate.
    + exists "". split; [reflexivity|]. split; [reflexivity|]. split.
      * discriminate.
      * reflexivity.
Qed.

Lemma format_zero_pad_two (n : nat) :
  (n < 100)%nat -> String.length (format_zero_pad 2 (Z.of_nat n)) = 2%nat.
Proof.
  intros H. do 100 (destruct n as [|n]; [reflexivity|]). lia.
Qed.

(** Within the first hundred hours the text is five characters long. *)
Lemma seconds_to_hhmm_length (z : Z) (s : string) :
  (0 <= z < 360000)%Z -> seconds_to_hhmm (PInt z) = Ok s ->
  String.length s = 5%nat.
Proof.
  intros Hz H. cbn in H. injection H as <-.
  assert (Hh : (0 <= z / 3600 < 100)%Z).
  { split; [apply Z.div_pos; lia | apply Z.div_lt_upper_bound; lia]. }
  assert (Hm : (0 <= (z mod 3600) / 60 < 100)%Z).
  { pose proof (Z.mod_pos_bound z 3600 ltac:(lia)) as Hb.
    split; [apply Z.div_pos; lia | apply Z.div_lt_upper_bound; lia]. }
  rewrite <- (Z2Nat.id (z / 3600)) by lia.
  rewrite <- (Z2Nat.id ((z mod 3600) / 60)) by lia.
  assert (La : forall a b, String.length (a ++ b)
                           = (String.length a + String.length b)%nat).
  { induction a as [|c a IH]; intros b; cbn; [reflexivity | rewrite IH; reflexivity]. }
  rewrite La. cbn [String.length].
  rewrite !format_zero_pad_two by lia. reflexivity.
Qed.

End Clock.

(** *** The next stop *)

Lemma laterb_iff (now_sec : Z) (s : pyval) :
  laterb now_sec s = true <-> later_than now_sec s.
Proof.
  unfold laterb, later_than, exceeds. rewrite orb_true_iff. split.
  - intros [H|H].
    + destruct (field s "realtimeArrival") as [| |z| | | |] eqn:E;
        try discriminate.
      exists z. split; [left; reflexivity | apply Z.ltb_lt; exact H].
    + destruct (field s "realtimeDeparture") as [| |z| | | |] eqn:E;
        try discriminate.
      exists z. split; [right; reflexivity | apply Z.ltb_lt; exact H].
  - intros (z & [E|E] & H); rewrite E; [left | right]; apply Z.ltb_lt; exact H.
Qed.

Lemma nth_error_last {A : Type} (l : list A) (d : A) :
  l <> [] -> nth_error l (List.length l - 1) = Some (last l d).
Proof.
  induction l as [|x l IH]; [congruence|]. intros _.
  destruct l as [|y l]; [reflexivity|].
  cbn [List.length last]. cbn [List.length] in IH.
  replace (S (S (List.length l)) - 1)%nat with (S (S (List.length l) - 1))
    by lia.
  cbn [nth_error]. apply IH. discriminate.
Qed.

Lemma seq_index_last {A : Type} (l : list A) (d : A) :
  l <> [] -> seq_index l (-1) = Ok (last l d).
Proof.
  intros Hl. unfold seq_index. cbn [Z.ltb Z.compare].
  assert (Hn : (0 < List.length l)%nat) by (destruct l; [congruence | cbn; lia]).
  destruct (-1 + Z.of_nat (List.length l) <? 0)%Z eqn:E1;
    [apply Z.ltb_lt in E1; lia|].
  destruct (Z.of_nat (List.length l) <=? -1 + Z.of_nat (List.length l))%Z eqn:E2;
    [apply Z.leb_le in E2; lia|].
  cbn [orb].
  replace (Z.to_nat (-1 + Z.of_nat (List.length l))) with (List.length l - 1)%nat
    by lia.
  rewrite (nth_error_last d Hl). reflexivity.
Qed.

Section NextStop.

Context {RT : PyRuntime}.

Lemma int_or_none_after (now_sec : Z) (o : option pyval) :
  (0 <= now_sec)%Z -> timestamp o ->
  exists r, int_or_none (match o with Some x => x | None => PNone end) = Ok r /\
            after r now_sec
            = exceeds now_sec (match o with Some x => x | None => PNone end).
Proof.
  intros Hnow [-> | [-> | [z ->]]].
  - exists None. split; reflexivity.
  - exists None. split; reflexivity.
  - unfold int_or_none. cbn [truthy].
    destruct (z =? 0)%Z eqn:E; cbn [negb].
    + exists None. split; [reflexivity|]. apply Z.eqb_eq in E. subst z.
      cbn [after exceeds]. symmetry. apply Z.ltb_ge. exact Hnow.
    + exists (Some z). split; [reflexivity|]. cbn [after exceeds].
      rewrite E. reflexivity.
Qed.

Lemma find_next_stop_cons (now_sec : Z) (idx : nat) (s : pyval) (stops : list pyval) :
  (0 <= now_sec)%Z -> stop_time s ->
  find_next_stop now_sec idx (s :: stops) =
  if laterb now_sec s then Ok (Some idx)
  else find_next_stop now_sec (S idx) stops.
Proof.
  intros Hnow (d & -> & Ha & Hd).
  destruct (int_or_none_after Hnow Ha) as (ra & Ea & Aa).
  destruct (int_or_none_after Hnow Hd) as (rd & Ed & Ad).
  cbn [find_next_stop py_get py_get_or bind]. unfold lookup_or.
  rewrite Ea. cbn [bind]. rewrite Ed. cbn [bind].
  rewrite Aa, Ad. reflexivity.
Qed.

Lemma find_next_stop_first (now_sec : Z) (stops : list pyval) (idx : nat) :
  (0 <= now_sec)%Z -> Forall stop_time stops ->
  exists r, find_next_stop now_sec idx stops = Ok r /\
    match r with
    | Some i =>
        exists k s, i = (idx + k)%nat /\ nth_error stops k = Some s /\
          laterb now_sec s = true /\
          forall j s', (j < k)%nat -> nth_error stops j = Some s' ->
                       laterb now_sec s' = false
    | None => Forall (fun s => laterb now_sec s = false) stops
    end.
Proof.
  intros Hnow H. revert idx.
  induction H as [|s stops Hs _ IH]; intros idx.
  - exists None. split; [reflexivity | constructor].
  - rewrite (find_next_stop_cons idx stops Hnow Hs).
    destruct (laterb now_sec s) eqn:E.
    + exists (Some idx). split; [reflexivity|].
      exists 0%nat, s. repeat split; [lia | exact E | intros; lia].
    + destruct (IH (S idx)) as (r & Er & Hr). exists r. split; [exact Er|].
      destruct r as [i|].
      * destruct Hr as (k & s' & -> & Hk & Hl & Hb).
        exists (S k), s'. repeat split; [lia | exact Hk | exact Hl |].
        intros [|j] s'' Hj Hn; cbn in Hn.
        -- injection Hn as <-. exact E.
        -- apply (Hb j); [lia | exact Hn].
      * constructor; assumption.
Qed.

(** C1: on a non-empty stop-time sequence and a reference time in seconds
    since midnight, the next stop is the first entry, in sequence order,
    whose real-time arrival or real-time departure strictly exceeds the
    reference time; when no entry does, the delay is read from the last stop
    of the sequence. *)
Theorem next_stop_first_later (stops : list pyval) (now_sec : Z) :
  stops <> [] -> Forall stop_time stops -> (0 <= now_sec)%Z ->
  exists r, find_next_stop now_sec 0 stops = Ok r /\
    match r with
    | Some i =>
        exists s, nth_error stops i = Some s /\ later_than now_sec s /\
          forall j s', (j < i)%nat -> nth_error stops j = Some s' ->
                       ~ later_than now_sec s'
    | None =>
        (forall s, In s stops -> ~ later_than now_sec s) /\
        delay_of (PList stops) None
        = Ok (field (last stops PNone) "arrivalDelay")
    end.
Proof.
  intros Hne H Hnow.
  destruct (find_next_stop_first 0 Hnow H) as (r & Er & Hr).
  exists r. split; [exact Er|]. destruct r as [i|].
  - destruct Hr as (k & s & -> & Hk & Hl & Hb). exists s.
    split; [exact Hk|]. split; [apply laterb_iff; exact Hl|].
    intros j s' Hj Hn Hc. apply laterb_iff in Hc.
    rewrite (Hb j s' Hj Hn) in Hc. discriminate.
  - split.
    + intros s Hs Hc. apply laterb_iff in Hc.
      rewrite Forall_forall in Hr. rewrite (Hr s Hs) in Hc. discriminate.
    + cbn [delay_of py_at]. rewrite (seq_index_last PNone Hne). cbn [bind].
      assert (Hl : stop_time (last stops PNone)).
      { rewrite Forall_forall in H. apply H.
        eapply nth_error_In. apply nth_error_last. exact Hne. }
      destruct Hl as (d & -> & _). reflexivity.
Qed.

End NextStop.

Lemma next_stop_first_later_witness :
  exists r,
    find_next_stop (RT := ref_runtime) 150 0 sample_stops = Ok r /\
    match r with
    | Some i =>
        exists s, nth_error sample_stops i = Some s /\ later_than 150 s /\
          forall j s', (j < i)%nat -> nth_error sample_stops j = Some s' ->
                       ~ later_than 150 s'
    | None =>
        (forall s, In s sample_stops -> ~ later_than 150 s) /\
        delay_of (PList sample_stops) None
        = Ok (field (last sample_stops PNone) "arrivalDelay")
    end.
Proof.
  apply (@next_stop_first_later ref_runtime sample_stops 150).
  - discriminate.
  - repeat constructor.
    + eexists. split; [reflexivity|].
      split; right; right; eexists; reflexivity.
    + eexists. split; [reflexivity|].
      split; right; right; eexists; reflexivity.
    + eexists. split; [reflexivity|].
      split; [right; right; eexists; reflexivity | left; reflexivity].
  - lia.
Defined.

Example sample_next_stop :
  find_next_stop (RT := ref_runtime) 150 0 sample_stops = Ok (Some 1%nat).
Proof. reflexivity. Qed.

Example sample_route_end :
  find_next_stop (RT := ref_runtime) 300 0 sample_stops = Ok None.
Proof. reflexivity. Qed.

(** *** The stop rows *)

Section StopRows.

Context {RT : PyRuntime}.

Lemma seconds_to_hhmm_int (z : Z) :
  seconds_to_hhmm (PInt z)
  = Ok (format_zero_pad 2 (z / 3600) ++ ":" ++ format_zero_pad 2 ((z mod 3600) / 60)).
Proof. reflexivity. Qed.

(** A stop-time whose two times are non-zero integers that differ: the
    scheduled time is struck through and the real-time time is red when
    later, green otherwise. *)
Lemma time_cell_differ (sc rt : string) (d : list (string * pyval)) (a b : Z) :
  dict_get d sc = Some (PInt a) -> dict_get d rt = Some (PInt b) ->
  a <> 0%Z -> b <> 0%Z -> a <> b ->
  exists ta tb,
    seconds_to_hhmm (PInt a) = Ok ta /\ seconds_to_hhmm (PInt b) = Ok tb /\
    time_cell sc rt (PDict d) =
    Ok (El "Span"
          (Children
             [El "Span" (Txt ta) None struck_style;
              El "Span" (Txt tb) None
                 (time_style (if (a <? b)%Z then "#e74c3c" else "#2ecc40"))])
          None cell_style).
Proof.
  intros Ha Hb Za Zb Hab. eexists. eexists.
  split; [apply seconds_to_hhmm_int|]. split; [apply seconds_to_hhmm_int|].
  unfold time_cell, both_and. cbn [py_get py_get_or bind]. unfold lookup_or.
  rewrite Ha, Hb. cbn [truthy py_int bind].
  apply Z.eqb_neq in Za, Zb. rewrite Za, Zb. cbn [negb bind].
  assert (E : (b =? a)%Z = false) by (apply Z.eqb_neq; congruence).
  rewrite E. cbn [negb bind]. rewrite !seconds_to_hhmm_int. reflexivity.
Qed.

(** C2 fails on the code for a time of 0 seconds, midnight: the guard
    [s.get('scheduledArrival')] reads the 0 as no time at all.  With a
    scheduled arrival at 00:00 and a real-time arrival two minutes later, the
    row of the stop is rendered with nothing struck through and the
    real-time arrival green. *)
Theorem arrival_cell_midnight_schedule :
  let s := PDict [("stop", PDict [("name", PStr "Szolnok")]);
                  ("scheduledArrival", PInt 0); ("realtimeArrival", PInt 120)] in
  let cell := El "Span"
                 (Children [NoChild;
                            El "Span" (Txt "00:02") None (time_style "#2ecc40")])
                 None cell_style in
  arrival_cell s = Ok cell /\
  exists departure,
    stop_rows None 0 [s]
    = Ok [El "Div"
             (Children [cell; departure;
                        El "Div" (Txt "Szolnok") (Some (PStr "Szolnok")) name_style])
             None (row_style "none")].
Proof. split; [reflexivity | eexists; reflexivity]. Qed.

End StopRows.

(** *** Heading arrows *)

Lemma fold_add_trace {A : Type} (f : A -> trace) (xs : list A) (fig : figure) :
  fig_data (fold_left (fun g a => add_trace g (f a)) xs fig)
  = (fig_data fig ++ map f xs)%list.
Proof.
  revert fig; induction xs as [|x xs IH]; intros fig; cbn [fold_left map].
  - rewrite app_nil_r. reflexivity.
  - rewrite IH. cbn [add_trace fig_data]. rewrite <- app_assoc. reflexivity.
Qed.

Section Arrows.

Context {RT : PyRuntime}.

Lemma arrow_of_fields (i : nat) (t : train) (h : pyval) (a : arrow) :
  arrow_of i t h = Ok a ->
  a_index a = i /\ a_lat1 a = lat t /\ a_lon1 a = lon t.
Proof.
  unfold arrow_of. intros H. repeat invert_bind H.
  injection H as <-. repeat split.
Qed.

Lemma collect_arrows_visible (data : pyval) (b : option bounds)
    (trains : list train) (i : nat) (arrows : list arrow) :
  collect_arrows data b i trains = Ok arrows ->
  forall a, In a arrows ->
    exists k t, a_index a = (i + k)%nat /\ nth_error trains k = Some t /\
      a_lat1 a = lat t /\ a_lon1 a = lon t /\ visible b t.
Proof.
  revert i arrows. induction trains as [|t trains IH]; intros i arrows H a Ha.
  - injection H as <-. destruct Ha.
  - assert (Hrec : forall arrows', collect_arrows data b (S i) trains = Ok arrows' ->
               In a arrows' ->
               exists k t', a_index a = (i + k)%nat /\
                 nth_error (t :: trains) k = Some t' /\
                 a_lat1 a = lat t' /\ a_lon1 a = lon t' /\ visible b t').
    { intros arrows' H' Ha'.
      destruct (IH _ _ H' a Ha') as (k & t' & Hi & Hk & Hrest).
      exists (S k), t'. split; [lia|]. split; [exact Hk | exact Hrest]. }
    cbn [collect_arrows] in H. invert_bind H.
    destruct x as [|]; cbn [negb] in H; [|eapply Hrec; eassumption].
    assert (Hvis : visible b t).
    { destruct b as [b'|]; [exact E | exact I]. }
    invert_bind H.
    destruct x as [|h|h|h|h|h|h];
      try (eapply Hrec; eassumption);
      (invert_bind H; invert_bind H; injection H as <-;
       destruct Ha as [<- | Ha]; [|eapply Hrec; eassumption];
       match goal with
       | Ea : arrow_of _ _ _ = Ok _ |- _ =>
           destruct (arrow_of_fields _ _ _ Ea) as (Hi & Hla & Hlo)
       end;
       exists 0%nat, t; repeat split;
       [lia | exact Hla | exact Hlo | exact Hvis]).
Qed.

Lemma add_heading_arrows_cases (fig : figure) (trains : list train)
    (data : pyval) (b : option bounds) (zoom : pyval) (fig' : figure) :
  add_heading_arrows fig trains data b zoom = Ok fig' ->
  (py_lt zoom (PInt 12) = Ok true /\ fig' = fig) \/
  (py_lt zoom (PInt 12) = Ok false /\
   exists arrows,
     collect_arrows data b 0 trains = Ok arrows /\
     fig_data fig' = (fig_data fig ++ map heading_line arrows ++ heads_of arrows)%list /\
     forall a, In a arrows ->
       exists t, nth_error trains (a_index a) = Some t /\
         a_lat1 a = lat t /\ a_lon1 a = lon t /\ visible b t).
Proof.
  unfold add_heading_arrows. intros H. invert_bind H.
  destruct x as [|].
  - left. injection H as <-. split; [exact E | reflexivity].
  - right. split; [exact E|]. invert_bind H. injection H as <-.
    exists x. split; [exact E0|]. split.
    + destruct x as [|a x]; cbn [heads_of].
      * cbn [fold_left map app]. rewrite app_nil_r. reflexivity.
      * cbn [add_trace fig_data]. rewrite fold_add_trace, <- app_assoc.
        reflexivity.
    + intros a Ha.
      destruct (collect_arrows_visible _ _ _ _ E0 a Ha)
        as (k & t & Hi & Hk & Hrest).
      exists t. rewrite Hi. split; [exact Hk | exact Hrest].
Qed.

(** C5, as the code has it: [add_heading_arrows] adds nothing when the zoom
    is below 12; otherwise every arrow it adds belongs to a train that lies
    within the viewport bounds when bounds are known.  With no bounds (no
    pan or zoom event carried the viewport) the position is not tested. *)
Theorem heading_arrows_guarded (fig : figure) (trains : list train)
    (data : pyval) (b : option bounds) (zoom : pyval) (fig' : figure) :
  add_heading_arrows fig trains data b zoom = Ok fig' ->
  (py_lt zoom (PInt 12) = Ok true /\ fig' = fig) \/
  (py_lt zoom (PInt 12) = Ok false /\
   exists arrows,
     collect_arrows data b 0 trains = Ok arrows /\
     fig_data fig' = (fig_data fig ++ map heading_line arrows ++ heads_of arrows)%list /\
     forall a, In a arrows ->
       exists t, nth_error trains (a_index a) = Some t /\
         a_lat1 a = lat t /\ a_lon1 a = lon t /\ visible b t).
Proof. apply add_heading_arrows_cases. Qed.

End Arrows.

Example sample_train_view : get_train_info sample_vehicle = Ok sample_train.
Proof. reflexivity. Qed.

Lemma heading_arrows_guarded_witness :
  exists fig',
    add_heading_arrows (RT := ref_runtime) empty_figure [sample_train]
      sample_doc (Some sample_bounds) (PInt 13) = Ok fig' /\
    ((py_lt (PInt 13) (PInt 12) = Ok true /\ fig' = empty_figure) \/
     (py_lt (PInt 13) (PInt 12) = Ok false /\
      exists arrows,
        collect_arrows (RT := ref_runtime) sample_doc (Some sample_bounds) 0
          [sample_train] = Ok arrows /\
        fig_data fig'
        = (fig_data empty_figure ++ map heading_line arrows ++ heads_of arrows)%list /\
        forall a, In a arrows ->
          exists t, nth_error [sample_train] (a_index a) = Some t /\
            a_lat1 a = lat t /\ a_lon1 a = lon t /\
            visible (Some sample_bounds) t)).
Proof.
  assert (E : exists fig',
             add_heading_arrows (RT := ref_runtime) empty_figure [sample_train]
               sample_doc (Some sample_bounds) (PInt 13) = Ok fig').
  { eexists. vm_compute. reflexivity. }
  destruct E as [fig' E]. exists fig'. split; [exact E|].
  exact (@heading_arrows_guarded ref_runtime _ _ _ _ _ _ E).
Defined.

(** C5, as stated, fails when no viewport bounds are known: at zoom 12,
    with no bounds, the arrow of the train is drawn all the same. *)
Lemma heading_arrow_without_bounds :
  exists fig',
    add_heading_arrows (RT := ref_runtime) empty_figure [sample_train]
      sample_doc None (PInt 12) = Ok fig' /\
    map tr_name (fig_data fig') = ["HeadingLine"; "HeadingArrow"] /\
    map tr_customdata (fig_data fig') = [None; Some [PInt 0]] /\
    get_bounds (PDict [("mapbox.zoom", PInt 12)]) = Ok (PInt 12, None).
Proof.
  eexists. split; [vm_compute; reflexivity|].
  repeat split; reflexivity.
Qed.

(** The same on any runtime: unless the arithmetic of the tip itself
    raises, the arrow is drawn. *)
Lemma heading_arrow_without_bounds_any_runtime {RT : PyRuntime} (a : arrow) :
  arrow_of 0 sample_train (PInt 90) = Ok a ->
  add_heading_arrows empty_figure [sample_train] sample_doc None (PInt 12)
  = Ok {| fig_data := [heading_line a; heading_heads [a]]; fig_layout := None |}.
Proof.
  intros H. unfold add_heading_arrows.
  change (py_lt (PInt 12) (PInt 12)) with (@Ok bool false). cbn [bind].
  cbn [collect_arrows bind negb].
  change (heading_of sample_doc (lat sample_train) (lon sample_train))
    with (Ok (PInt 90)).
  cbn [bind]. rewrite H. reflexivity.
Qed.

(** *** [update_map] end to end *)

Section EndToEnd.

Context {RT : PyRuntime}.

(** C7: on a document whose [vehiclePositions] is the empty list, with no
    pan or zoom event and no click, [update_map] returns: the figure has the
    one marker layer, with no point, the map is centered at
    (47.1625, 19.5033) with zoom 7, and the info panel is the empty
    string. *)
Theorem update_map_no_vehicles (w : world) (prev_fig : pyval)
    (doc d : list (string * pyval)) :
  dict_get doc "data" = Some (PDict d) ->
  dict_get d "vehiclePositions" = Some (PList []) ->
  exists fig tr l,
    update_map w PNone PNone prev_fig (PDict doc) = Ok (fig, Txt "") /\
    fig_data fig = [tr] /\ tr_name tr = "Trains" /\
    tr_lat tr = [] /\ tr_lon tr = [] /\
    tr_text tr = Some [] /\ tr_customdata tr = Some [] /\
    fig_layout fig = Some l /\
    center l = (47.1625%float, 19.5033%float) /\ zoom l = PInt 7.
Proof.
  intros Hdoc Hvps.
  unfold update_map, no_document, map_layers, py_in, py_item, py_get,
    py_get_or, dict_has, lookup_or.
  cbn [is_dict negb]. rewrite Hdoc. cbn [bind negb]. rewrite Hvps.
  cbn [bind negb].
  do 3 eexists. split; [reflexivity|]. repeat split.
Qed.

Lemma selected_click (clickData : pyval) (vid : string) :
  get_selected_vehicle_id clickData = Ok (Some vid) ->
  has_points clickData = Ok true /\ clicked_id clickData = Ok vid.
Proof.
  unfold get_selected_vehicle_id, has_points, clicked_id. intros H.
  invert_bind H. rewrite E. destruct x as [|]; [|discriminate].
  split; [reflexivity|].
  repeat invert_bind H. injection H as <-.
  rewrite E0. cbn [bind]. rewrite E1. cbn [bind]. rewrite E2. reflexivity.
Qed.

Lemma map_layers_trains_first (clickData relayoutData data : pyval)
    (fig : figure) (trains : list train) (zoom : pyval) :
  map_layers clickData relayoutData data = Ok (fig, trains, zoom) ->
  exists tr rest, fig_data fig = tr :: rest /\ tr_name tr = "Trains"
                  /\ tr_lat tr = map lat trains /\ tr_lon tr = map lon trains.
Proof.
  unfold map_layers. intros H.
  split_bind H as d Ed. split_bind H as vps Evps.
  split_bind H as ts Ets. split_bind H as zb Ezb. destruct zb as [z b].
  split_bind H as sel Esel. split_bind H as cs Ecs.
  split_bind H as tr Etr. split_bind H as fig1 Efig.
  injection H as <- <- <-.
  assert (Htr : tr_name tr = "Trains" /\ tr_lat tr = map lat ts
                /\ tr_lon tr = map lon ts).
  { unfold trains_trace in Etr. split_bind Etr as cd Ecd.
    injection Etr as <-. repeat split. }
  destruct (add_heading_arrows_cases _ _ _ _ _ Efig)
    as [[_ ->] | [_ (arrows & _ & Hd & _)]].
  - exists tr, []. split; [reflexivity | exact Htr].
  - rewrite Hd. cbn [add_trace empty_figure fig_data app].
    eexists. eexists. split; [reflexivity | exact Htr].
Qed.

(** While the map is zoomed out (below 12) no arrow arithmetic runs, and
    the marker layers of a document of vehicle records are always drawn. *)
Lemma map_layers_zoomed_out (clickData relayoutData : pyval)
    (doc d : list (string * pyval)) (vps : list pyval) (zoom : pyval)
    (b : option bounds) (selected : option string) :
  dict_get doc "data" = Some (PDict d) ->
  dict_get d "vehiclePositions" = Some (PList vps) ->
  Forall vehicle_record vps ->
  get_bounds relayoutData = Ok (zoom, b) ->
  py_lt zoom (PInt 12) = Ok true ->
  get_selected_vehicle_id clickData = Ok selected ->
  exists ts tr,
    trains_of vps = Ok ts /\
    map_layers clickData relayoutData (PDict doc)
    = Ok (add_trace empty_figure tr, ts, zoom).
Proof.
  intros Hdoc Hvps Hrec Hb Hz Hsel.
  destruct (trains_of_record Hrec) as (ts & Ets & _).
  exists ts. eexists. split; [exact Ets|].
  unfold map_layers, py_item, py_get, py_get_or, lookup_or.
  rewrite Hdoc. cbn [bind]. rewrite Hvps. cbn [bind].
  rewrite Ets. cbn [bind]. rewrite Hb. cbn [bind]. rewrite Hsel. cbn [bind].
  rewrite (@get_marker_colors_record _ vps selected)
    by (eapply Forall_impl; [apply vehicle_record_identifiable | exact Hrec]).
  cbn [bind].
  rewrite (trains_trace_record ts _ Hrec). cbn [bind].
  unfold add_heading_arrows. rewrite Hz. reflexivity.
Qed.

(** Once the marker layers are drawn, a click whose identifier is the
    vehicle id of no train and the display name of no train takes the early
    return of [update_map]. *)
Lemma update_map_unmatched (w : world)
    (clickData relayoutData prev_fig data : pyval)
    (fig : figure) (trains : list train) (zoom : pyval) (vid : string) :
  no_document data = Ok false ->
  map_layers clickData relayoutData data = Ok (fig, trains, zoom) ->
  get_selected_vehicle_id clickData = Ok (Some vid) ->
  (forall t, In t trains ->
     py_str (vehicleId t) <> vid /\ py_str (name t) <> vid) ->
  update_map w clickData relayoutData prev_fig data
  = Ok (update_layout fig (default_layout zoom), Txt "").
Proof.
  intros Hdoc Hlayers Hsel Hno.
  destruct (selected_click _ Hsel) as [Hp Hc].
  unfold update_map. rewrite Hdoc. cbn [bind]. rewrite Hlayers. cbn [bind].
  rewrite Hp. cbn [bind]. rewrite Hc. cbn [bind].
  assert (Hfind : forall key, (forall t, In t trains -> py_str (key t) <> vid) ->
                    find_train key vid trains = None).
  { intros key Hk. unfold find_train.
    destruct (find _ trains) as [t|] eqn:Ef; [|reflexivity].
    apply find_some in Ef. destruct Ef as [Hin Heq].
    apply String.eqb_eq in Heq. destruct (Hk t Hin Heq). }
  unfold resolve_train.
  rewrite (Hfind vehicleId) by (intros t Ht; apply (Hno t Ht)).
  rewrite (Hfind name) by (intros t Ht; apply (Hno t Ht)).
  reflexivity.
Qed.

(** Numbers are compared without a [TypeError], and the smallest and the
    largest of a list of numbers is one of them. *)
Lemma py_cmp_numbers (op : cmpop) (a b : pyval) :
  number a -> number b -> exists r, py_cmp op a b = Ok r.
Proof.
  intros [x Hx] [y Hy].
  destruct a; try discriminate Hx; destruct b; try discriminate Hy;
    cbn; eexists; reflexivity.
Qed.

Lemma extremum_numbers (op : cmpop) (l : list pyval) (cur : pyval) :
  number cur -> Forall number l ->
  exists r, extremum op cur l = Ok r /\ number r.
Proof.
  intros Hc Hl. revert cur Hc.
  induction Hl as [|x l Hx _ IH]; intros cur Hc; cbn [extremum].
  - exists cur. split; [reflexivity | exact Hc].
  - destruct (py_cmp_numbers op Hx Hc) as [r ->]. cbn [bind].
    apply IH. destruct r; assumption.
Qed.

Lemma seq_index_head {A : Type} (x : A) (l : list A) :
  seq_index (x :: l) 0 = Ok x.
Proof.
  unfold seq_index. cbn [List.length].
  change (0 <? 0)%Z with false. cbv iota.
  destruct (Z.leb_spec (Z.of_nat (S (List.length l))) 0) as [H|H]; [lia|].
  reflexivity.
Qed.

Lemma seq_index_second {A : Type} (x y : A) (l : list A) :
  seq_index (x :: y :: l) 1 = Ok y.
Proof.
  unfold seq_index. cbn [List.length].
  change (1 <? 0)%Z with false. cbv iota.
  destruct (Z.leb_spec (Z.of_nat (S (S (List.length l)))) 1) as [H|H]; [lia|].
  reflexivity.
Qed.

Lemma corner_coordinates (cs : list pyval) :
  Forall corner_pair cs ->
  exists lats lons,
    mapM (fun c => py_at c 1) cs = Ok lats /\
    mapM (fun c => py_at c 0) cs = Ok lons /\
    Forall number lats /\ Forall number lons /\
    List.length lats = List.length cs /\ List.length lons = List.length cs.
Proof.
  induction 1 as [|c cs (lo & la & rest & -> & Hlo & Hla) _
                   (lats & lons & El & Eo & Hl & Ho & Ll & Lo)].
  - exists [], []. repeat split; constructor.
  - exists (la :: lats), (lo :: lons). cbn [mapM py_at].
    rewrite seq_index_second, seq_index_head, El, Eo. cbn [bind List.length].
    repeat split; try (constructor; assumption); congruence.
Qed.

Lemma get_bounds_viewport (relayoutData : pyval) :
  viewport_event relayoutData ->
  exists b,
    get_bounds relayoutData = Ok (zoom_of relayoutData, b) /\
    number (zoom_of relayoutData) /\
    forall b', b = Some b' ->
      number (lat_min b') /\ number (lat_max b') /\
      number (lon_min b') /\ number (lon_max b').
Proof.
  assert (Hseven : number (PInt 7)) by (eexists; reflexivity).
  intros [Hfalse | (r & -> & Hz & Hd)].
  - exists None. unfold get_bounds. rewrite Hfalse.
    assert (Ez : zoom_of relayoutData = PInt 7).
    { destruct relayoutData as [| | | | | |d]; try reflexivity.
      destruct d; [reflexivity | discriminate Hfalse]. }
    rewrite Ez. split; [reflexivity|]. split; [exact Hseven|]. discriminate.
  - assert (Hzoom : number (zoom_of (PDict r))).
    { unfold zoom_of, lookup_or.
      destruct (dict_get r "mapbox.zoom") as [z|] eqn:Ez;
        [apply Hz; reflexivity | exact Hseven]. }
    unfold get_bounds.
    destruct (truthy (PDict r)) eqn:Et.
    2:{ exists None. destruct r; [|discriminate Et].
        split; [reflexivity|]. split; [exact Hzoom | discriminate]. }
    assert (Ezoom : (hz <- py_in "mapbox.zoom" (PDict r) ;;
                     if hz then py_item (PDict r) "mapbox.zoom" else Ok (PInt 7))
                    = Ok (zoom_of (PDict r))).
    { cbn [py_in py_item bind zoom_of]. unfold dict_has, lookup_or.
      destruct (dict_get r "mapbox.zoom"); reflexivity. }
    cbn [py_in bind] in Ezoom |- *.
    destruct (dict_has r "mapbox.zoom") eqn:Ehz;
      rewrite Ezoom; cbn [bind];
      (unfold dict_has at 1;
       destruct (dict_get r "mapbox._derived") as [dv|] eqn:Edv;
       [| exists None; split; [reflexivity|]; split; [exact Hzoom | discriminate]];
       destruct (Hd dv eq_refl) as (dd & -> & Hcs);
       cbn [py_item]; rewrite Edv; cbn [bind py_in]; unfold dict_has;
       destruct (dict_get dd "coordinates") as [cs|] eqn:Ecs;
       [| exists None; split; [reflexivity|]; split; [exact Hzoom | discriminate]];
       destruct (Hcs cs eq_refl) as (c & cs' & -> & Hcorners);
       cbn [py_item]; rewrite Ecs; cbn [bind py_iter];
       destruct (corner_coordinates Hcorners)
         as (lats & lons & El & Eo & Hl & Ho & Ll & Lo);
       rewrite El; cbn [bind]; rewrite Eo; cbn [bind];
       destruct lats as [|la lats]; [discriminate Ll|];
       destruct lons as [|lo lons]; [discriminate Lo|];
       inversion Hl as [|? ? Hla Hlats]; subst;
       inversion Ho as [|? ? Hlo Hlons]; subst;
       cbn [py_min py_max];
       destruct (extremum_numbers OpLt Hla Hlats) as (a1 & -> & N1);
       destruct (extremum_numbers OpGt Hla Hlats) as (a2 & -> & N2);
       destruct (extremum_numbers OpLt Hlo Hlons) as (a3 & -> & N3);
       destruct (extremum_numbers OpGt Hlo Hlons) as (a4 & -> & N4);
       cbn [bind]; eexists; split; [reflexivity|]; split; [exact Hzoom|];
       intros b' Hb'; injection Hb' as <-; cbn; auto).
Qed.

Lemma coordinate_number (x : pyval) : coordinate x -> number x.
Proof.
  intros [f Hf]. unfold py_to_float in Hf. unfold number.
  destruct (as_num x) as [n|]; [eauto | discriminate Hf].
Qed.

Lemma off_pole_coordinate (la : pyval) : off_pole la -> coordinate la.
Proof.
  intros (r & c & Hr & _). unfold math_radians in Hr.
  split_bind Hr as x Ex. exists x. exact Ex.
Qed.

Lemma in_bounds_numbers (b : bounds) (la lo : pyval) :
  number (lat_min b) -> number (lat_max b) ->
  number (lon_min b) -> number (lon_max b) ->
  number la -> number lo ->
  exists r, in_bounds b la lo = Ok r.
Proof.
  intros N1 N2 N3 N4 Nla Nlo. unfold in_bounds, py_le.
  destruct (py_cmp_numbers OpLe N1 Nla) as [c1 ->]. cbn [bind].
  destruct c1; cbn [negb]; [|eauto].
  destruct (py_cmp_numbers OpLe Nla N2) as [c2 ->]. cbn [bind].
  destruct c2; cbn [negb]; [|eauto].
  destruct (py_cmp_numbers OpLe N3 Nlo) as [c3 ->]. cbn [bind].
  destruct c3; cbn [negb]; [|eauto].
  apply py_cmp_numbers; assumption.
Qed.

(** The heading search over drawable records finds nothing or an angle. *)
Lemma find_heading_drawable (vs : list pyval) (la lo : pyval) :
  Forall vehicle_record vs -> Forall drawable vs ->
  exists h, find_heading vs la lo = Ok h /\ (h = PNone \/ angle h).
Proof.
  intros Hrec. induction Hrec as [|v vs (d & -> & _) _ IH]; intros Hdraw.
  - exists PNone. split; [reflexivity | left; reflexivity].
  - inversion Hdraw as [|? ? [Hh _] Hrest]; subst.
    cbn [find_heading py_get py_get_or bind].
    destruct (py_eq (lookup_or d "lat" PNone) la); [|apply IH; exact Hrest].
    destruct (py_eq (lookup_or d "lon" PNone) lo); [|apply IH; exact Hrest].
    eexists. split; [reflexivity | exact Hh].
Qed.

Lemma arrow_of_drawable (i : nat) (t : train) (h : pyval) :
  angle h -> off_pole (lat t) -> coordinate (lon t) ->
  exists a, arrow_of i t h = Ok a.
Proof.
  intros (a & c & s & Ea & Ec & Es) Hla [x Ex].
  destruct (off_pole_coordinate Hla) as [y Ey].
  destruct Hla as (r & cl & Er & Ecl & Hcl).
  unfold arrow_of. rewrite Ea. cbn [bind]. rewrite Ec. cbn [bind].
  rewrite Es. cbn [bind]. rewrite Er. cbn [bind]. rewrite Ecl. cbn [bind].
  unfold float_div. rewrite Hcl. cbn [bind].
  unfold py_add_float. rewrite Ey. cbn [bind]. rewrite Ex. cbn [bind].
  eexists. reflexivity.
Qed.

Lemma collect_arrows_drawable (data : pyval) (b : option bounds)
    (trains : list train) (i : nat) :
  (forall la lo, exists h, heading_of data la lo = Ok h /\ (h = PNone \/ angle h)) ->
  (forall b', b = Some b' ->
     number (lat_min b') /\ number (lat_max b') /\
     number (lon_min b') /\ number (lon_max b')) ->
  Forall (fun t => off_pole (lat t) /\ coordinate (lon t)) trains ->
  exists arrows, collect_arrows data b i trains = Ok arrows.
Proof.
  intros Hhead Hb Hts. revert i.
  induction Hts as [|t trains [Hla Hlo] _ IH]; intros i.
  - exists []. reflexivity.
  - cbn [collect_arrows].
    assert (Hin : exists inside,
               match b with
               | Some b' => in_bounds b' (lat t) (lon t)
               | None => Ok true
               end = Ok inside).
    { destruct b as [b'|]; [|eauto].
      destruct (Hb b' eq_refl) as (N1 & N2 & N3 & N4).
      apply in_bounds_numbers; try assumption.
      - apply coordinate_number, off_pole_coordinate; exact Hla.
      - apply coordinate_number; exact Hlo. }
    destruct Hin as [inside ->]. cbn [bind].
    destruct inside; cbn [negb]; [|apply IH].
    destruct (Hhead (lat t) (lon t)) as (h & -> & Hh). cbn [bind].
    destruct Hh as [-> | Hh]; [apply IH|].
    destruct (@arrow_of_drawable i t h Hh Hla Hlo) as [a Ea].
    destruct (IH (S i)) as [rest Erest].
    destruct h; try apply IH; rewrite Ea; cbn [bind]; rewrite Erest;
      cbn [bind]; eexists; reflexivity.
Qed.

(** The trains of drawable records start an arrow each. *)
Lemma trains_drawable (vs : list pyval) (ts : list train) :
  Forall2 (fun v t => get_train_info v = Ok t) vs ts ->
  Forall (fun v => vehicle_record v /\ drawable v /\ plotted v = true) vs ->
  Forall (fun t => off_pole (lat t) /\ coordinate (lon t)) ts.
Proof.
  induction 1 as [|v t vs ts Ht _ IH]; intros Hvs; [constructor|].
  inversion Hvs as [|? ? (Hrec & [_ Hpos] & Hp) Hrest]; subst.
  constructor; [|apply IH; exact Hrest].
  destruct Hrec as (d & -> & Htrip & Hstop).
  rewrite (get_train_info_record Htrip Hstop) in Ht. injection Ht as <-.
  cbn [lat lon]. exact (Hpos Hp).
Qed.

(** The marker layers are drawn over every document of vehicle records and
    every viewport event; zoomed in, when the records are drawable. *)
Lemma map_layers_returns (clickData relayoutData : pyval)
    (doc d : list (string * pyval)) (vps : list pyval) (selected : option string) :
  dict_get doc "data" = Some (PDict d) ->
  dict_get d "vehiclePositions" = Some (PList vps) ->
  Forall vehicle_record vps ->
  (zoomed_in relayoutData -> Forall drawable vps) ->
  viewport_event relayoutData ->
  get_selected_vehicle_id clickData = Ok selected ->
  exists ts fig tr rest,
    trains_of vps = Ok ts /\
    map_layers clickData relayoutData (PDict doc)
    = Ok (fig, ts, zoom_of relayoutData) /\
    fig_data fig = tr :: rest /\ tr_name tr = "Trains" /\
    tr_lat tr = map lat ts /\ tr_lon tr = map lon ts /\
    Forall arrow_layer rest.
Proof.
  intros Hdoc Hvps Hrec Hdraw Hview Hsel.
  destruct (trains_of_record Hrec) as (ts & Ets & F2).
  destruct (get_bounds_viewport Hview) as (b & Eb & Nz & Nb).
  assert (Ny : number (PInt 12)) by (eexists; reflexivity).
  destruct (py_cmp_numbers OpLt Nz Ny) as [small Esmall].
  exists ts.
  unfold map_layers, py_item, py_get, py_get_or, lookup_or.
  rewrite Hdoc. cbn [bind]. rewrite Hvps. cbn [bind].
  rewrite Ets. cbn [bind]. rewrite Eb. cbn [bind]. rewrite Hsel. cbn [bind].
  rewrite (@get_marker_colors_record _ vps selected)
    by (eapply Forall_impl; [apply vehicle_record_identifiable | exact Hrec]).
  cbn [bind].
  rewrite (trains_trace_record ts _ Hrec). cbn [bind].
  unfold add_heading_arrows, py_lt. rewrite Esmall. cbn [bind].
  destruct small.
  - do 3 eexists. split; [reflexivity|]. split; [reflexivity|].
    cbn [add_trace empty_figure fig_data app]. split; [reflexivity|].
    repeat split. constructor.
  - specialize (Hdraw Esmall).
    assert (Hts : Forall (fun t => off_pole (lat t) /\ coordinate (lon t)) ts).
    { apply (trains_drawable F2). apply Forall_forall. intros v Hv.
      apply filter_In in Hv. destruct Hv as [Hin Hp].
      rewrite Forall_forall in Hrec, Hdraw. auto. }
    assert (Hhead : forall la lo, exists h,
               heading_of (PDict doc) la lo = Ok h /\ (h = PNone \/ angle h)).
    { intros la lo. unfold heading_of, py_item, py_in, dict_has.
      rewrite Hdoc. cbn [bind]. rewrite Hvps. cbn [bind py_iter].
      apply find_heading_drawable; assumption. }
    destruct (collect_arrows_drawable (PDict doc) 0 Hhead Nb Hts)
      as [arrows Earrows].
    fold (py_item (PDict doc) "data") in Earrows |- *.
    rewrite Earrows. cbn [bind].
    do 3 eexists. split; [reflexivity|]. split; [reflexivity|].
    assert (Hd : forall fig0,
               fig_data (match arrows with
                         | [] => fold_left (fun f a => add_trace f (heading_line a))
                                   arrows fig0
                         | _ => add_trace
                                  (fold_left (fun f a => add_trace f (heading_line a))
                                     arrows fig0)
                                  (heading_heads arrows)
                         end)
               = (fig_data fig0 ++ map heading_line arrows ++ heads_of arrows)%list).
    { intros fig0. destruct arrows as [|a arrows]; cbn [heads_of].
      - cbn [fold_left map app]. rewrite app_nil_r. reflexivity.
      - cbn [add_trace fig_data]. rewrite fold_add_trace, <- app_assoc.
        reflexivity. }
    rewrite Hd. cbn [add_trace empty_figure fig_data app].
    split; [reflexivity|]. repeat split.
    apply Forall_app. split.
    + apply Forall_forall. intros tr Htr. apply in_map_iff in Htr.
      destruct Htr as (a & <- & _). left. reflexivity.
    + destruct arrows; cbn [heads_of]; constructor;
        [right; reflexivity | constructor].
Qed.

Lemma click_on_selected (clickData cd : pyval) :
  click_on clickData cd ->
  get_selected_vehicle_id clickData = Ok (Some (py_str cd)).
Proof.
  intros (c & p & ps & -> & Hp & Hc). unfold get_selected_vehicle_id.
  assert (Et : truthy (PDict c) = true).
  { destruct c; [discriminate Hp | reflexivity]. }
  rewrite Et. cbn [py_in bind py_item]. unfold dict_has. rewrite Hp.
  cbn [bind py_at]. rewrite seq_index_head. cbn [bind py_item].
  rewrite Hc. reflexivity.
Qed.

(** C8: over a document of vehicle records, whatever the viewport event, a
    click on a marker whose identifier is the vehicle id of no train and the
    display name of no train makes [update_map] return, with no exception:
    the figure has the marker layer of the trains first, then heading arrow
    layers only, and the default layout at the zoom of the event, and the
    info panel is the empty string.  Zoomed in to 12 or more, where the
    arrow arithmetic runs, the records have to be drawable. *)
Theorem update_map_unknown_marker (w : world)
    (clickData relayoutData prev_fig cd : pyval)
    (doc d : list (string * pyval)) (vps : list pyval) :
  dict_get doc "data" = Some (PDict d) ->
  dict_get d "vehiclePositions" = Some (PList vps) ->
  Forall vehicle_record vps ->
  (zoomed_in relayoutData -> Forall drawable vps) ->
  viewport_event relayoutData ->
  click_on clickData cd ->
  (forall ts t, trains_of vps = Ok ts -> In t ts ->
     py_str (vehicleId t) <> py_str cd /\ py_str (name t) <> py_str cd) ->
  exists fig ts tr rest,
    trains_of vps = Ok ts /\
    update_map w clickData relayoutData prev_fig (PDict doc) = Ok (fig, Txt "") /\
    fig_layout fig = Some (default_layout (zoom_of relayoutData)) /\
    fig_data fig = tr :: rest /\ tr_name tr = "Trains" /\
    tr_lat tr = map lat ts /\ tr_lon tr = map lon ts /\
    Forall arrow_layer rest.
Proof.
  intros Hdoc Hvps Hrec Hdraw Hview Hclick Hno.
  pose proof (click_on_selected Hclick) as Hsel.
  destruct (@map_layers_returns clickData relayoutData doc d vps _
              Hdoc Hvps Hrec Hdraw Hview Hsel)
    as (ts & fig & tr & rest & Ets & Elayers & Hd & Hname & Hla & Hlo & Hrest).
  exists (update_layout fig (default_layout (zoom_of relayoutData))), ts, tr, rest.
  split; [exact Ets|]. split.
  - apply (@update_map_unmatched w clickData relayoutData prev_fig (PDict doc)
             fig ts (zoom_of relayoutData) (py_str cd)).
    + unfold no_document, py_in, py_item, dict_has. cbn [is_dict negb].
      rewrite Hdoc. cbn [bind negb]. rewrite Hvps. reflexivity.
    + exact Elayers.
    + exact Hsel.
    + intros t Ht. exact (Hno ts t Ets Ht).
  - cbn [update_layout fig_layout fig_data]. repeat split; assumption.
Qed.

End EndToEnd.

Lemma update_map_no_vehicles_witness :
  exists fig tr l,
    update_map (RT := ref_runtime) sample_world PNone PNone PNone (PDict empty_doc)
    = Ok (fig, Txt "") /\
    fig_data fig = [tr] /\ tr_name tr = "Trains" /\
    tr_lat tr = [] /\ tr_lon tr = [] /\
    tr_text tr = Some [] /\ tr_customdata tr = Some [] /\
    fig_layout fig = Some l /\
    center l = (47.1625%float, 19.5033%float) /\ zoom l = PInt 7.
Proof.
  apply (@update_map_no_vehicles ref_runtime sample_world PNone empty_doc
           [("vehiclePositions", PList [])]); reflexivity.
Defined.

Lemma update_map_unknown_marker_witness :
  zoomed_in sample_relayout /\
  exists fig ts tr rest,
    trains_of [sample_vehicle] = Ok ts /\
    update_map (RT := ref_runtime) sample_world stray_click sample_relayout PNone
      sample_doc = Ok (fig, Txt "") /\
    fig_layout fig = Some (default_layout (zoom_of sample_relayout)) /\
    fig_data fig = tr :: rest /\ tr_name tr = "Trains" /\
    tr_lat tr = map lat ts /\ tr_lon tr = map lon ts /\
    Forall arrow_layer rest.
Proof.
  split; [reflexivity|].
  apply (@update_map_unknown_marker ref_runtime sample_world stray_click
           sample_relayout PNone (PStr "nobody")
           [("data", PDict [("vehiclePositions", PList [sample_vehicle])])]
           [("vehiclePositions", PList [sample_vehicle])] [sample_vehicle]).
  - reflexivity.
  - reflexivity.
  - constructor; [|constructor]. eexists. split; [reflexivity|].
    split; left; reflexivity.
  - intros _. constructor; [|constructor]. split.
    + right. do 3 eexists.
      split; [lazy; reflexivity|]. split; lazy; reflexivity.
    + intros _. split.
      * do 2 eexists. split; [lazy; reflexivity|]. split; lazy; reflexivity.
      * eexists. reflexivity.
  - right. exists sample_event. split; [reflexivity|]. split.
    + intros z H. injection H as <-. eexists. reflexivity.
    + intros dv H. injection H as <-. exists sample_derived.
      split; [reflexivity|]. intros cs H. injection H as <-.
      do 2 eexists. split; [reflexivity|].
      repeat constructor;
        (do 3 eexists; split; [reflexivity|]; split; eexists; reflexivity).
  - do 3 eexists. split; [reflexivity|]. split; reflexivity.
  - intros ts t H Hin. injection H as <-. destruct Hin as [<- | []].
    split; intros Hx; discriminate Hx.
Defined.

(** *** Examples *)

Example hhmm_morning :
  seconds_to_hhmm (RT := ref_runtime) (PInt 3725) = Ok "01:02".
Proof. reflexivity. Qed.

Example hhmm_past_midnight :
  seconds_to_hhmm (RT := ref_runtime) (PInt 90000) = Ok "25:00".
Proof. reflexivity. Qed.

Example hhmm_text :
  seconds_to_hhmm (RT := ref_runtime) (PStr "soon") = Ok "".
Proof. reflexivity. Qed.

Example noon : get_seconds_since_midnight (now sample_world) = 43200%Z.
Proof. reflexivity. Qed.


(* ================================================================= *)
(** ** Further properties *)

(** *** The clock *)

(** The seconds since midnight of a wall-clock time lie within the day. *)
Theorem seconds_since_midnight_range (c : clock) :
  (hour c < 24)%nat -> (minute c < 60)%nat -> (second c < 60)%nat ->
  (0 <= get_seconds_since_midnight c < 86400)%Z.
Proof. unfold get_seconds_since_midnight. lia. Qed.

Lemma seconds_since_midnight_range_witness :
  (0 <= get_seconds_since_midnight (now sample_world) < 86400)%Z.
Proof.
  apply (seconds_since_midnight_range (now sample_world)); cbn; lia.
Defined.

(** [seconds_to_hhmm] reads the hour and the minute of a wall-clock time
    back from its seconds since midnight. *)
Theorem hhmm_of_seconds_since_midnight {RT : PyRuntime} (c : clock) :
  (minute c < 60)%nat -> (second c < 60)%nat ->
  seconds_to_hhmm (PInt (get_seconds_since_midnight c))
  = Ok (format_zero_pad 2 (Z.of_nat (hour c)) ++ ":"
          ++ format_zero_pad 2 (Z.of_nat (minute c))).
Proof.
  intros Hm Hs. rewrite seconds_to_hhmm_int. unfold get_seconds_since_midnight.
  set (h := Z.of_nat (hour c)). set (m := Z.of_nat (minute c)).
  set (s := Z.of_nat (second c)).
  assert (Hm' : (0 <= m < 60)%Z) by (subst m; lia).
  assert (Hs' : (0 <= s < 60)%Z) by (subst s; lia).
  assert (E1 : ((h * 3600 + m * 60 + s) / 3600 = h)%Z).
  { symmetry. apply (Z.div_unique _ _ h (m * 60 + s)); lia. }
  assert (E2 : ((h * 3600 + m * 60 + s) mod 3600 = m * 60 + s)%Z).
  { symmetry. apply (Z.mod_unique _ _ h (m * 60 + s)); lia. }
  assert (E3 : ((m * 60 + s) / 60 = m)%Z).
  { symmetry. apply (Z.div_unique _ _ m s); lia. }
  rewrite E1, E2, E3. reflexivity.
Qed.

Lemma hhmm_of_seconds_since_midnight_witness :
  seconds_to_hhmm (RT := ref_runtime)
    (PInt (get_seconds_since_midnight {| hour := 7; minute := 5; second := 59 |}))
  = Ok "07:05".
Proof.
  apply (@hhmm_of_seconds_since_midnight ref_runtime
           {| hour := 7; minute := 5; second := 59 |}); cbn; lia.
Defined.

Lemma seconds_to_hhmm_length_witness :
  String.length "23:59" = 5%nat.
Proof.
  apply (@seconds_to_hhmm_length ref_runtime 86399 "23:59");
    [lia | reflexivity].
Defined.

(** *** The train set *)

Section TrainSet.

Context {RT : PyRuntime}.

Lemma get_train_info_coords (d : list (string * pyval)) (t : train) :
  get_train_info (PDict d) = Ok t ->
  lat t = lookup_or d "lat" PNone /\ lon t = lookup_or d "lon" PNone
  /\ vehicleId t = lookup_or d "vehicleId" PNone.
Proof.
  unfold get_train_info. intros H.
  split_bind H as trip Etrip. split_bind H as short Eshort.
  split_bind H as nm Enm. split_bind H as sp Esp.
  split_bind H as st Est. split_bind H as dl Edl.
  split_bind H as la Ela. split_bind H as lo Elo.
  split_bind H as g Eg. split_bind H as r Er.
  split_bind H as vid Evid. split_bind H as sts Ests.
  injection H as <-. cbn in Ela, Elo, Evid.
  injection Ela as <-. injection Elo as <-. injection Evid as <-.
  repeat split.
Qed.

Lemma has_coords_true (v : pyval) :
  has_coords v = Ok true ->
  exists d, v = PDict d /\ truthy (lookup_or d "lat" PNone) = true
            /\ truthy (lookup_or d "lon" PNone) = true.
Proof.
  destruct v as [| | | | | |d]; try discriminate.
  rewrite has_coords_object. unfold plotted, field. intros H.
  injection H as H. apply andb_true_iff in H. exists d. tauto.
Qed.

(** The invariant of the train set: whatever the document, every train
    that [trains_of] returns has a non-falsy latitude and a non-falsy
    longitude. *)
Theorem trains_have_coordinates (vps : list pyval) (ts : list train) :
  trains_of vps = Ok ts ->
  Forall (fun t => truthy (lat t) = true /\ truthy (lon t) = true) ts.
Proof.
  unfold trains_of. revert ts.
  induction vps as [|v vps IH]; intros ts H; cbn [filter_mapM] in H.
  - injection H as <-. constructor.
  - split_bind H as b Eb. destruct b.
    + split_bind H as t Et. split_bind H as ts' Ets. injection H as <-.
      constructor; [|apply IH; exact Ets].
      destruct (has_coords_true _ Eb) as (d & -> & Hla & Hlo).
      destruct (get_train_info_coords _ Et) as (-> & -> & _).
      split; assumption.
    + apply IH; exact H.
Qed.

End TrainSet.

Lemma trains_have_coordinates_witness :
  Forall (fun t => truthy (lat t) = true /\ truthy (lon t) = true) [sample_train].
Proof.
  apply (@trains_have_coordinates [sample_vehicle; PDict [("lat", PInt 0)]]).
  reflexivity.
Defined.

(** *** Fetching and start-up *)

(** The periodic fetch publishes a document exactly when the POST answers
    200 with a body that parses to something other than null; any other
    status, an unreadable body and an exception all leave the store as it
    is. *)
Theorem fetch_publishes_iff (n : pyval) (o : post_outcome) (data : pyval) :
  fetch_vehicle_data n o = Some data <->
  o = PostAnswers 200 (Some data) /\ data <> PNone.
Proof.
  unfold fetch_vehicle_data, get_latest_vehicle_data. split.
  - destruct o as [|code [body|]]; try discriminate.
    + destruct (code =? 200)%Z eqn:E; [|discriminate].
      apply Z.eqb_eq in E. subst code.
      destruct body; try discriminate; intros H; injection H as <-;
        (split; [reflexivity | discriminate]).
    + destruct (code =? 200)%Z; discriminate.
  - intros [-> Hn]. cbn. destruct data; try reflexivity. congruence.
Qed.

Section StartupFacts.

Context {RT : PyRuntime}.

(** When the snapshot file is missing and the fetch yields nothing, the
    start-up writes the empty structure and loads without error, with no
    vehicle and no train. *)
Theorem startup_without_data (n : pyval) (o : post_outcome) :
  fetch_vehicle_data n o = None ->
  startup None o = (Document empty_structure, Ok (PList [], [])).
Proof.
  unfold fetch_vehicle_data, startup, create_snapshot. intros H.
  destruct (get_latest_vehicle_data o); try discriminate. reflexivity.
Qed.

(** A fetched document without a ['data'] key is written to the missing
    snapshot file all the same; loading it raises [KeyError], and since an
    existing file is never rewritten, so does every later start-up, whatever
    the fetch would answer. *)
Theorem startup_snapshot_without_data (doc : list (string * pyval))
    (o : post_outcome) :
  dict_get doc "data" = None ->
  startup None (PostAnswers 200 (Some (PDict doc)))
  = (Document (PDict doc), Raise KeyError) /\
  startup (Some (Document (PDict doc))) o
  = (Document (PDict doc), Raise KeyError).
Proof.
  intros H. unfold startup, create_snapshot, load_snapshot, py_item.
  cbn [get_latest_vehicle_data Z.eqb Pos.eqb]. rewrite H. split; reflexivity.
Qed.

End StartupFacts.

Lemma startup_without_data_witness :
  startup None (PostAnswers 503 None)
  = (Document empty_structure, Ok (PList [], [])).
Proof.
  apply (@startup_without_data PNone (PostAnswers 503 None)).
  reflexivity.
Defined.

Lemma startup_snapshot_without_data_witness :
  startup None
    (PostAnswers 200 (Some (PDict [("errors", PList [PStr "timeout"])])))
  = (Document (PDict [("errors", PList [PStr "timeout"])]), Raise KeyError) /\
  startup
    (Some (Document (PDict [("errors", PList [PStr "timeout"])]))) PostRaises
  = (Document (PDict [("errors", PList [PStr "timeout"])]), Raise KeyError).
Proof.
  apply (@startup_snapshot_without_data
           [("errors", PList [PStr "timeout"])] PostRaises).
  reflexivity.
Defined.

(** *** The order of floats

    [<] and [<=] on floats, read through their specification: every float
    but a NaN has a key, and the floats are ordered as their keys are, first
    by class and sign, then by exponent, then by mantissa. *)

Lemma key_cmp_le (k k' : Z * Z * Z) :
  (match key_cmp k k' with Gt => false | _ => true end) = true <-> key_le k k'.
Proof.
  destruct k as [[a b] c], k' as [[a' b'] c']. unfold key_cmp, key_le.
  destruct (Z.compare_spec a a'); destruct (Z.compare_spec b b');
    destruct (Z.compare_spec c c'); split; intros Hgoal; try reflexivity;
    try discriminate; lia.
Qed.

Lemma key_cmp_lt (k k' : Z * Z * Z) :
  (match key_cmp k k' with Lt => true | _ => false end) = true <-> key_lt k k'.
Proof.
  destruct k as [[a b] c], k' as [[a' b'] c']. unfold key_cmp, key_lt.
  destruct (Z.compare_spec a a'); destruct (Z.compare_spec b b');
    destruct (Z.compare_spec c c'); split; intros Hgoal; try reflexivity;
    try discriminate; lia.
Qed.

Lemma SFcompare_key (x y : spec_float) (k k' : Z * Z * Z) :
  fkey x = Some k -> fkey y = Some k' -> SFcompare x y = Some (key_cmp k k').
Proof.
  destruct x as [sx|sx| |sx mx ex], y as [sy|sy| |sy my ey];
    cbn [fkey]; try discriminate; intros Hx Hy;
    injection Hx as <-; injection Hy as <-;
    try (destruct sx); try (destruct sy); try reflexivity.
  cbn [SFcompare key_cmp Z.compare]. rewrite Z.compare_opp.
  rewrite (Z.compare_antisym ey ex).
  destruct (ey ?= ex)%Z; reflexivity.
Qed.

Lemma ordered_key (f : float) : ordered f -> exists k, fkey (Prim2SF f) = Some k.
Proof.
  unfold ordered. rewrite eqb_spec. unfold SFeqb.
  destruct (Prim2SF f) as [s|s| |s m e]; cbn [fkey]; try (eexists; reflexivity).
  discriminate.
Qed.

Lemma float_leb_key (a b : float) (k k' : Z * Z * Z) :
  fkey (Prim2SF a) = Some k -> fkey (Prim2SF b) = Some k' ->
  (PrimFloat.leb a b = true <-> key_le k k').
Proof.
  intros Ha Hb. rewrite leb_spec. unfold SFleb.
  rewrite (SFcompare_key _ _ Ha Hb). rewrite <- key_cmp_le.
  destruct (key_cmp k k'); reflexivity.
Qed.

Lemma float_ltb_key (a b : float) (k k' : Z * Z * Z) :
  fkey (Prim2SF a) = Some k -> fkey (Prim2SF b) = Some k' ->
  (PrimFloat.ltb a b = true <-> key_lt k k').
Proof.
  intros Ha Hb. rewrite ltb_spec. unfold SFltb.
  rewrite (SFcompare_key _ _ Ha Hb). rewrite <- key_cmp_lt.
  destruct (key_cmp k k'); reflexivity.
Qed.

Lemma float_leb_refl (a : float) : ordered a -> PrimFloat.leb a a = true.
Proof.
  intros Ha. destruct (ordered_key Ha) as [[[x y] z] Ka].
  apply (float_leb_key a a Ka Ka). cbn. lia.
Qed.

Lemma float_leb_trans (a b c : float) :
  ordered a -> ordered b -> ordered c ->
  PrimFloat.leb a b = true -> PrimFloat.leb b c = true ->
  PrimFloat.leb a c = true.
Proof.
  intros Ha Hb Hc.
  destruct (ordered_key Ha) as [[[a1 a2] a3] Ka].
  destruct (ordered_key Hb) as [[[b1 b2] b3] Kb].
  destruct (ordered_key Hc) as [[[c1 c2] c3] Kc].
  rewrite (float_leb_key a b Ka Kb), (float_leb_key b c Kb Kc),
    (float_leb_key a c Ka Kc). cbn. lia.
Qed.

Lemma float_ltb_leb (a b : float) :
  ordered a -> ordered b ->
  PrimFloat.ltb a b = true -> PrimFloat.leb a b = true.
Proof.
  intros Ha Hb.
  destruct (ordered_key Ha) as [[[a1 a2] a3] Ka].
  destruct (ordered_key Hb) as [[[b1 b2] b3] Kb].
  rewrite (float_ltb_key a b Ka Kb), (float_leb_key a b Ka Kb). cbn. lia.
Qed.

Lemma float_not_ltb_leb (a b : float) :
  ordered a -> ordered b ->
  PrimFloat.ltb a b = false -> PrimFloat.leb b a = true.
Proof.
  intros Ha Hb H.
  destruct (ordered_key Ha) as [[[a1 a2] a3] Ka].
  destruct (ordered_key Hb) as [[[b1 b2] b3] Kb].
  apply (float_leb_key b a Kb Ka).
  assert (Hn : ~ key_lt (a1, a2, a3) (b1, b2, b3)).
  { intros Hlt. apply (float_ltb_key a b Ka Kb) in Hlt. congruence. }
  cbn in *. lia.
Qed.

(** *** The viewport *)

Lemma extremum_In (op : cmpop) (l : list pyval) (cur r : pyval) :
  extremum op cur l = Ok r -> r = cur \/ In r l.
Proof.
  revert cur. induction l as [|x l IH]; intros cur H; cbn [extremum] in H.
  - injection H as <-. left; reflexivity.
  - split_bind H as b Eb. destruct (IH _ H) as [-> | Hin].
    + destruct b; [right; left; reflexivity | left; reflexivity].
    + right; right; exact Hin.
Qed.

Lemma py_min_In (l : list pyval) (r : pyval) : py_min l = Ok r -> In r l.
Proof.
  destruct l as [|x l]; [discriminate|]. intros H.
  destruct (extremum_In _ _ _ H) as [-> | Hin]; [left; reflexivity | right; exact Hin].
Qed.

Lemma py_max_In (l : list pyval) (r : pyval) : py_max l = Ok r -> In r l.
Proof.
  destruct l as [|x l]; [discriminate|]. intros H.
  destruct (extremum_In _ _ _ H) as [-> | Hin]; [left; reflexivity | right; exact Hin].
Qed.

Lemma extremum_min_floats (cur : float) (l : list float) :
  extremum OpLt (PFloat cur) (map PFloat l) = Ok (PFloat (fmin cur l)).
Proof.
  revert cur. induction l as [|x l IH]; intros cur; [reflexivity|].
  cbn [map extremum py_cmp as_num bind cmp_num num_lt].
  unfold fmin. cbn [fextremum].
  destruct (PrimFloat.ltb x cur); apply IH.
Qed.

Lemma extremum_max_floats (cur : float) (l : list float) :
  extremum OpGt (PFloat cur) (map PFloat l) = Ok (PFloat (fmax cur l)).
Proof.
  revert cur. induction l as [|x l IH]; intros cur; [reflexivity|].
  cbn [map extremum py_cmp as_num bind cmp_num num_lt].
  unfold fmax. cbn [fextremum].
  destruct (PrimFloat.ltb cur x); apply IH.
Qed.

Lemma fmin_below (cur : float) (l : list float) :
  ordered cur -> Forall ordered l ->
  ordered (fmin cur l) /\ PrimFloat.leb (fmin cur l) cur = true
  /\ Forall (fun x => PrimFloat.leb (fmin cur l) x = true) l.
Proof.
  intros Hc Hl. revert cur Hc.
  induction Hl as [|x l Hx _ IH]; intros cur Hc.
  - split; [exact Hc|]. split; [apply float_leb_refl; exact Hc | constructor].
  - unfold fmin. cbn [fextremum].
    destruct (PrimFloat.ltb x cur) eqn:E.
    + destruct (IH x Hx) as (Ho & Hle & Hall). fold (fmin x l).
      split; [exact Ho|]. split.
      * apply (float_leb_trans Ho Hx Hc Hle). apply float_ltb_leb; assumption.
      * constructor; assumption.
    + destruct (IH cur Hc) as (Ho & Hle & Hall). fold (fmin cur l).
      split; [exact Ho|]. split; [exact Hle|].
      constructor; [|exact Hall].
      apply (float_leb_trans Ho Hc Hx Hle).
      apply float_not_ltb_leb; assumption.
Qed.

Lemma fmax_above (cur : float) (l : list float) :
  ordered cur -> Forall ordered l ->
  ordered (fmax cur l) /\ PrimFloat.leb cur (fmax cur l) = true
  /\ Forall (fun x => PrimFloat.leb x (fmax cur l) = true) l.
Proof.
  intros Hc Hl. revert cur Hc.
  induction Hl as [|x l Hx _ IH]; intros cur Hc.
  - split; [exact Hc|]. split; [apply float_leb_refl; exact Hc | constructor].
  - unfold fmax. cbn [fextremum].
    destruct (PrimFloat.ltb cur x) eqn:E.
    + destruct (IH x Hx) as (Ho & Hle & Hall). fold (fmax x l).
      split; [exact Ho|]. split.
      * apply (float_leb_trans Hc Hx Ho); [|exact Hle].
        apply float_ltb_leb; assumption.
      * constructor; assumption.
    + destruct (IH cur Hc) as (Ho & Hle & Hall). fold (fmax cur l).
      split; [exact Ho|]. split; [exact Hle|].
      constructor; [|exact Hall].
      apply (float_leb_trans Hx Hc Ho); [|exact Hle].
      apply float_not_ltb_leb; assumption.
Qed.

(** Without a pan or zoom event, or with an event that carries neither the
    zoom nor the derived viewport (the first [{'autosize': True}]), the
    zoom is 7 and there are no bounds. *)
Theorem get_bounds_default (relayoutData : pyval) :
  truthy relayoutData = false \/
  (exists d, relayoutData = PDict d /\ dict_get d "mapbox.zoom" = None
             /\ dict_get d "mapbox._derived" = None) ->
  get_bounds relayoutData = Ok (PInt 7, None).
Proof.
  unfold get_bounds. intros [H | (d & -> & Hz & Hd)].
  - rewrite H. reflexivity.
  - destruct (truthy (PDict d)); [|reflexivity].
    unfold py_in, dict_has. rewrite Hz, Hd. reflexivity.
Qed.

Lemma get_bounds_default_witness :
  get_bounds (PDict [("autosize", PBool true)]) = Ok (PInt 7, None).
Proof.
  apply get_bounds_default. right. eexists.
  split; [reflexivity | split; reflexivity].
Defined.

(** Whatever an event object holds, when [get_bounds] returns, the zoom is
    the event's ['mapbox.zoom'] if it carries one and 7 otherwise, and each
    bound it reports is the latitude or the longitude of one of the
    event's coordinates. *)
Theorem get_bounds_from_event (d : list (string * pyval)) (z : pyval)
    (b : option bounds) :
  get_bounds (PDict d) = Ok (z, b) ->
  z = lookup_or d "mapbox.zoom" (PInt 7) /\
  forall b', b = Some b' ->
    exists derived coords cs lats lons,
      dict_get d "mapbox._derived" = Some derived /\
      py_item derived "coordinates" = Ok coords /\
      py_iter coords = Ok cs /\
      mapM (fun c => py_at c 1) cs = Ok lats /\
      mapM (fun c => py_at c 0) cs = Ok lons /\
      In (lat_min b') lats /\ In (lat_max b') lats /\
      In (lon_min b') lons /\ In (lon_max b') lons.
Proof.
  unfold get_bounds. destruct (truthy (PDict d)) eqn:Ht.
  - cbn [py_in py_item bind]. unfold dict_has, lookup_or.
    destruct (dict_get d "mapbox.zoom") as [zv|] eqn:Ez; cbn [bind];
      (destruct (dict_get d "mapbox._derived") as [derived|] eqn:Ed; cbn [bind];
       [|intros H; injection H as <- <-; split; [reflexivity | discriminate]]);
      intros H; split_bind H as hc Ehc;
      (destruct hc;
       [|injection H as <- <-; split; [reflexivity | discriminate]]);
      split_bind H as coords Ecoords; split_bind H as cs Ecs;
      split_bind H as lats Elats; split_bind H as lons Elons;
      split_bind H as la_min Ea; split_bind H as la_max Eb;
      split_bind H as lo_min Ec; split_bind H as lo_max Ed';
      injection H as <- <-; (split; [reflexivity|]);
      intros b' Hb; injection Hb as <-;
      exists derived, coords, cs, lats, lons; cbn [lat_min lat_max lon_min lon_max];
      repeat split; try assumption;
      solve [eapply py_min_In; eassumption | eapply py_max_In; eassumption].
  - intros H. injection H as <- <-. destruct d; [|discriminate].
    split; [reflexivity | discriminate].
Qed.

Lemma get_bounds_from_event_witness :
  PFloat 12.5 = lookup_or sample_event "mapbox.zoom" (PInt 7) /\
  forall b', Some sample_bounds = Some b' ->
    exists derived coords cs lats lons,
      dict_get sample_event "mapbox._derived" = Some derived /\
      py_item derived "coordinates" = Ok coords /\
      py_iter coords = Ok cs /\
      mapM (fun c => py_at c 1) cs = Ok lats /\
      mapM (fun c => py_at c 0) cs = Ok lons /\
      In (lat_min b') lats /\ In (lat_max b') lats /\
      In (lon_min b') lons /\ In (lon_max b') lons.
Proof.
  apply (@get_bounds_from_event sample_event (PFloat 12.5) (Some sample_bounds)).
  reflexivity.
Defined.

(** For an event whose derived viewport lists corners with float
    coordinates, none of them a NaN, [get_bounds] returns bounds, and every
    listed corner lies within them. *)
Theorem get_bounds_encloses_corners (d dd : list (string * pyval))
    (pts : list (float * float)) :
  dict_get d "mapbox._derived" = Some (PDict dd) ->
  dict_get dd "coordinates" = Some (PList (map corner pts)) ->
  pts <> [] ->
  Forall (fun p => ordered (fst p) /\ ordered (snd p)) pts ->
  exists b,
    get_bounds (PDict d) = Ok (lookup_or d "mapbox.zoom" (PInt 7), Some b) /\
    forall p, In p pts ->
      in_bounds b (PFloat (snd p)) (PFloat (fst p)) = Ok true.
Proof.
  intros Hd Hc Hne Hord.
  assert (Hlats : mapM (fun c => py_at c 1) (map corner pts)
                  = Ok (map PFloat (map snd pts))).
  { rewrite map_map. rewrite (@mapM_pure _ _ _ (fun c => match c with
                                   | PList [_; y] => y | _ => PNone end)).
    - rewrite map_map. reflexivity.
    - apply Forall_map. apply Forall_forall. intros p _. reflexivity. }
  assert (Hlons : mapM (fun c => py_at c 0) (map corner pts)
                  = Ok (map PFloat (map fst pts))).
  { rewrite map_map. rewrite (@mapM_pure _ _ _ (fun c => match c with
                                   | PList [x; _] => x | _ => PNone end)).
    - rewrite map_map. reflexivity.
    - apply Forall_map. apply Forall_forall. intros p _. reflexivity. }
  destruct pts as [|[lo0 la0] pts]; [congruence|].
  inversion Hord as [|? ? [Hlo0 Hla0] Hrest]; subst.
  assert (Hlas : Forall ordered (map snd pts)).
  { apply Forall_map. eapply Forall_impl; [|exact Hrest]. intros p [_ H]; exact H. }
  assert (Hlos : Forall ordered (map fst pts)).
  { apply Forall_map. eapply Forall_impl; [|exact Hrest]. intros p [H _]; exact H. }
  cbn [fst snd] in Hlo0, Hla0.
  destruct (fmin_below Hla0 Hlas) as (_ & Hmin_la0 & Hmin_la).
  destruct (fmax_above Hla0 Hlas) as (_ & Hmax_la0 & Hmax_la).
  destruct (fmin_below Hlo0 Hlos) as (_ & Hmin_lo0 & Hmin_lo).
  destruct (fmax_above Hlo0 Hlos) as (_ & Hmax_lo0 & Hmax_lo).
  exists {| lat_min := PFloat (fmin la0 (map snd pts));
            lat_max := PFloat (fmax la0 (map snd pts));
            lon_min := PFloat (fmin lo0 (map fst pts));
            lon_max := PFloat (fmax lo0 (map fst pts)) |}.
  split.
  - unfold get_bounds.
    assert (Ht : truthy (PDict d) = true).
    { destruct d; [discriminate | reflexivity]. }
    rewrite Ht. cbn [py_in py_item bind]. unfold dict_has, lookup_or.
    rewrite Hd.
    destruct (dict_get d "mapbox.zoom"); cbn [bind py_in py_item];
      unfold dict_has; rewrite Hc; cbn [bind py_iter];
      rewrite Hlats, Hlons; cbn [bind map py_min py_max snd fst];
      rewrite !extremum_min_floats, !extremum_max_floats; reflexivity.
  - intros p Hp. unfold in_bounds.
    cbn [lat_min lat_max lon_min lon_max py_le py_cmp as_num cmp_num num_le bind].
    assert (Hla : PrimFloat.leb (fmin la0 (map snd pts)) (snd p) = true
                  /\ PrimFloat.leb (snd p) (fmax la0 (map snd pts)) = true).
    { destruct Hp as [<- | Hp]; [split; assumption|].
      rewrite Forall_forall in Hmin_la, Hmax_la.
      split; [apply Hmin_la | apply Hmax_la]; apply in_map; exact Hp. }
    assert (Hlo : PrimFloat.leb (fmin lo0 (map fst pts)) (fst p) = true
                  /\ PrimFloat.leb (fst p) (fmax lo0 (map fst pts)) = true).
    { destruct Hp as [<- | Hp]; [split; assumption|].
      rewrite Forall_forall in Hmin_lo, Hmax_lo.
      split; [apply Hmin_lo | apply Hmax_lo]; apply in_map; exact Hp. }
    destruct Hla as [-> ->], Hlo as [-> ->]. reflexivity.
Qed.

Lemma get_bounds_encloses_corners_witness :
  exists b,
    get_bounds (PDict sample_event)
    = Ok (lookup_or sample_event "mapbox.zoom" (PInt 7), Some b) /\
    forall p, In p sample_corners ->
      in_bounds b (PFloat (snd p)) (PFloat (fst p)) = Ok true.
Proof.
  apply (@get_bounds_encloses_corners sample_event sample_derived sample_corners).
  - reflexivity.
  - reflexivity.
  - discriminate.
  - repeat constructor.
Defined.

(** *** [update_map]: guards and errors *)

Section Guards.

Context {RT : PyRuntime}.

(** While the store holds no vehicle document (anything but an object, an
    object without ['data'], or a ['data'] object without
    ['vehiclePositions']), [update_map] ignores the click and the viewport
    and returns the figure without any trace, centered at the default
    place with zoom 7, and the empty panel. *)
Theorem update_map_no_document (w : world)
    (clickData relayoutData prev_fig vehicle_data : pyval) :
  is_dict vehicle_data = false \/
  (exists d, vehicle_data = PDict d /\
     (dict_get d "data" = None \/
      exists dd, dict_get d "data" = Some (PDict dd)
                 /\ dict_get dd "vehiclePositions" = None)) ->
  update_map w clickData relayoutData prev_fig vehicle_data
  = Ok ({| fig_data := []; fig_layout := Some (default_layout (PInt 7)) |},
        Txt "").
Proof.
  unfold update_map, no_document.
  intros [H | (d & -> & [Hd | (dd & Hd & Hv)])].
  - rewrite H. reflexivity.
  - cbn [is_dict negb py_in bind]. unfold dict_has. rewrite Hd. reflexivity.
  - cbn [is_dict negb py_in py_item bind]. unfold dict_has. rewrite Hd.
    cbn [negb bind py_in]. unfold dict_has. rewrite Hv. reflexivity.
Qed.

(** A document whose ['data'] is null, a number or a boolean (a GraphQL
    answer that only reports errors has a null ['data']) makes
    [update_map] raise [TypeError], whatever the click and the viewport. *)
Theorem update_map_data_not_container (w : world)
    (clickData relayoutData prev_fig : pyval) (d : list (string * pyval))
    (x : pyval) :
  dict_get d "data" = Some x ->
  (x = PNone \/ exists n, as_num x = Some n) ->
  update_map w clickData relayoutData prev_fig (PDict d) = Raise TypeError.
Proof.
  intros Hd Hx. unfold update_map, no_document.
  cbn [is_dict negb py_in py_item bind]. unfold dict_has. rewrite Hd.
  cbn [negb bind].
  destruct Hx as [-> | [n Hn]]; [reflexivity|].
  destruct x; try discriminate; reflexivity.
Qed.

Lemma route_detail_panel (w : world) (fig fig' : figure) (t : train) (h : html) :
  route_detail w fig t = Ok (fig', h) ->
  h <> Txt "" -> truthy (stoptimes t) = true.
Proof.
  unfold route_detail. destruct (truthy (stoptimes t)); [reflexivity|].
  intros H Hh. injection H as <- <-. congruence.
Qed.

(** Whenever [update_map] returns, the figure carries the default layout,
    so the map is always centered at (47.1625, 19.5033); and the info panel
    is something other than the empty string only if a click resolved to a
    train whose stop-time sequence is non-falsy. *)
Theorem update_map_layout_and_panel (w : world)
    (clickData relayoutData prev_fig vehicle_data : pyval)
    (fig : figure) (info : html) :
  update_map w clickData relayoutData prev_fig vehicle_data = Ok (fig, info) ->
  (exists z, fig_layout fig = Some (default_layout z)) /\
  (info <> Txt "" ->
   exists fig0 trains z vid t,
     map_layers clickData relayoutData vehicle_data = Ok (fig0, trains, z) /\
     clicked_id clickData = Ok vid /\
     resolve_train vid trains = Some t /\
     truthy (stoptimes t) = true).
Proof.
  unfold update_map. intros H. split_bind H as missing Em.
  destruct missing.
  - injection H as <- <-. split; [eexists; reflexivity | congruence].
  - split_bind H as layers El. destruct layers as [[fig0 trains] z].
    split_bind H as clicked Ec. destruct clicked.
    + split_bind H as vid Ev.
      destruct (resolve_train vid trains) as [t|] eqn:Er.
      * split_bind H as detail Ed. destruct detail as [fig1 info1].
        injection H as <- <-. split; [eexists; reflexivity|].
        intros Hi. exists fig0, trains, z, vid, t.
        split; [exact El|]. split; [exact Ev|]. split; [exact Er|].
        exact (route_detail_panel _ _ _ Ed Hi).
      * injection H as <- <-. split; [eexists; reflexivity | congruence].
    + injection H as <- <-. split; [eexists; reflexivity | congruence].
Qed.

(** A click on a point that carries no [customdata] (the stop markers and
    the route line carry none) makes [update_map] raise [KeyError], once
    the trains and the viewport have been read. *)
Theorem update_map_click_without_customdata (w : world)
    (relayoutData prev_fig : pyval) (doc d cd p : list (string * pyval))
    (vps rest : list pyval) (z : pyval) (b : option bounds) :
  dict_get doc "data" = Some (PDict d) ->
  dict_get d "vehiclePositions" = Some (PList vps) ->
  Forall projectable vps ->
  get_bounds relayoutData = Ok (z, b) ->
  dict_get cd "points" = Some (PList (PDict p :: rest)) ->
  dict_get p "customdata" = None ->
  update_map w (PDict cd) relayoutData prev_fig (PDict doc) = Raise KeyError.
Proof.
  intros Hdoc Hvps Hrec Hb Hpts Hcd.
  destruct (trains_of_projectable Hrec) as (ts & Ets & _).
  unfold update_map, no_document.
  cbn [is_dict negb py_in py_item bind]. unfold dict_has. rewrite Hdoc.
  cbn [negb bind py_in]. unfold dict_has. rewrite Hvps. cbn [negb bind].
  unfold map_layers, py_item, py_get, py_get_or, lookup_or.
  rewrite Hdoc. cbn [bind]. rewrite Hvps. cbn [bind]. rewrite Ets. cbn [bind].
  rewrite Hb. cbn [bind].
  unfold get_selected_vehicle_id.
  assert (Ht : truthy (PDict cd) = true) by (destruct cd; [discriminate | reflexivity]).
  rewrite Ht. cbn [py_in bind]. unfold dict_has. rewrite Hpts.
  cbn [bind py_item]. rewrite Hpts.
  cbn [bind py_at seq_index List.length Z.of_nat Z.ltb Z.leb Z.compare orb
       Pos.of_succ_nat Z.to_nat nth_error py_item].
  rewrite Hcd. reflexivity.
Qed.

End Guards.

Lemma update_map_no_document_witness :
  update_map (RT := ref_runtime) sample_world trip_click PNone PNone PNone
  = Ok ({| fig_data := []; fig_layout := Some (default_layout (PInt 7)) |},
        Txt "").
Proof.
  apply (@update_map_no_document ref_runtime sample_world trip_click PNone PNone PNone).
  left. reflexivity.
Defined.

Lemma update_map_data_not_container_witness :
  update_map (RT := ref_runtime) sample_world PNone PNone PNone
    (PDict [("errors", PList [PStr "timeout"]); ("data", PNone)])
  = Raise TypeError.
Proof.
  apply (@update_map_data_not_container ref_runtime sample_world PNone PNone PNone
           [("errors", PList [PStr "timeout"]); ("data", PNone)] PNone).
  - reflexivity.
  - left. reflexivity.
Defined.

Lemma update_map_layout_and_panel_witness :
  exists fig info,
    update_map (RT := ref_runtime) sample_world trip_click PNone PNone trip_doc
    = Ok (fig, info) /\
    (exists z, fig_layout fig = Some (default_layout z)) /\
    (info <> Txt "" ->
     exists fig0 trains z vid t,
       map_layers (RT := ref_runtime) trip_click PNone trip_doc
       = Ok (fig0, trains, z) /\
       clicked_id (RT := ref_runtime) trip_click = Ok vid /\
       resolve_train (RT := ref_runtime) vid trains = Some t /\
       truthy (stoptimes t) = true).
Proof.
  assert (E : exists fig info,
             update_map (RT := ref_runtime) sample_world trip_click PNone PNone
               trip_doc = Ok (fig, info)).
  { eexists. eexists. vm_compute. reflexivity. }
  destruct E as (fig & info & E). exists fig, info. split; [exact E|].
  exact (@update_map_layout_and_panel ref_runtime _ _ _ _ _ _ _ E).
Defined.

Lemma update_map_click_without_customdata_witness :
  update_map (RT := ref_runtime) sample_world
    (PDict [("points", PList [PDict [("curveNumber", PInt 1)]])])
    PNone PNone sample_doc
  = Raise KeyError.
Proof.
  apply (@update_map_click_without_customdata ref_runtime sample_world PNone PNone
           [("data", PDict [("vehiclePositions", PList [sample_vehicle])])]
           [("vehiclePositions", PList [sample_vehicle])]
           [("points", PList [PDict [("curveNumber", PInt 1)]])]
           [("curveNumber", PInt 1)]
           [sample_vehicle] [] (PInt 7) None).
  - reflexivity.
  - reflexivity.
  - repeat constructor. eexists. split; [reflexivity|].
    intros _. split; left; reflexivity.
  - reflexivity.
  - reflexivity.
  - reflexivity.
Defined.

(** *** From a marker back to its train *)

Section Resolve.

Context {RT : PyRuntime}.

Lemma find_train_some (key : train -> pyval) (vid : string)
    (trains : list train) (t : train) :
  find_train key vid trains = Some t -> In t trains /\ py_str (key t) = vid.
Proof.
  unfold find_train. intros H. apply find_some in H. destruct H as [Hin Heq].
  split; [exact Hin | apply String.eqb_eq; exact Heq].
Qed.

Lemma find_train_none (key : train -> pyval) (vid : string)
    (trains : list train) :
  find_train key vid trains = None ->
  forall t, In t trains -> py_str (key t) <> vid.
Proof.
  unfold find_train. intros H t Ht Heq.
  pose proof (find_none _ _ H t Ht) as Hf. cbv beta in Hf.
  apply String.eqb_neq in Hf. contradiction.
Qed.

(** The train a click resolves to is one of the trains; its vehicle id is
    the clicked identifier, or else no train has that vehicle id and its
    display name is the clicked identifier. *)
Theorem resolve_train_sound (vid : string) (trains : list train) (t : train) :
  resolve_train vid trains = Some t ->
  In t trains /\
  (py_str (vehicleId t) = vid \/
   (py_str (name t) = vid /\
    forall t', In t' trains -> py_str (vehicleId t') <> vid)).
Proof.
  unfold resolve_train.
  destruct (find_train vehicleId vid trains) as [t0|] eqn:E0.
  - intros H. injection H as <-.
    destruct (find_train_some _ _ _ E0) as [Hin Heq].
    split; [exact Hin | left; exact Heq].
  - intros H. destruct (find_train_some _ _ _ H) as [Hin Heq].
    split; [exact Hin|]. right. split; [exact Heq|].
    apply find_train_none. exact E0.
Qed.

Lemma Forall2_In_l {A B : Type} (R : A -> B -> Prop) (xs : list A) (ys : list B)
    (x : A) :
  Forall2 R xs ys -> In x xs -> exists y, In y ys /\ R x y.
Proof.
  induction 1 as [|x0 y0 xs ys Hxy _ IH]; intros Hin; [destruct Hin|].
  destruct Hin as [<- | Hin].
  - exists y0. split; [left; reflexivity | exact Hxy].
  - destruct (IH Hin) as (y & Hy & HR). exists y. split; [right; exact Hy | exact HR].
Qed.

(** The identifier on the marker of a plotted vehicle leads back to a train:
    when the vehicle has a non-falsy vehicle id or a non-falsy trip short
    name, a click on its marker resolves to a train that carries that
    identifier as its vehicle id or as its name. *)
Theorem marker_click_resolves (vps : list pyval) (ts : list train) (v : pyval) :
  Forall vehicle_record vps ->
  trains_of vps = Ok ts ->
  In v vps -> plotted v = true ->
  truthy (field v "vehicleId") = true
  \/ truthy (field (field v "trip") "tripShortName") = true ->
  exists t, resolve_train (derived_id v) ts = Some t /\ In t ts /\
            (py_str (vehicleId t) = derived_id v
             \/ py_str (name t) = derived_id v).
Proof.
  intros Hrec Hts Hv Hp Hid.
  destruct (trains_of_record Hrec) as (ts' & Ets & F2).
  rewrite Hts in Ets. injection Ets as <-.
  assert (Hvf : In v (filter plotted vps)) by (apply filter_In; split; assumption).
  destruct (@Forall2_In_l _ _ _ _ _ v F2 Hvf) as (tv & Htv & Ev).
  rewrite Forall_forall in Hrec. destruct (Hrec v Hv) as (d & -> & Ht & Hs).
  rewrite (get_train_info_record Ht Hs) in Ev. injection Ev as Ev.
  assert (Hown : py_str (vehicleId tv) = derived_id (PDict d)
                 \/ py_str (name tv) = derived_id (PDict d)).
  { rewrite <- Ev. cbn [vehicleId name]. unfold derived_id, first_truthy.
    cbn [field] in *.
    assert (Esh : field (lookup_or d "trip" PNone) "tripShortName"
                  = lookup_or (nested d "trip") "tripShortName" PNone).
    { unfold nested, lookup_or. destruct Ht as [-> | [d' ->]]; reflexivity. }
    rewrite Esh in *.
    destruct (truthy (lookup_or d "vehicleId" PNone)) eqn:E1;
      [left; reflexivity|].
    destruct Hid as [Hid | Hid]; [discriminate|].
    rewrite Hid. right. reflexivity. }
  assert (Hsome : resolve_train (derived_id (PDict d)) ts <> None).
  { unfold resolve_train.
    destruct (find_train vehicleId (derived_id (PDict d)) ts) eqn:E0;
      [discriminate|].
    intros E1. destruct Hown as [Hown | Hown].
    - exact (@find_train_none _ _ _ E0 tv Htv Hown).
    - exact (@find_train_none _ _ _ E1 tv Htv Hown). }
  destruct (resolve_train (derived_id (PDict d)) ts) as [t|] eqn:Er;
    [|congruence].
  exists t. split; [reflexivity|].
  unfold resolve_train in Er.
  destruct (find_train vehicleId (derived_id (PDict d)) ts) as [t0|] eqn:E0.
  - injection Er as <-. destruct (find_train_some _ _ _ E0) as [Hin Heq].
    split; [exact Hin | left; exact Heq].
  - destruct (find_train_some _ _ _ Er) as [Hin Heq].
    split; [exact Hin | right; exact Heq].
Qed.

(** The markers of vehicles without identity all carry ['unknown'], and a
    click on one resolves to no train: the trains of such vehicles are
    named ['Unknown'] or [None]. *)
Theorem anonymous_markers_unresolved (vps : list pyval) (ts : list train) :
  Forall anonymous vps ->
  trains_of vps = Ok ts ->
  Forall (fun v => vehicle_ident v = Ok "unknown") vps /\
  resolve_train "unknown" ts = None.
Proof.
  intros Han Hts. split.
  - eapply Forall_impl; [|exact Han].
    intros v (d & -> & Hvid & Htrip & _).
    unfold vehicle_ident, py_or. cbn [py_get py_get_or bind]. unfold lookup_or.
    destruct Hvid as [Ev | Ev]; rewrite Ev; cbn [truthy bind];
      (destruct Htrip as [Et | (d' & Et & [Es | Es])]; rewrite Et;
       cbn [bind py_get py_get_or]; unfold lookup_or; try rewrite Es;
       reflexivity).
  - assert (Hall : Forall (fun t => py_str (vehicleId t) <> "unknown"
                                    /\ py_str (name t) <> "unknown") ts).
    { unfold trains_of in Hts. revert ts Hts.
      induction Han as [|v vps Hv _ IH]; intros ts Hts; cbn [filter_mapM] in Hts.
      - injection Hts as <-. constructor.
      - split_bind Hts as b Eb. destruct b; [|apply IH; exact Hts].
        split_bind Hts as t Et. split_bind Hts as ts' Ets.
        injection Hts as <-. constructor; [|apply IH; exact Ets].
        destruct Hv as (d & -> & Hvid & Htrip & Hs).
        assert (Ht : object_or_absent d "trip").
        { destruct Htrip as [H | (d' & H & _)]; [left | right; eexists]; exact H. }
        rewrite (get_train_info_record Ht Hs) in Et. injection Et as <-.
        cbn [vehicleId name]. unfold nested, lookup_or.
        destruct Hvid as [Ev | Ev]; rewrite Ev;
          (destruct Htrip as [Ed | (d' & Ed & [Es | Es])]; rewrite Ed;
           try rewrite Es; cbn [truthy py_str py_repr]; split; discriminate). }
    unfold resolve_train.
    destruct (find_train vehicleId "unknown" ts) as [t|] eqn:E0.
    + destruct (find_train_some _ _ _ E0) as [Hin Heq].
      rewrite Forall_forall in Hall. destruct (Hall t Hin) as [Hn _].
      contradiction.
    + destruct (find_train name "unknown" ts) as [t|] eqn:E1; [|reflexivity].
      destruct (find_train_some _ _ _ E1) as [Hin Heq].
      rewrite Forall_forall in Hall. destruct (Hall t Hin) as [_ Hn].
      contradiction.
Qed.

End Resolve.

Lemma resolve_train_sound_witness :
  In sample_train [sample_train] /\
  (py_str (RT := ref_runtime) (vehicleId sample_train) = "V1" \/
   (py_str (RT := ref_runtime) (name sample_train) = "V1" /\
    forall t', In t' [sample_train] ->
      py_str (RT := ref_runtime) (vehicleId t') <> "V1")).
Proof.
  apply (@resolve_train_sound ref_runtime "V1" [sample_train] sample_train).
  reflexivity.
Defined.

Lemma marker_click_resolves_witness :
  exists t,
    resolve_train (RT := ref_runtime) (derived_id (RT := ref_runtime) sample_vehicle)
      [sample_train] = Some t /\
    In t [sample_train] /\
    (py_str (RT := ref_runtime) (vehicleId t)
     = derived_id (RT := ref_runtime) sample_vehicle
     \/ py_str (RT := ref_runtime) (name t)
        = derived_id (RT := ref_runtime) sample_vehicle).
Proof.
  apply (@marker_click_resolves ref_runtime [sample_vehicle] [sample_train]
           sample_vehicle).
  - repeat constructor. eexists. split; [reflexivity | split; left; reflexivity].
  - reflexivity.
  - left. reflexivity.
  - reflexivity.
  - left. reflexivity.
Defined.

Lemma anonymous_markers_unresolved_witness :
  Forall (fun v => vehicle_ident (RT := ref_runtime) v = Ok "unknown")
    [PDict [("lat", PFloat 47.5); ("lon", PFloat 19);
            ("trip", PDict [("tripShortName", PNone)])]] /\
  resolve_train (RT := ref_runtime) "unknown"
    [{| name := PStr "Unknown"; lat := PFloat 47.5; lon := PFloat 19;
        speed := PStr "N/A"; delay := PStr "N/A"; stoptimes := PList [];
        gtfsId := PNone; route := PDict []; vehicleId := PNone |}] = None.
Proof.
  apply (@anonymous_markers_unresolved ref_runtime).
  - repeat constructor. eexists. split; [reflexivity|].
    split; [left; reflexivity|]. split; [|left; reflexivity].
    right. eexists. split; [reflexivity | right; reflexivity].
  - reflexivity.
Defined.

(** *** The stops of the clicked train *)

Section Stops.

Context {RT : PyRuntime}.

Lemma stop_guard (s : pyval) (b : bool) :
  (st <- py_get s "stop" ;; Ok (truthy st)) = Ok b ->
  exists d, s = PDict d /\ b = shown s.
Proof.
  destruct s as [| | | | | |d]; try discriminate.
  cbn [py_get py_get_or bind]. intros H. injection H as <-.
  exists d. split; reflexivity.
Qed.

Lemma stop_field_length (k : string) (stops l : list pyval) :
  stop_field k stops = Ok l -> List.length l = List.length (filter shown stops).
Proof.
  unfold stop_field. revert l.
  induction stops as [|s stops IH]; intros l H; cbn [filter_mapM] in H.
  - injection H as <-. reflexivity.
  - split_bind H as b Eb. destruct (stop_guard _ Eb) as (d & -> & ->).
    cbn [filter]. destruct (shown (PDict d)).
    + split_bind H as x Ex. split_bind H as l' El. injection H as <-.
      cbn [List.length]. f_equal. apply IH. exact El.
    + apply IH. exact H.
Qed.

(** The latitudes, the longitudes and the names of the stop markers are
    taken from the same stops: whenever the three lists are built, they have
    one entry per shown stop, so they have the same length. *)
Theorem stop_markers_aligned (stops stop_lats stop_lons stop_names : list pyval) :
  stop_field "lat" stops = Ok stop_lats ->
  stop_field "lon" stops = Ok stop_lons ->
  stop_field "name" stops = Ok stop_names ->
  List.length stop_lats = List.length (filter shown stops) /\
  List.length stop_lons = List.length stop_lats /\
  List.length stop_names = List.length stop_lats.
Proof.
  intros Hla Hlo Hnm.
  rewrite (stop_field_length _ _ Hla), (stop_field_length _ _ Hlo),
    (stop_field_length _ _ Hnm).
  repeat split.
Qed.

Lemma stop_rows_length_from (next : option nat) (stops : list pyval) (i : nat)
    (rows : list html) :
  stop_rows next i stops = Ok rows ->
  List.length rows
  = (List.length (filter shown stops)
     + match next with
       | Some n => if (i <? n)%nat then divider_after stops (n - 1 - i) else 0
       | None => 0
       end)%nat.
Proof.
  revert i rows. induction stops as [|s stops IH]; intros i rows H;
    cbn [stop_rows] in H.
  - injection H as <-. cbn [filter List.length].
    destruct next as [n|]; [|reflexivity].
    unfold divider_after. destruct (n - 1 - i)%nat; destruct (i <? n)%nat; reflexivity.
  - split_bind H as st Est.
    assert (Hs : exists d, s = PDict d /\ truthy st = shown s).
    { destruct s as [| | | | | |d]; try discriminate.
      cbn in Est. injection Est as <-. exists d. split; reflexivity. }
    destruct Hs as (d & -> & Hsh). rewrite Hsh in H. cbn [filter].
    assert (Hshift : match next with
                     | Some n => if (i <? n)%nat
                                 then divider_after (PDict d :: stops) (n - 1 - i)
                                 else 0
                     | None => 0
                     end
                     = ((if shown (PDict d) && is_next (S i) next then 1 else 0)
                        + match next with
                          | Some n => if (S i <? n)%nat
                                      then divider_after stops (n - 1 - S i)
                                      else 0
                          | None => 0
                          end)%nat).
    { destruct next as [n|]; cbn [is_next];
        [|rewrite andb_false_r; reflexivity].
      destruct (i <? n)%nat eqn:E1; [apply Nat.ltb_lt in E1 | apply Nat.ltb_ge in E1].
      - destruct (S i =? n)%nat eqn:E2;
          [apply Nat.eqb_eq in E2 | apply Nat.eqb_neq in E2].
        + replace (n - 1 - i)%nat with 0%nat by lia.
          replace (S i <? n)%nat with false by (symmetry; apply Nat.ltb_ge; lia).
          unfold divider_after. cbn [nth_error].
          destruct (shown (PDict d)); reflexivity.
        + replace (n - 1 - i)%nat with (S (n - 1 - S i)) by lia.
          replace (S i <? n)%nat with true by (symmetry; apply Nat.ltb_lt; lia).
          rewrite andb_false_r. unfold divider_after. cbn [nth_error].
          reflexivity.
      - replace (S i =? n)%nat with false by (symmetry; apply Nat.eqb_neq; lia).
        replace (S i <? n)%nat with false by (symmetry; apply Nat.ltb_ge; lia).
        rewrite andb_false_r. reflexivity. }
    rewrite Hshift. destruct (shown (PDict d)); cbn [negb andb] in *.
    + split_bind H as row Er. split_bind H as rest Erest. injection H as <-.
      destruct (is_next (S i) next); cbn [List.length];
        rewrite (IH _ _ Erest); lia.
    + rewrite (IH _ _ H). reflexivity.
Qed.

(** The listing has one row per shown stop and at most one divider: the
    divider comes when the next stop is not the first one and the stop just
    before it is shown; with the next stop first, or with no next stop,
    there is none. *)
Theorem stop_rows_length (next : option nat) (stops : list pyval)
    (rows : list html) :
  stop_rows next 0 stops = Ok rows ->
  List.length rows
  = (List.length (filter shown stops)
     + match next with
       | Some (S m) => divider_after stops m
       | _ => 0
       end)%nat.
Proof.
  intros H. rewrite (stop_rows_length_from _ _ _ H).
  destruct next as [[|m]|]; try reflexivity.
  cbn [Nat.ltb Nat.leb]. replace (S m - 1 - 0)%nat with m by lia. reflexivity.
Qed.

Lemma seq_index_nth {A : Type} (l : list A) (i : nat) (x : A) :
  nth_error l i = Some x -> seq_index l (Z.of_nat i) = Ok x.
Proof.
  intros H. unfold seq_index.
  assert (Hi : (i < List.length l)%nat) by (apply nth_error_Some; congruence).
  destruct (Z.of_nat i <? 0)%Z eqn:E1; [apply Z.ltb_lt in E1; lia|].
  rewrite E1. cbn [orb].
  destruct (Z.of_nat (List.length l) <=? Z.of_nat i)%Z eqn:E2;
    [apply Z.leb_le in E2; lia|].
  rewrite Nat2Z.id, H. reflexivity.
Qed.

Lemma find_next_stop_objects (now_sec : Z) (stops : list pyval) (i : nat)
    (r : option nat) :
  find_next_stop now_sec i stops = Ok r ->
  match r with
  | Some j => (i <= j)%nat /\
              exists d, nth_error stops (j - i) = Some (PDict d)
  | None => Forall (fun s => exists d, s = PDict d) stops
  end.
Proof.
  revert i. induction stops as [|s stops IH]; intros i H;
    cbn [find_next_stop] in H.
  - injection H as <-. constructor.
  - split_bind H as arr Ea.
    assert (Hs : exists d, s = PDict d).
    { destruct s; try discriminate. eexists; reflexivity. }
    split_bind H as dep Ed. split_bind H as a Eai. split_bind H as b Ebi.
    destruct (after a now_sec || after b now_sec).
    + injection H as <-. split; [lia|]. rewrite Nat.sub_diag.
      destruct Hs as [d ->]. exists d. reflexivity.
    + specialize (IH _ H). destruct r as [j|].
      * destruct IH as (Hle & d & Hn). split; [lia|]. exists d.
        replace (j - i)%nat with (S (j - S i)) by lia. exact Hn.
      * constructor; assumption.
Qed.

(** Once the search for the next stop has returned on a non-empty list of
    stops, reading the delay cannot fail: a next stop is an index within the
    list, and the delay is the ['arrivalDelay'] of that stop, or of the last
    stop when there is no next stop ([None] when the key is absent). *)
Theorem delay_after_search (now_sec : Z) (stops : list pyval) (r : option nat) :
  stops <> [] ->
  find_next_stop now_sec 0 stops = Ok r ->
  match r with
  | Some j =>
      exists s, nth_error stops j = Some s /\
                delay_of (PList stops) r = Ok (field s "arrivalDelay")
  | None =>
      delay_of (PList stops) r = Ok (field (last stops PNone) "arrivalDelay")
  end.
Proof.
  intros Hne H. pose proof (find_next_stop_objects _ _ _ H) as Hr.
  destruct r as [j|].
  - destruct Hr as (_ & d & Hn). rewrite Nat.sub_0_r in Hn.
    exists (PDict d). split; [exact Hn|].
    cbn [delay_of py_at]. rewrite (seq_index_nth _ _ Hn). reflexivity.
  - cbn [delay_of py_at]. rewrite (seq_index_last PNone Hne). cbn [bind].
    rewrite Forall_forall in Hr.
    destruct (Hr (last stops PNone)) as [d ->]; [|reflexivity].
    eapply nth_error_In. apply nth_error_last. exact Hne.
Qed.

(** A delay of less than a minute: a late train shows ["+0 min"] in the
    late color, an early one shows ["-1 min"] (the minutes are floored) in
    the on-time color. *)
Theorem delay_under_a_minute (d : Z) :
  ((0 < d < 60)%Z ->
   delay_min_of (PInt d) = Ok "+0 min" /\ delay_color_of (PInt d) = Ok "#e67e22")
  /\
  ((-60 <= d < 0)%Z ->
   delay_min_of (PInt d) = Ok "-1 min" /\ delay_color_of (PInt d) = Ok "#2ecc40").
Proof.
  split; intros Hd; unfold delay_min_of, delay_color_of;
    cbn [py_int bind truthy].
  - rewrite Z.div_small by lia.
    replace (d =? 0)%Z with false by (symmetry; apply Z.eqb_neq; lia).
    replace (0 <? d)%Z with true by (symmetry; apply Z.ltb_lt; lia).
    split; reflexivity.
  - replace (d / 60)%Z with (-1)%Z
      by (apply (Z.div_unique d 60 (-1) (d + 60)); lia).
    replace (d =? 0)%Z with false by (symmetry; apply Z.eqb_neq; lia).
    replace (0 <? d)%Z with false by (symmetry; apply Z.ltb_ge; lia).
    split; reflexivity.
Qed.

Lemma seconds_to_hhmm_returns (v : pyval) : exists t, seconds_to_hhmm v = Ok t.
Proof.
  unfold seconds_to_hhmm.
  destruct (match v with PNone => true | _ => false end || py_eq v (PStr ""));
    [eexists; reflexivity|].
  destruct (py_int v); cbn [bind try_except]; eexists; reflexivity.
Qed.

(** A stop-time without a real-time value (the key absent, null or 0)
    shows its scheduled time alone, in the on-time color, with nothing
    struck through. *)
Theorem time_cell_without_realtime (sc rt : string) (d : list (string * pyval)) :
  truthy (lookup_or d rt PNone) = false ->
  exists t,
    seconds_to_hhmm (lookup_or d sc PNone) = Ok t /\
    time_cell sc rt (PDict d)
    = Ok (El "Span"
            (Children [NoChild; El "Span" (Txt t) None (time_style "#2ecc40")])
            None cell_style).
Proof.
  intros H. destruct (seconds_to_hhmm_returns (lookup_or d sc PNone)) as [t Et].
  exists t. split; [exact Et|].
  unfold time_cell, both_and. cbn [py_get py_get_or bind].
  rewrite H. cbn [negb bind]. rewrite Et. reflexivity.
Qed.

End Stops.

Lemma stop_markers_aligned_witness :
  exists stop_lats stop_lons stop_names : list pyval,
    stop_field "lat" trip_stop_list = Ok stop_lats /\
    List.length stop_lats = List.length (filter shown trip_stop_list) /\
    List.length stop_lons = List.length stop_lats /\
    List.length stop_names = List.length stop_lats.
Proof.
  assert (E : exists la lo nm,
             stop_field "lat" trip_stop_list = Ok la
             /\ stop_field "lon" trip_stop_list = Ok lo
             /\ stop_field "name" trip_stop_list = Ok nm).
  { do 3 eexists. repeat split; vm_compute; reflexivity. }
  destruct E as (la & lo & nm & Ela & Elo & Enm).
  exists la, lo, nm. split; [exact Ela|].
  exact (stop_markers_aligned _ Ela Elo Enm).
Defined.

Lemma stop_rows_length_witness :
  exists rows,
    stop_rows (RT := ref_runtime) (Some 1%nat) 0 trip_stop_list = Ok rows /\
    List.length rows = 3%nat.
Proof.
  assert (E : exists rows,
             stop_rows (RT := ref_runtime) (Some 1%nat) 0 trip_stop_list = Ok rows).
  { eexists. vm_compute. reflexivity. }
  destruct E as (rows & E). exists rows. split; [exact E|].
  exact (@stop_rows_length ref_runtime (Some 1%nat) trip_stop_list rows E).
Defined.

Lemma delay_after_search_witness :
  exists s,
    nth_error trip_stop_list 1 = Some s /\
    delay_of (PList trip_stop_list) (Some 1%nat) = Ok (field s "arrivalDelay").
Proof.
  apply (@delay_after_search ref_runtime 43200 trip_stop_list (Some 1%nat)).
  - discriminate.
  - reflexivity.
Defined.

Lemma time_cell_without_realtime_witness :
  exists t,
    seconds_to_hhmm (RT := ref_runtime)
      (lookup_or [("scheduledArrival", PInt 36000)] "scheduledArrival" PNone)
    = Ok t /\
    time_cell (RT := ref_runtime) "scheduledArrival" "realtimeArrival"
      (PDict [("scheduledArrival", PInt 36000)])
    = Ok (El "Span"
            (Children [NoChild; El "Span" (Txt t) None (time_style "#2ecc40")])
            None cell_style).
Proof.
  apply (@time_cell_without_realtime ref_runtime "scheduledArrival"
           "realtimeArrival" [("scheduledArrival", PInt 36000)]).
  reflexivity.
Defined.

Lemma time_cell_differ_witness :
  exists ta tb,
    seconds_to_hhmm (RT := ref_runtime) (PInt 36000) = Ok ta /\
    seconds_to_hhmm (RT := ref_runtime) (PInt 36060) = Ok tb /\
    time_cell (RT := ref_runtime) "scheduledArrival" "realtimeArrival"
      (PDict [("scheduledArrival", PInt 36000); ("realtimeArrival", PInt 36060)])
    = Ok (El "Span"
            (Children
               [El "Span" (Txt ta) None struck_style;
                El "Span" (Txt tb) None
                   (time_style (if (36000 <? 36060)%Z then "#e74c3c" else "#2ecc40"))])
            None cell_style).
Proof.
  apply (@time_cell_differ ref_runtime "scheduledArrival" "realtimeArrival"
           [("scheduledArrival", PInt 36000); ("realtimeArrival", PInt 36060)]
           36000 36060); try reflexivity; discriminate.
Defined.

Lemma map_layers_zoomed_out_witness :
  exists ts tr,
    trains_of [sample_vehicle] = Ok ts /\
    map_layers (RT := ref_runtime) stray_click PNone sample_doc
    = Ok (add_trace empty_figure tr, ts, PInt 7).
Proof.
  apply (@map_layers_zoomed_out ref_runtime stray_click PNone
           [("data", PDict [("vehiclePositions", PList [sample_vehicle])])]
           [("vehiclePositions", PList [sample_vehicle])]
           [sample_vehicle] (PInt 7) None (Some "nobody")).
  - reflexivity.
  - reflexivity.
  - repeat constructor. eexists. split; [reflexivity | split; left; reflexivity].
  - reflexivity.
  - reflexivity.
  - reflexivity.
Defined.

(** *** Colors and arrows, whatever the document *)

Section Layers.

Context {RT : PyRuntime}.

(** Whatever the vehicle list, when [get_marker_colors] returns there is
    one color per vehicle, each the selection color or ['blue'], and with no
    selection (none, or the empty string) every color is ['blue']. *)
Theorem get_marker_colors_shape (vps : list pyval) (selected : option string)
    (cs : list string) :
  get_marker_colors vps selected = Ok cs ->
  List.length cs = List.length vps /\
  Forall (fun c => c = "#e67e22" \/ c = "blue") cs /\
  (selected = None \/ selected = Some "" -> Forall (fun c => c = "blue") cs).
Proof.
  unfold get_marker_colors. revert cs.
  induction vps as [|v vps IH]; intros cs H; cbn [mapM] in H.
  - injection H as <-. repeat split; constructor.
  - split_bind H as c Ec. split_bind H as cs' Ecs. injection H as <-.
    destruct (IH _ Ecs) as (Hlen & Hall & Hnone).
    split_bind Ec as vid Evid. injection Ec as <-.
    split; [cbn [List.length]; f_equal; exact Hlen|]. split.
    + constructor; [|exact Hall].
      destruct (is_selected selected vid); [left | right]; reflexivity.
    + intros Hs. constructor; [|apply Hnone; exact Hs].
      destruct Hs as [-> | ->]; reflexivity.
Qed.

Lemma arrow_of_text (i : nat) (t : train) (h : pyval) (a : arrow) :
  arrow_of i t h = Ok a ->
  a_text a = py_str (name t) ++ " heading: " ++ py_str h.
Proof.
  unfold arrow_of. intros H. repeat invert_bind H.
  injection H as <-. reflexivity.
Qed.

Lemma collect_arrows_heading (data : pyval) (b : option bounds)
    (trains : list train) (i : nat) (arrows : list arrow) :
  collect_arrows data b i trains = Ok arrows ->
  forall a, In a arrows ->
    exists t h, In t trains /\
      heading_of data (lat t) (lon t) = Ok h /\ h <> PNone /\
      a_lat1 a = lat t /\ a_lon1 a = lon t /\
      a_text a = py_str (name t) ++ " heading: " ++ py_str h.
Proof.
  revert i arrows. induction trains as [|t trains IH]; intros i arrows H a Ha.
  - injection H as <-. destruct Ha.
  - assert (Hrec : forall arrows', collect_arrows data b (S i) trains = Ok arrows' ->
               In a arrows' ->
               exists t' h, In t' (t :: trains) /\
                 heading_of data (lat t') (lon t') = Ok h /\ h <> PNone /\
                 a_lat1 a = lat t' /\ a_lon1 a = lon t' /\
                 a_text a = py_str (name t') ++ " heading: " ++ py_str h).
    { intros arrows' H' Ha'.
      destruct (IH _ _ H' a Ha') as (t' & h & Hin & Hrest).
      exists t', h. split; [right; exact Hin | exact Hrest]. }
    cbn [collect_arrows] in H. split_bind H as inside Ein.
    destruct inside; cbn [negb] in H; [|eapply Hrec; eassumption].
    split_bind H as h Eh.
    destruct h as [|hb|hz|hf|hs|hl|hd];
      try (eapply Hrec; eassumption);
      (split_bind H as a0 Ea; split_bind H as rest Erest; injection H as <-;
       destruct Ha as [<- | Ha]; [|eapply Hrec; eassumption];
       destruct (arrow_of_fields _ _ _ Ea) as (_ & Hla & Hlo);
       eexists t, _; split; [left; reflexivity|];
       split; [exact Eh|]; split; [discriminate|];
       split; [exact Hla|]; split; [exact Hlo|];
       exact (arrow_of_text _ _ _ Ea)).
Qed.

(** No arrow without a heading: every arrow [add_heading_arrows] adds
    starts at a train for which the raw records gave a heading that is not
    null, and the label of its head names that train and that heading. *)
Theorem arrows_have_headings (fig fig' : figure) (trains : list train)
    (data : pyval) (b : option bounds) (zoom : pyval) :
  add_heading_arrows fig trains data b zoom = Ok fig' ->
  fig' = fig \/
  exists arrows,
    fig_data fig' = (fig_data fig ++ map heading_line arrows ++ heads_of arrows)%list /\
    forall a, In a arrows ->
      exists t h, In t trains /\
        heading_of data (lat t) (lon t) = Ok h /\ h <> PNone /\
        a_lat1 a = lat t /\ a_lon1 a = lon t /\
        a_text a = py_str (name t) ++ " heading: " ++ py_str h.
Proof.
  intros H.
  destruct (add_heading_arrows_cases _ _ _ _ _ H)
    as [[_ ->] | [_ (arrows & Ec & Hd & _)]]; [left; reflexivity|].
  right. exists arrows. split; [exact Hd|].
  exact (collect_arrows_heading _ _ _ _ Ec).
Qed.

End Layers.

Lemma get_marker_colors_shape_witness :
  List.length ["blue"; "#e67e22"] = List.length [sample_vehicle; trip_vehicle] /\
  Forall (fun c => c = "#e67e22" \/ c = "blue") ["blue"; "#e67e22"] /\
  (Some "V9" = None \/ Some "V9" = Some "" ->
   Forall (fun c => c = "blue") ["blue"; "#e67e22"]).
Proof.
  apply (@get_marker_colors_shape ref_runtime [sample_vehicle; trip_vehicle]
           (Some "V9") ["blue"; "#e67e22"]).
  reflexivity.
Defined.

Lemma arrows_have_headings_witness :
  exists fig',
    add_heading_arrows (RT := ref_runtime) empty_figure [sample_train]
      sample_doc (Some sample_bounds) (PInt 13) = Ok fig' /\
    (fig' = empty_figure \/
     exists arrows,
       fig_data fig'
       = (fig_data empty_figure ++ map heading_line arrows ++ heads_of arrows)%list /\
       forall a, In a arrows ->
         exists t h, In t [sample_train] /\
           heading_of sample_doc (lat t) (lon t) = Ok h /\ h <> PNone /\
           a_lat1 a = lat t /\ a_lon1 a = lon t /\
           a_text a = py_str (RT := ref_runtime) (name t) ++ " heading: "
                        ++ py_str (RT := ref_runtime) h).
Proof.
  assert (E : exists fig',
             add_heading_arrows (RT := ref_runtime) empty_figure [sample_train]
               sample_doc (Some sample_bounds) (PInt 13) = Ok fig').
  { eexists. vm_compute. reflexivity. }
  destruct E as [fig' E]. exists fig'. split; [exact E|].
  exact (@arrows_have_headings ref_runtime _ _ _ _ _ _ E).
Defined.

(** *** The route detail *)

Section RouteDetail.

Context {RT : PyRuntime}.

(** When the detail of a train with a non-falsy stop-time sequence is
    drawn, the figure gains the stop markers and then, only for a trip with
    an identifier whose geometry request gave a line, the route line; a
    failed request adds nothing and fails nothing.  The panel is then not
    the empty string. *)
Theorem route_detail_traces (w : world) (fig fig' : figure) (t : train) (h : html) :
  truthy (stoptimes t) = true ->
  route_detail w fig t = Ok (fig', h) ->
  exists stop_lats stop_lons stop_names,
    fig_data fig'
    = (fig_data fig ++ stops_trace stop_lats stop_lons stop_names
                       :: route_line w t)%list /\
    fig_layout fig' = fig_layout fig /\
    h <> Txt "".
Proof.
  intros Hs. unfold route_detail. rewrite Hs. intros H.
  split_bind H as ss Ess. split_bind H as la Ela. split_bind H as lo Elo.
  split_bind H as nm Enm. split_bind H as next Enext.
  split_bind H as dv Edv. split_bind H as dm Edm. split_bind H as dc Edc.
  split_bind H as rows Erows. split_bind H as panel Epanel.
  injection H as <- <-. exists la, lo, nm. split; [|split].
  - unfold route_line. destruct (truthy (gtfsId t)).
    + destruct (route_geometry w (gtfsId t)) as [[rla rlo]|];
        cbn [add_trace fig_data]; rewrite <- ?app_assoc; reflexivity.
    + reflexivity.
  - destruct (truthy (gtfsId t));
      [destruct (route_geometry w (gtfsId t)) as [[rla rlo]|]|]; reflexivity.
  - unfold info_panel in Epanel.
    split_bind Epanel as r Er. split_bind Epanel as r1 Er1.
    split_bind Epanel as title Et. split_bind Epanel as first Ef.
    split_bind Epanel as last El. split_bind Epanel as nx En.
    injection Epanel as <-. discriminate.
Qed.

End RouteDetail.

Lemma route_detail_traces_witness :
  exists fig' h stop_lats stop_lons stop_names,
    route_detail (RT := ref_runtime) sample_world empty_figure trip_train
    = Ok (fig', h) /\
    fig_data fig'
    = (fig_data empty_figure
       ++ stops_trace stop_lats stop_lons stop_names
          :: route_line sample_world trip_train)%list /\
    fig_layout fig' = fig_layout empty_figure /\
    h <> Txt "".
Proof.
  assert (E : exists fig' h,
             route_detail (RT := ref_runtime) sample_world empty_figure
               trip_train = Ok (fig', h)).
  { do 2 eexists. vm_compute. reflexivity. }
  destruct E as (fig' & h & E).
  destruct (@route_detail_traces ref_runtime sample_world empty_figure fig'
              trip_train h eq_refl E)
    as (la & lo & nm & Hd & Hl & Hh).
  exists fig', h, la, lo, nm. split; [exact E|].
  split; [exact Hd|]. split; [exact Hl | exact Hh].
Defined.
